(** * wall-e-mail: the rule engine and the batch coordinator

    A shallow embedding of [rules/processor.py] (RuleCondition, Rule,
    RuleProcessor) and of the batch loop of [main.py] (process_emails).

    Python values are dynamically typed; the rule fields come unvalidated
    out of [json.load] and the message fields are [Dict[str, Any]], so the
    embedding works over a small universe [pyval] of Python values and
    writes out, for every primitive the code uses, which exception Python
    raises on which kind of value.  Strings are ASCII strings. *)

From Stdlib Require Import String Ascii ZArith NArith List Bool Lia.
From Stdlib Require Import DecimalString DecimalNat DecimalFacts.
Import ListNotations.

Set Warnings "-register-all".
Set Implicit Arguments.

Local Open Scope string_scope.
Local Open Scope Z_scope.

(** ** Python values and exceptions *)

(** [PDatetime wall tz]: a [datetime] whose wall-clock reading is [wall]
    microseconds after 0001-01-01T00:00:00 and whose [tzinfo] is [tz]
    ([None] for a naive datetime, [Some off] for an aware one). *)
Inductive pyval : Type :=
| PNone
| PBool (b : bool)
| PInt (z : Z)
| PStr (s : string)
| PList (l : list pyval)
| PDict (d : list (string * pyval))
| PDatetime (wall : Z) (tz : option Z).

(** A Python dict with string keys, as an association list (the first
    binding of a key is the live one). *)
Definition dict := list (string * pyval).

(** The subclasses of [Exception] the code can meet.  [OtherError] stands
    for whatever a collaborator raises ([HttpError], [sqlite3.Error], ...). *)
Inductive exn : Type :=
| KeyError (k : string)
| TypeError
| AttributeError
| ValueError
| IndexError
| OverflowError
| OtherError (msg : string).

(** [inl e] is "raised [e]", [inr v] is "returned [v]". *)
Definition res (A : Type) : Type := (exn + A)%type.

(** ** Dicts *)

Fixpoint dict_get (k : string) (d : dict) : option pyval :=
  match d with
  | [] => None
  | (k', v) :: d' => if String.eqb k k' then Some v else dict_get k d'
  end.

Definition dict_mem (k : string) (d : dict) : bool :=
  match dict_get k d with Some _ => true | None => false end.

(** [d[k] = v] *)
Fixpoint dict_set (k : string) (v : pyval) (d : dict) : dict :=
  match d with
  | [] => [(k, v)]
  | (k', v') :: d' =>
      if String.eqb k k' then (k, v) :: d' else (k', v') :: dict_set k v d'
  end.

(** [d[k]] on a dict: [KeyError] when the key is absent. *)
Definition dict_getitem (d : dict) (k : string) : res pyval :=
  match dict_get k d with
  | Some v => inr v
  | None => inl (KeyError k)
  end.

(** ** String primitives (ASCII) *)

Definition lower_ascii (c : ascii) : ascii :=
  let n := N_of_ascii c in
  if (65 <=? n)%N && (n <=? 90)%N then ascii_of_N (n + 32) else c.

(** [str.lower] *)
Fixpoint lower (s : string) : string :=
  match s with
  | EmptyString => EmptyString
  | String c r => String (lower_ascii c) (lower r)
  end.

(** [needle in hay] on two strings *)
Fixpoint str_contains (needle hay : string) : bool :=
  match hay with
  | EmptyString => String.prefix needle EmptyString
  | String _ r => String.prefix needle hay || str_contains needle r
  end.

(** The characters [str.split()] and [int()] treat as white space. *)
Definition is_space (c : ascii) : bool :=
  let n := N_of_ascii c in
  ((9 <=? n)%N && (n <=? 13)%N) || ((28 <=? n)%N && (n <=? 32)%N).

(** [str.split()]: the maximal runs of non-space characters.  [cur] is the
    token being read; [None] between tokens. *)
Fixpoint split_aux (cur : option string) (s : string) : list string :=
  match s with
  | EmptyString =>
      match cur with Some t => [t] | None => [] end
  | String c r =>
      if is_space c then
        match cur with
        | Some t => t :: split_aux None r
        | None => split_aux None r
        end
      else
        match cur with
        | Some t => split_aux (Some (t ++ String c EmptyString)) r
        | None => split_aux (Some (String c EmptyString)) r
        end
  end.

Definition split (s : string) : list string := split_aux None s.

Definition digit_of (c : ascii) : option Z :=
  let n := N_of_ascii c in
  if (48 <=? n)%N && (n <=? 57)%N then Some (Z.of_N n - 48) else None.

(** The digits of an [int()] literal, most significant first: at least one
    digit, single underscores allowed between digits. *)
Fixpoint int_digits (acc : Z) (after_digit : bool) (s : string) : option Z :=
  match s with
  | EmptyString => if after_digit then Some acc else None
  | String c r =>
      match digit_of c with
      | Some d => int_digits (10 * acc + d) true r
      | None =>
          if Ascii.eqb c "_" && after_digit then int_digits acc false r
          else None
      end
  end.

Fixpoint lstrip (s : string) : string :=
  match s with
  | String c r => if is_space c then lstrip r else s
  | EmptyString => EmptyString
  end.

Fixpoint rstrip (s : string) : string :=
  match s with
  | EmptyString => EmptyString
  | String c r =>
      match rstrip r with
      | EmptyString => if is_space c then EmptyString else String c EmptyString
      | r' => String c r'
      end
  end.

(** [int(s)] for a string in base 10: [ValueError] on anything else (the
    cap CPython puts on the number of digits is left out). *)
Definition py_int (s : string) : res Z :=
  let body_of (t : string) :=
    match t with
    | String "-" r => (-1, r)
    | String "+" r => (1, r)
    | _ => (1, t)
    end in
  let '(sign, body) := body_of (lstrip (rstrip s)) in
  match int_digits 0 false body with
  | Some n => inr (sign * n)
  | None => inl ValueError
  end.

(** ** Dynamic primitives on [pyval] *)

(** [v == "literal"]: only a string can equal a string. *)
Definition py_eq_str (v : pyval) (s : string) : bool :=
  match v with
  | PStr t => String.eqb t s
  | _ => false
  end.

(** [o[k]] for a string key [k]: a dict is looked up; a list or a string
    wants integer indices and the other values are not subscriptable. *)
Definition py_getitem (o : pyval) (k : string) : res pyval :=
  match o with
  | PDict d => dict_getitem d k
  | _ => inl TypeError
  end.

Fixpoint chars (s : string) : list pyval :=
  match s with
  | EmptyString => []
  | String c r => PStr (String c EmptyString) :: chars r
  end.

(** [for x in o]: the elements of a list, the keys of a dict, the
    characters of a string; the other values are not iterable. *)
Definition py_iter (o : pyval) : res (list pyval) :=
  match o with
  | PList l => inr l
  | PDict d => inr (map (fun kv => PStr (fst kv)) d)
  | PStr s => inr (chars s)
  | _ => inl TypeError
  end.

(** ["literal" in o] *)
Definition py_in (k : string) (o : pyval) : res bool :=
  match o with
  | PStr s => inr (str_contains k s)
  | PList l => inr (existsb (fun v => py_eq_str v k) l)
  | PDict d => inr (dict_mem k d)
  | _ => inl TypeError
  end.

(** [o.lower()] and [o.split()]: only strings have these attributes. *)
Definition py_lower (o : pyval) : res string :=
  match o with
  | PStr s => inr (lower s)
  | _ => inl AttributeError
  end.

Definition py_split (o : pyval) : res (list string) :=
  match o with
  | PStr s => inr (split s)
  | _ => inl AttributeError
  end.

(** [l[0]] *)
Definition py_first (l : list string) : res string :=
  match l with
  | t :: _ => inr t
  | [] => inl IndexError
  end.

(** [",".join(o)]: every item of the iterable must be a string. *)
Fixpoint all_strs (l : list pyval) : res (list string) :=
  match l with
  | [] => inr []
  | PStr s :: r =>
      match all_strs r with
      | inr ss => inr (s :: ss)
      | inl e => inl e
      end
  | _ :: _ => inl TypeError
  end.

Definition py_join (sep : string) (o : pyval) : res string :=
  match py_iter o with
  | inl e => inl e
  | inr items =>
      match all_strs items with
      | inl e => inl e
      | inr ss => inr (String.concat sep ss)
      end
  end.

(** ** [datetime] arithmetic *)

Definition DAY : Z := 86400000000.

(** [datetime.max] is 9999-12-31T23:59:59.999999, ordinal day 3652059. *)
Definition MAX_ORDINAL : Z := 3652059.
Definition MAX_DELTA_DAYS : Z := 999999999.

(** [timedelta(days=n)], in microseconds. *)
Definition timedelta_days (n : Z) : res Z :=
  if Z.abs n <=? MAX_DELTA_DAYS then inr (n * DAY) else inl OverflowError.

(** [dt - delta] on a naive datetime. *)
Definition datetime_sub (dt delta : Z) : res Z :=
  let r := dt - delta in
  if (0 <=? r) && (r <? MAX_ORDINAL * DAY) then inr r else inl OverflowError.

(** [field_value.tzinfo] *)
Definition py_tzinfo (o : pyval) : res (option Z) :=
  match o with
  | PDatetime _ tz => inr tz
  | _ => inl AttributeError
  end.


(** ** The runtime: world, clock, log *)

(** What the program runs against and does not define: the state of the
    outside world (mailbox, database, wall clock), [datetime.now()], and
    [str()] of a value that is not already a string. *)
Class Runtime : Type := {
  World : Type;
  datetime_now : World -> Z * World;
  py_repr : pyval -> string
}.

Inductive level : Type := DEBUG | INFO | ERROR.

(** One constructor per logging call of the source, carrying the values its
    f-string interpolates. *)
Inductive log_msg : Type :=
| FieldNotFound (field : pyval) (mapped : option string)
| ErrorEvaluatingDate (e : exn)
| ErrorApplyingActions (rule_name : pyval) (e : exn)
| ErrorLoadingRules (e : exn)
| AppliedActions (rule_name : pyval)
| FailedActions (rule_name : pyval)
| ErrorProcessingEmail (message_id : pyval) (e : exn)
| ProcessingBatch (size : nat)
| MarkedProcessed (count total : nat)
| ErrorProcessingBatch (e : exn)
| ErrorOccurred (e : exn).

Definition log_record : Type := (level * log_msg)%type.

Section PyMonad.
Context {RT : Runtime}.

(** The program state: the world and the records the logger received,
    oldest first. *)
Record state : Type := { world : World; logs : list log_record }.

(** A Python computation: it returns or raises, and either way leaves a
    state behind (effects made before a raise stay made). *)
Definition Py (A : Type) : Type := state -> res A * state.

Definition ret {A} (a : A) : Py A := fun s => (inr a, s).

Definition raise {A} (e : exn) : Py A := fun s => (inl e, s).

Definition bind {A B} (m : Py A) (k : A -> Py B) : Py B :=
  fun s =>
    match m s with
    | (inr a, s') => k a s'
    | (inl e, s') => (inl e, s')
    end.

(** A pure primitive that may raise. *)
Definition lift {A} (r : res A) : Py A := fun s => (r, s).

(** [try: m  except <classes>: h], [catches] telling which exceptions
    the [except] clause names. *)
Definition try_except {A} (m : Py A) (catches : exn -> bool)
    (h : exn -> Py A) : Py A :=
  fun s =>
    match m s with
    | (inl e, s') => if catches e then h e s' else (inl e, s')
    | r => r
    end.

(** [try: m  finally: f] *)
Definition try_finally {A} (m : Py A) (f : Py unit) : Py A :=
  fun s =>
    match m s with
    | (r, s') =>
        match f s' with
        | (inr _, s'') => (r, s'')
        | (inl e, s'') => (inl e, s'')
        end
    end.

Definition log_state (lv : level) (m : log_msg) (s : state) : state :=
  {| world := world s; logs := logs s ++ [(lv, m)] |}.

(** Modelled from the spec: the module [logger] is not among the sources.
    The spec has every failure "logged" and nothing more, so
    [logger.debug], [logger.info] and [logger.error] are taken to record
    their message and return. *)
Definition log (lv : level) (m : log_msg) : Py unit :=
  fun s => (inr tt, log_state lv m s).

(** [datetime.now()] *)
Definition now : Py Z :=
  fun s =>
    let '(t, w) := datetime_now (world s) in
    (inr t, {| world := w; logs := logs s |}).

(** [str(v)] *)
Definition py_str (v : pyval) : string :=
  match v with
  | PStr s => s
  | _ => py_repr v
  end.
End PyMonad.

Declare Scope py_scope.
Delimit Scope py_scope with py.
Notation "x <- m ;; k" := (bind m (fun x => k))
  (at level 61, m at next level, right associativity) : py_scope.
Notation "m ;; k" := (bind m (fun _ => k))
  (at level 61, right associativity) : py_scope.
Local Open Scope py_scope.

(** [except Exception] *)
Definition any_exception (e : exn) : bool := true.

(** [for x in l: body x] *)
Fixpoint for_each {RT : Runtime} {A} (l : list A) (body : A -> Py unit)
    : Py unit :=
  match l with
  | [] => ret tt
  | x :: r => body x ;; for_each r body
  end.

(** ** The collaborators

    [apply_actions] and [process_emails] are handed a mailbox service and a
    database and only call their methods; the return values are dropped.
    A method is any computation on the state, so it may raise. *)

Module GmailService.
Record t {RT : Runtime} : Type := {
  mark_as_read : pyval -> bool -> Py unit;
  move_message : pyval -> pyval -> Py unit
}.
End GmailService.

Module EmailDatabase.
Record t {RT : Runtime} : Type := {
  add_emails_batch : list dict -> Py unit;
  mark_as_read : pyval -> bool -> Py unit;
  update_labels : pyval -> pyval -> Py unit;
  mark_as_processed_batch : list pyval -> Py unit;
  close : Py unit
}.
End EmailDatabase.

(** ** rules/processor.py *)

Definition EMAIL_FIELD_MAPPING : list (string * string) :=
  [ ("from", "sender");
    ("sender", "sender");
    ("to", "recipient");
    ("recipient", "recipient");
    ("subject", "subject");
    ("body", "body");
    ("received_date", "received_date") ].

Fixpoint assoc_get (k : string) (m : list (string * string)) : option string :=
  match m with
  | [] => None
  | (k', v) :: m' => if String.eqb k k' then Some v else assoc_get k m'
  end.

(** [EMAIL_FIELD_MAPPING.get(key)]: a list or a dict is unhashable; a key
    that is not a string equals none of the keys. *)
Definition mapping_get (key : pyval) : res (option string) :=
  match key with
  | PStr k => inr (assoc_get k EMAIL_FIELD_MAPPING)
  | PList _ | PDict _ => inl TypeError
  | _ => inr None
  end.

(** [field_value.replace(tzinfo=None)], reached only on a datetime. *)
Definition replace_tzinfo_none (o : pyval) : pyval :=
  match o with
  | PDatetime wall _ => PDatetime wall None
  | _ => o
  end.

(** [field_value > compare_date] and [field_value < compare_date] against a
    naive datetime: an aware datetime does not compare with a naive one. *)
Definition datetime_gt (o : pyval) (d : Z) : res bool :=
  match o with
  | PDatetime wall None => inr (d <? wall)
  | _ => inl TypeError
  end.

Definition datetime_lt (o : pyval) (d : Z) : res bool :=
  match o with
  | PDatetime wall None => inr (wall <? d)
  | _ => inl TypeError
  end.

Module RuleCondition.
Record t : Type := { field : pyval; predicate : pyval; value : pyval }.

Section Methods.
Context {RT : Runtime}.

Definition _evaluate_string (self : t) (field_value : string) : Py bool :=
  if py_eq_str (predicate self) "contains" then
    v <- lift (py_lower (value self)) ;;
    ret (str_contains v (lower field_value))
  else if py_eq_str (predicate self) "does_not_contain" then
    v <- lift (py_lower (value self)) ;;
    ret (negb (str_contains v (lower field_value)))
  else if py_eq_str (predicate self) "equals" then
    v <- lift (py_lower (value self)) ;;
    ret (String.eqb v (lower field_value))
  else if py_eq_str (predicate self) "does_not_equal" then
    v <- lift (py_lower (value self)) ;;
    ret (negb (String.eqb v (lower field_value)))
  else ret false.

(** The [except] clause of [_evaluate_date]. *)
Definition date_errors (e : exn) : bool :=
  match e with
  | ValueError | AttributeError => true
  | _ => false
  end.

Definition _evaluate_date (self : t) (field_value : pyval) : Py bool :=
  try_except
    (tz <- lift (py_tzinfo field_value) ;;
     let field_value :=
       match tz with
       | Some _ => replace_tzinfo_none field_value
       | None => field_value
       end in
     now_ <- now ;;
     has_days <- lift (py_in "days" (value self)) ;;
     if has_days : bool then
       tokens <- lift (py_split (value self)) ;;
       token <- lift (py_first tokens) ;;
       days <- lift (py_int token) ;;
       delta <- lift (timedelta_days days) ;;
       compare_date <- lift (datetime_sub now_ delta) ;;
       if py_eq_str (predicate self) "less_than" then
         lift (datetime_gt field_value compare_date)
       else if py_eq_str (predicate self) "greater_than" then
         lift (datetime_lt field_value compare_date)
       else ret false
     else ret false)
    date_errors
    (fun e => log ERROR (ErrorEvaluatingDate e) ;; ret false).

Definition evaluate (self : t) (email : dict) : Py bool :=
  email_field <- lift (mapping_get (field self)) ;;
  let not_found :=
    log ERROR (FieldNotFound (field self) email_field) ;; ret false in
  match email_field with
  | None => not_found
  | Some key =>
      if String.eqb key "" || negb (dict_mem key email) then not_found
      else
        field_value <- lift (dict_getitem email key) ;;
        if py_eq_str (field self) "received_date" then
          _evaluate_date self field_value
        else _evaluate_string self (py_str field_value)
  end.
End Methods.
End RuleCondition.

Module Rule.
Record t : Type := {
  name : pyval;
  conditions : list RuleCondition.t;
  predicate : pyval;
  actions : pyval
}.

Section Methods.
Context {RT : Runtime}.

(** The loop filling [results]. *)
Fixpoint evaluate_conditions (cs : list RuleCondition.t) (email : dict)
    : Py (list bool) :=
  match cs with
  | [] => ret []
  | c :: cs' =>
      result <- RuleCondition.evaluate c email ;;
      results <- evaluate_conditions cs' email ;;
      ret (result :: results)
  end.

(** [all(results)] and [any(results)] *)
Definition all (results : list bool) : bool := forallb (fun b => b) results.
Definition any (results : list bool) : bool := existsb (fun b => b) results.

Definition evaluate (self : t) (email : dict) : Py bool :=
  match conditions self with
  | [] => ret false
  | _ =>
      results <- evaluate_conditions (conditions self) email ;;
      if py_eq_str (predicate self) "all" then ret (all results)
      else if py_eq_str (predicate self) "any" then ret (any results)
      else ret false
  end.

(** The body of the loop of [apply_actions], for one [action]. *)
Definition apply_action (email : dict) (gmail_service : GmailService.t)
    (email_db : EmailDatabase.t) (action : pyval) : Py unit :=
  action_type <- lift (py_getitem action "type") ;;
  if py_eq_str action_type "mark_as_read" then
    id <- lift (dict_getitem email "message_id") ;;
    GmailService.mark_as_read gmail_service id true ;;
    id <- lift (dict_getitem email "message_id") ;;
    EmailDatabase.mark_as_read email_db id true
  else if py_eq_str action_type "mark_as_unread" then
    id <- lift (dict_getitem email "message_id") ;;
    GmailService.mark_as_read gmail_service id false ;;
    id <- lift (dict_getitem email "message_id") ;;
    EmailDatabase.mark_as_read email_db id false
  else if py_eq_str action_type "move_message" then
    has_label <- lift (py_in "label" action) ;;
    if has_label : bool then
      id <- lift (dict_getitem email "message_id") ;;
      label <- lift (py_getitem action "label") ;;
      GmailService.move_message gmail_service id label ;;
      id <- lift (dict_getitem email "message_id") ;;
      label <- lift (py_getitem action "label") ;;
      EmailDatabase.update_labels email_db id label
    else ret tt
  else ret tt.

Definition apply_actions (self : t) (email : dict)
    (gmail_service : GmailService.t) (email_db : EmailDatabase.t)
    : Py bool :=
  try_except
    (action_list <- lift (py_iter (actions self)) ;;
     for_each action_list (apply_action email gmail_service email_db) ;;
     ret true)
    any_exception
    (fun e => log ERROR (ErrorApplyingActions (name self) e) ;; ret false).
End Methods.
End Rule.

(** [[f x for x in l]] *)
Fixpoint map_py {RT : Runtime} {A B} (f : A -> Py B) (l : list A)
    : Py (list B) :=
  match l with
  | [] => ret []
  | x :: r => y <- f x ;; ys <- map_py f r ;; ret (y :: ys)
  end.

Module RuleProcessor.
(** The processor object is its [rules]; [rules_path] only names the
    document, whose reading and parsing ([open], [json.load]) is handed
    to [load_rules] as the outcome [document]. *)
Record t : Type := { rules : list Rule.t }.

Section Methods.
Context {RT : Runtime}.

Definition load_condition (c : pyval) : Py RuleCondition.t :=
  f <- lift (py_getitem c "field") ;;
  p <- lift (py_getitem c "predicate") ;;
  v <- lift (py_getitem c "value") ;;
  ret {| RuleCondition.field := f;
         RuleCondition.predicate := p;
         RuleCondition.value := v |}.

(** One turn of the loop of [load_rules], up to the [append]. *)
Definition load_rule (rule_data : pyval) : Py Rule.t :=
  conditions_data <- lift (py_getitem rule_data "conditions") ;;
  cs <- lift (py_iter conditions_data) ;;
  conditions <- map_py load_condition cs ;;
  name <- lift (py_getitem rule_data "name") ;;
  predicate <- lift (py_getitem rule_data "predicate") ;;
  actions <- lift (py_getitem rule_data "actions") ;;
  ret {| Rule.name := name;
         Rule.conditions := conditions;
         Rule.predicate := predicate;
         Rule.actions := actions |}.

(** The loop of [load_rules].  [self_rules] is the attribute
    [self.rules], which the loop appends to in place: when a turn
    raises, what was appended before stays.  The result is the outcome
    of the loop and [self.rules] after it. *)
Fixpoint load_rules_loop (rules_data : list pyval)
    (self_rules : list Rule.t) (s : state)
    : res unit * list Rule.t * state :=
  match rules_data with
  | [] => (inr tt, self_rules, s)
  | rule_data :: rest =>
      match load_rule rule_data s with
      | (inr rule, s') => load_rules_loop rest (self_rules ++ [rule]) s'
      | (inl e, s') => (inl e, self_rules, s')
      end
  end.

(** The [try] block of [load_rules]. *)
Definition load_rules_try (document : res pyval)
    (self_rules : list Rule.t) (s : state)
    : res unit * list Rule.t * state :=
  match document with
  | inl e => (inl e, self_rules, s)
  | inr rules_data =>
      match py_getitem rules_data "rules" with
      | inl e => (inl e, self_rules, s)
      | inr rule_list =>
          match py_iter rule_list with
          | inl e => (inl e, self_rules, s)
          | inr l => load_rules_loop l self_rules s
          end
      end
  end.

(** [load_rules], returning [self.rules] as the call leaves it. *)
Definition load_rules (self_rules : list Rule.t) (document : res pyval)
    : Py (list Rule.t) :=
  fun s =>
    match load_rules_try document self_rules s with
    | (inr _, self_rules', s') => (inr self_rules', s')
    | (inl e, self_rules', s') =>
        (inr self_rules', log_state ERROR (ErrorLoadingRules e) s')
    end.

(** [RuleProcessor(rules_path)] *)
Definition init (document : res pyval) : Py t :=
  rs <- load_rules [] document ;;
  ret {| rules := rs |}.

(** The body of the loop of [process_email], for one [rule]. *)
Definition process_rule (email : dict) (gmail_service : GmailService.t)
    (email_db : EmailDatabase.t) (rule : Rule.t) : Py unit :=
  matched <- Rule.evaluate rule email ;;
  if matched : bool then
    applied <- Rule.apply_actions rule email gmail_service email_db ;;
    if applied : bool then log DEBUG (AppliedActions (Rule.name rule))
    else log ERROR (FailedActions (Rule.name rule))
  else ret tt.

Definition process_email (self : t) (email : dict)
    (gmail_service : GmailService.t) (email_db : EmailDatabase.t)
    : Py bool :=
  try_except
    (for_each (rules self) (process_rule email gmail_service email_db) ;;
     ret true)
    any_exception
    (fun e =>
       id <- lift (dict_getitem email "message_id") ;;
       log ERROR (ErrorProcessingEmail id e) ;;
       ret false).
End Methods.
End RuleProcessor.

(** ** main.py *)

Section Main.
Context {RT : Runtime}.
Variable rule_processor : RuleProcessor.t.
Variable email_service : GmailService.t.
Variable email_db : EmailDatabase.t.

(** [email["labels"] = ",".join(email["labels"])] *)
Definition join_labels (email : dict) : Py dict :=
  labels <- lift (dict_getitem email "labels") ;;
  joined <- lift (py_join "," labels) ;;
  ret (dict_set "labels" (PStr joined) email).

(** The loop over the batch that fills [batch_processed_ids] (the
    progress bar is left out). *)
Fixpoint process_batch_emails (batch : list dict)
    (batch_processed_ids : list pyval) : Py (list pyval) :=
  match batch with
  | [] => ret batch_processed_ids
  | email :: rest =>
      ids <- try_except
               (ok <- RuleProcessor.process_email rule_processor email
                        email_service email_db ;;
                if ok : bool then
                  id <- lift (dict_getitem email "message_id") ;;
                  ret (batch_processed_ids ++ [id])%list
                else ret batch_processed_ids)
               any_exception
               (fun e =>
                  id <- lift (dict_getitem email "message_id") ;;
                  log ERROR (ErrorProcessingEmail id e) ;;
                  ret batch_processed_ids) ;;
      process_batch_emails rest ids
  end.

(** [if batch_processed_ids: ...], returning [total_processed]. *)
Definition mark_batch (batch_processed_ids : list pyval)
    (total_processed : nat) : Py unit :=
  match batch_processed_ids with
  | [] => ret tt
  | _ =>
      log INFO (MarkedProcessed (List.length batch_processed_ids)
                  (total_processed + List.length batch_processed_ids)) ;;
      EmailDatabase.mark_as_processed_batch email_db batch_processed_ids
  end.

(** One turn of the loop over the batches.  The [try] block is cut where
    [total_processed] is assigned, so that the turn hands on the counter
    as the block left it also when the marking raises; both parts fall
    to the same [except Exception]. *)
Definition process_batch (batch : list dict) (total_processed : nat)
    : Py nat :=
  let on_error e := log ERROR (ErrorProcessingBatch e) in
  log INFO (ProcessingBatch (List.length batch)) ;;
  collected <- try_except
                 (batch' <- map_py join_labels batch ;;
                  EmailDatabase.add_emails_batch email_db batch' ;;
                  ids <- process_batch_emails batch' [] ;;
                  ret (Some ids))
                 any_exception
                 (fun e => on_error e ;; ret None) ;;
  match collected with
  | None => ret total_processed
  | Some ids =>
      try_except (mark_batch ids total_processed) any_exception on_error ;;
      ret (total_processed + List.length ids)%nat
  end.

(** The turns of the loop for batches that are at hand, one after the
    other. *)
Fixpoint process_batches (batches : list (list dict))
    (total_processed : nat) : Py unit :=
  match batches with
  | [] => ret tt
  | batch :: rest =>
      total <- process_batch batch total_processed ;;
      process_batches rest total
  end.

(** The generator [email_service.get_emails_batch(...)] hands the [for]
    loop.  Each time the loop asks for the next batch the generator runs
    on from the state of that moment, and yields a batch (what is left of
    the generator coming with it), returns, or raises. *)
Inductive generator : Type :=
| Generator (resume : Py (option (list dict * generator))).

(** The generator that has its batches at hand and only hands them over. *)
Fixpoint from_list (batches : list (list dict)) : generator :=
  match batches with
  | [] => Generator (ret None)
  | batch :: rest => Generator (ret (Some (batch, from_list rest)))
  end.

(** [for batch in <generator>: ...]: the generator is resumed inside the
    outer [try] and outside the [try] of the turn, so what it raises
    leaves the loop. *)
Fixpoint process_generator (batches : generator) (total_processed : nat)
    : Py unit :=
  match batches with
  | Generator resume =>
      next <- resume ;;
      match next with
      | None => ret tt
      | Some (batch, rest) =>
          total <- process_batch batch total_processed ;;
          process_generator rest total
      end
  end.

(** [process_emails], given the three objects its first lines build and
    the generator [get_emails_batch] returns. *)
Definition process_emails (batches : generator) : Py unit :=
  try_finally
    (try_except (process_generator batches 0%nat) any_exception
       (fun e => log ERROR (ErrorOccurred e) ;; raise e))
    (EmailDatabase.close email_db).
End Main.

(** ** Test doubles

    A runtime whose world is a clock reading and the journal of the
    collaborator calls made so far, after [MockGmailService] and
    [MockEmailDB] of tests/test_rules.py.  A double journals the call and
    then raises when [fails] says so. *)

Module Mock.
Inductive call : Type :=
| GmailMarkAsRead (id : pyval) (read : bool)
| GmailMoveMessage (id label : pyval)
| DbAddEmailsBatch (emails : list dict)
| DbMarkAsRead (id : pyval) (read : bool)
| DbUpdateLabels (id label : pyval)
| DbMarkAsProcessedBatch (ids : list pyval)
| DbClose.

Record mock_world : Type := { clock : Z; calls : list call }.

#[export] Instance runtime : Runtime := {
  World := mock_world;
  datetime_now := fun w => (clock w, w);
  py_repr := fun _ => "<object>"
}.

(** The state with clock reading [t], journal [cs] and log [l]. *)
Definition st (t : Z) (cs : list call) (l : list log_record) : state :=
  @Build_state runtime {| clock := t; calls := cs |} l.

Definition do_call (fails : call -> bool) (c : call) : Py unit :=
  fun s =>
    let s' := st (clock (world s)) (calls (world s) ++ [c]) (logs s) in
    if fails c then (inl (OtherError "collaborator failure"), s')
    else (inr tt, s').

Definition gmail (fails : call -> bool) : GmailService.t := {|
  GmailService.mark_as_read := fun id b => do_call fails (GmailMarkAsRead id b);
  GmailService.move_message := fun id l => do_call fails (GmailMoveMessage id l)
|}.

Definition db (fails : call -> bool) : EmailDatabase.t := {|
  EmailDatabase.add_emails_batch :=
    fun es => do_call fails (DbAddEmailsBatch es);
  EmailDatabase.mark_as_read := fun id b => do_call fails (DbMarkAsRead id b);
  EmailDatabase.update_labels :=
    fun id l => do_call fails (DbUpdateLabels id l);
  EmailDatabase.mark_as_processed_batch :=
    fun ids => do_call fails (DbMarkAsProcessedBatch ids);
  EmailDatabase.close := do_call fails DbClose
|}.

Definition never (c : call) : bool := false.

(** 2024-01-01T00:00:00 is day 738886 after 0001-01-01. *)
Definition start : state := st (738886 * DAY) [] [].

(** [sample_email] of tests/test_rules.py, received at the clock reading
    less [age] microseconds. *)
Definition sample_email (age : Z) : dict :=
  [ ("message_id", PStr "test123");
    ("sender", PStr "sender@test.com");
    ("recipient", PStr "recipient@test.com");
    ("subject", PStr "Test Subject");
    ("body", PStr "Test Body");
    ("labels", PList [PStr "INBOX"]);
    ("received_date", PDatetime (738886 * DAY - age) None);
    ("is_read", PBool false) ].

Definition cond (f p v : string) : RuleCondition.t :=
  {| RuleCondition.field := PStr f;
     RuleCondition.predicate := PStr p;
     RuleCondition.value := PStr v |}.

Definition action (ty : string) : pyval := PDict [("type", PStr ty)].

Definition move_to (label : string) : pyval :=
  PDict [("type", PStr "move_message"); ("label", PStr label)].

Definition rule (n : string) (cs : list RuleCondition.t) (p : string)
    (acts : list pyval) : Rule.t :=
  {| Rule.name := PStr n;
     Rule.conditions := cs;
     Rule.predicate := PStr p;
     Rule.actions := PList acts |}.

(** A rule on the subject with the actions [acts]. *)
Definition tidy (acts : list pyval) : Rule.t :=
  rule "Tidy" [cond "subject" "contains" "test"] "all" acts.

(** A move_message action that lacks its label. *)
Definition move_nowhere : dict := [("type", PStr "move_message")].

(** The database double that refuses [update_labels]. *)
Definition labels_fail (c : call) : bool :=
  match c with
  | DbUpdateLabels _ _ => true
  | _ => false
  end.

Definition failure : exn := OtherError "collaborator failure".

(** The rule of [test_rules_file] of tests/test_rules.py, as [json.load]
    returns it and as [load_rules] builds it. *)
Definition test_rule_data : pyval :=
  PDict
    [ ("name", PStr "Test Rule");
      ("conditions",
       PList [PDict [("field", PStr "subject");
                     ("predicate", PStr "contains");
                     ("value", PStr "test")]]);
      ("predicate", PStr "all");
      ("actions", PList [PDict [("type", PStr "mark_as_read")]]) ].

Definition test_rule : Rule.t :=
  rule "Test Rule" [cond "subject" "contains" "test"] "all"
    [action "mark_as_read"].

(** A rule entry that has a name and nothing else. *)
Definition broken_rule_data : pyval := PDict [("name", PStr "Broken")].

(** A rules document whose second rule is malformed. *)
Definition half_broken_document : pyval :=
  PDict [("rules", PList [test_rule_data; broken_rule_data; test_rule_data])].

(** A message as the mailbox yields it, and a batch of three of which the
    second does not have "test" in its subject. *)
Definition message (id subject : string) : dict :=
  [ ("message_id", PStr id);
    ("sender", PStr "sender@test.com");
    ("recipient", PStr "recipient@test.com");
    ("subject", PStr subject);
    ("body", PStr "Test Body");
    ("labels", PList [PStr "INBOX"; PStr "UNREAD"]);
    ("received_date", PDatetime (738886 * DAY) None);
    ("is_read", PBool false) ].

Definition batch3 : list dict :=
  [message "m1" "Test one"; message "m2" "Nothing"; message "m3" "test three"].

(** [message] once its labels are joined. *)
Definition stored (id subject : string) : dict :=
  dict_set "labels" (PStr "INBOX,UNREAD") (message id subject).

Definition stored3 : list dict :=
  [stored "m1" "Test one"; stored "m2" "Nothing"; stored "m3" "test three"].

(** The state once [batch3] was announced, and once it was stored. *)
Definition announced : state :=
  st (738886 * DAY) [] [(INFO, ProcessingBatch 3)].

Definition after_store : state :=
  st (738886 * DAY) [DbAddEmailsBatch stored3] [(INFO, ProcessingBatch 3)].

(** Two rules that match [sample_email]; the first moves the message. *)
Definition move_done : Rule.t := tidy [move_to "Done"].

Definition second : Rule.t :=
  rule "Second" [cond "from" "contains" "@test.com"] "any"
    [action "mark_as_read"].

(** The state after [move_done]'s move was refused by the database. *)
Definition after_failed_move : state :=
  st (738886 * DAY)
    [GmailMoveMessage (PStr "test123") (PStr "Done");
     DbUpdateLabels (PStr "test123") (PStr "Done")]
    [(ERROR, ErrorApplyingActions (PStr "Tidy") failure)].

(** The states after [mark_as_read] went through, and after the move
    that followed reached the mailbox and then the database. *)
Definition after_read : state :=
  st (738886 * DAY)
    [GmailMarkAsRead (PStr "test123") true;
     DbMarkAsRead (PStr "test123") true] [].

Definition after_move : state :=
  st (738886 * DAY)
    [GmailMarkAsRead (PStr "test123") true;
     DbMarkAsRead (PStr "test123") true;
     GmailMoveMessage (PStr "test123") (PStr "Done");
     DbUpdateLabels (PStr "test123") (PStr "Done")] [].
End Mock.

(** ** Vocabulary of the statements *)

(** [conditions_run email cs s results s']: evaluated one after the other
    on [email] from state [s], the conditions [cs] return [results], none
    raising, and leave state [s']. *)
Inductive conditions_run {RT : Runtime} (email : dict)
    : list RuleCondition.t -> state -> list bool -> state -> Prop :=
| conditions_run_nil s : conditions_run email [] s [] s
| conditions_run_cons c cs s s1 s2 b bs :
    RuleCondition.evaluate c email s = (inr b, s1) ->
    conditions_run email cs s1 bs s2 ->
    conditions_run email (c :: cs) s (b :: bs) s2.

(** The state [datetime.now()] leaves behind. *)
Definition after_now {RT : Runtime} (s : state) : state :=
  {| world := snd (datetime_now (world s)); logs := logs s |}.

(** A condition on the date field asking for ten to the nine days: more
    than a [timedelta] holds. *)
Definition huge_days : RuleCondition.t :=
  {| RuleCondition.field := PStr "received_date";
     RuleCondition.predicate := PStr "less_than";
     RuleCondition.value := PStr "1000000000 days" |}.

Definition huge_days_rule : Rule.t :=
  {| Rule.name := PStr "Old mail";
     Rule.conditions := [huge_days];
     Rule.predicate := PStr "all";
     Rule.actions := PList [PDict [("type", PStr "mark_as_read")]] |}.

(** The comparison value "<N> days", [N] written in decimal. *)
Definition days_value (n : nat) : string :=
  NilEmpty.string_of_uint (Nat.to_uint n) ++ " days".

(** The date condition with predicate [p] and value "<N> days". *)
Definition date_condition (p : string) (n : nat) : RuleCondition.t :=
  {| RuleCondition.field := PStr "received_date";
     RuleCondition.predicate := PStr p;
     RuleCondition.value := PStr (days_value n) |}.

(** The readings a naive [datetime] can hold. *)
Definition valid_datetime (t : Z) : Prop := 0 <= t < MAX_ORDINAL * DAY.

(** [batch_run rp gm db batch s ids s']: processed one after the other from
    state [s], every message of [batch] gets a boolean out of
    [process_email]; [ids] are the identifiers of those that got true, in
    order, and [s'] is the state left. *)
Inductive batch_run {RT : Runtime} (rule_processor : RuleProcessor.t)
    (email_service : GmailService.t) (email_db : EmailDatabase.t)
    : list dict -> state -> list pyval -> state -> Prop :=
| batch_run_nil s :
    batch_run rule_processor email_service email_db [] s [] s
| batch_run_true email rest s s1 s2 id ids :
    RuleProcessor.process_email rule_processor email email_service email_db s
    = (inr true, s1) ->
    dict_get "message_id" email = Some id ->
    batch_run rule_processor email_service email_db rest s1 ids s2 ->
    batch_run rule_processor email_service email_db (email :: rest) s
      (id :: ids) s2
| batch_run_false email rest s s1 s2 ids :
    RuleProcessor.process_email rule_processor email email_service email_db s
    = (inr false, s1) ->
    batch_run rule_processor email_service email_db rest s1 ids s2 ->
    batch_run rule_processor email_service email_db (email :: rest) s ids s2.

(** [actions_run email gm db acts s s']: taken in order from state [s],
    every action of [acts] goes through without raising and [s'] is the
    state left.  A mark_as_read or mark_as_unread action calls the mailbox
    and then the database with the message's identifier, a move_message
    action that has a label calls them with the identifier and the label,
    and any other action calls nothing. *)
Inductive actions_run {RT : Runtime} (email : dict)
    (gmail_service : GmailService.t) (email_db : EmailDatabase.t)
    : list pyval -> state -> state -> Prop :=
| actions_run_nil s : actions_run email gmail_service email_db [] s s
| actions_run_read a rest ty id s s1 s2 s3 :
    py_getitem a "type" = inr ty ->
    py_eq_str ty "mark_as_read" = true ->
    dict_get "message_id" email = Some id ->
    GmailService.mark_as_read gmail_service id true s = (inr tt, s1) ->
    EmailDatabase.mark_as_read email_db id true s1 = (inr tt, s2) ->
    actions_run email gmail_service email_db rest s2 s3 ->
    actions_run email gmail_service email_db (a :: rest) s s3
| actions_run_unread a rest ty id s s1 s2 s3 :
    py_getitem a "type" = inr ty ->
    py_eq_str ty "mark_as_unread" = true ->
    dict_get "message_id" email = Some id ->
    GmailService.mark_as_read gmail_service id false s = (inr tt, s1) ->
    EmailDatabase.mark_as_read email_db id false s1 = (inr tt, s2) ->
    actions_run email gmail_service email_db rest s2 s3 ->
    actions_run email gmail_service email_db (a :: rest) s s3
| actions_run_move a rest ty id label s s1 s2 s3 :
    py_getitem a "type" = inr ty ->
    py_eq_str ty "move_message" = true ->
    py_in "label" a = inr true ->
    py_getitem a "label" = inr label ->
    dict_get "message_id" email = Some id ->
    GmailService.move_message gmail_service id label s = (inr tt, s1) ->
    EmailDatabase.update_labels email_db id label s1 = (inr tt, s2) ->
    actions_run email gmail_service email_db rest s2 s3 ->
    actions_run email gmail_service email_db (a :: rest) s s3
| actions_run_unlabelled a rest ty s s1 :
    py_getitem a "type" = inr ty ->
    py_eq_str ty "move_message" = true ->
    py_in "label" a = inr false ->
    actions_run email gmail_service email_db rest s s1 ->
    actions_run email gmail_service email_db (a :: rest) s s1
| actions_run_other a rest ty s s1 :
    py_getitem a "type" = inr ty ->
    py_eq_str ty "mark_as_read" = false ->
    py_eq_str ty "mark_as_unread" = false ->
    py_eq_str ty "move_message" = false ->
    actions_run email gmail_service email_db rest s s1 ->
    actions_run email gmail_service email_db (a :: rest) s s1.

(** ** Vocabulary of the further properties *)

(** [generator_run rp gm db g total s ending s']: the loop of
    [process_emails] over the generator [g], started in state [s] with the
    counter at [total].  Every batch the generator yields is taken through
    its turn of the loop, which does not raise, until the generator
    returns ([ending] is [None]) or raises [e] ([ending] is [Some e]);
    [s'] is the state at that moment. *)
Inductive generator_run {RT : Runtime} (rule_processor : RuleProcessor.t)
    (email_service : GmailService.t) (email_db : EmailDatabase.t)
    : generator -> nat -> state -> option exn -> state -> Prop :=
| generator_returns resume total s s1 :
    resume s = (inr None, s1) ->
    generator_run rule_processor email_service email_db
      (Generator resume) total s None s1
| generator_raises resume total e s s1 :
    resume s = (inl e, s1) ->
    generator_run rule_processor email_service email_db
      (Generator resume) total s (Some e) s1
| generator_yields resume total batch rest total' ending s s1 s2 s3 :
    resume s = (inr (Some (batch, rest)), s1) ->
    process_batch rule_processor email_service email_db batch total s1
    = (inr total', s2) ->
    generator_run rule_processor email_service email_db rest total' s2
      ending s3 ->
    generator_run rule_processor email_service email_db
      (Generator resume) total s ending s3.

(** The upper-case spelling of an ASCII string. *)
Definition upper_ascii (c : ascii) : ascii :=
  let n := N_of_ascii c in
  if (97 <=? n)%N && (n <=? 122)%N then ascii_of_N (n - 32) else c.

Fixpoint upper (s : string) : string :=
  match s with
  | EmptyString => EmptyString
  | String c r => String (upper_ascii c) (upper r)
  end.

(** A condition, a rule and a rule set written out as the rules document
    holds them. *)
Definition condition_json (c : RuleCondition.t) : pyval :=
  PDict [ ("field", RuleCondition.field c);
          ("predicate", RuleCondition.predicate c);
          ("value", RuleCondition.value c) ].

Definition rule_json (r : Rule.t) : pyval :=
  PDict [ ("name", Rule.name r);
          ("conditions", PList (map condition_json (Rule.conditions r)));
          ("predicate", Rule.predicate r);
          ("actions", Rule.actions r) ].

Definition document_of (rules : list Rule.t) : pyval :=
  PDict [("rules", PList (map rule_json rules))].

(** The record [process_email] writes once a matching rule's actions were
    tried. *)
Definition outcome_logged {RT : Runtime} (r : Rule.t) (applied : bool)
    (s : state) : state :=
  if applied then log_state DEBUG (AppliedActions (Rule.name r)) s
  else log_state ERROR (FailedActions (Rule.name r)) s.

(** [rules_run email gm db rules s s']: taken in order from state [s], every
    rule of [rules] is evaluated on [email] without raising, the actions of
    each rule that matches are tried and the outcome is logged; [s'] is the
    state left. *)
Inductive rules_run {RT : Runtime} (email : dict)
    (gmail_service : GmailService.t) (email_db : EmailDatabase.t)
    : list Rule.t -> state -> state -> Prop :=
| rules_run_nil s : rules_run email gmail_service email_db [] s s
| rules_run_skip r rest s s1 s2 :
    Rule.evaluate r email s = (inr false, s1) ->
    rules_run email gmail_service email_db rest s1 s2 ->
    rules_run email gmail_service email_db (r :: rest) s s2
| rules_run_fire r rest s s1 s2 s3 applied :
    Rule.evaluate r email s = (inr true, s1) ->
    Rule.apply_actions r email gmail_service email_db s1
    = (inr applied, s2) ->
    rules_run email gmail_service email_db rest
      (outcome_logged r applied s2) s3 ->
    rules_run email gmail_service email_db (r :: rest) s s3.

(** [RuleCondition(field, predicate, value)] on three strings, as the
    constructor is annotated. *)
Definition condition (f p v : string) : RuleCondition.t :=
  {| RuleCondition.field := PStr f;
     RuleCondition.predicate := PStr p;
     RuleCondition.value := PStr v |}.

(** Further test data. *)
Module Sample.
(** A message whose date header came through as text. *)
Definition undated : dict :=
  [("message_id", PStr "m1"); ("received_date", PStr "2024-01-01")].

(** A message received at the clock reading of [Mock.start], with the
    zone of Kolkata. *)
Definition zoned : dict :=
  [("message_id", PStr "m1");
   ("received_date", PDatetime (738886 * DAY) (Some 330))].



(** A message that lost its identifier. *)
Definition anonymous : dict :=
  [("subject", PStr "Test Subject");
   ("received_date", PDatetime (738886 * DAY) None)].

(** A generator that yields [Mock.batch3] and, asked for more, raises (as
    [get_emails_batch] does on a message whose date cannot be parsed). *)
Definition breaks_off : @generator Mock.runtime :=
  Generator (ret (Some (Mock.batch3, Generator (raise ValueError)))).
End Sample.

(** ** More dynamic primitives *)

(** [bool(o)], as [if o:] and [not o] take it. *)
Definition py_truthy (o : pyval) : bool :=
  match o with
  | PNone => false
  | PBool b => b
  | PInt z => negb (z =? 0)
  | PStr s => negb (String.eqb s "")
  | PList l => match l with [] => false | _ => true end
  | PDict d => match d with [] => false | _ => true end
  | PDatetime _ _ => true
  end.

(** [o.get(k)] and [o.get(k, default)]: only a dict has the method. *)
Definition py_get (o : pyval) (k : string) : res (option pyval) :=
  match o with
  | PDict d => inr (dict_get k d)
  | _ => inl AttributeError
  end.

Definition py_get_default (o : pyval) (k : string) (default : pyval)
    : res pyval :=
  match py_get o k with
  | inl e => inl e
  | inr (Some v) => inr v
  | inr None => inr default
  end.

(** [googleapiclient.errors.HttpError], among the collaborator errors. *)
Definition HttpError : exn := OtherError "HttpError".

(** [except HttpError] *)
Definition is_http_error (e : exn) : bool :=
  match e with
  | OtherError msg => String.eqb msg "HttpError"
  | _ => false
  end.

(** ** services/gmail_service.py

    The service runs against Google's side, whose state is [Api] and which
    also holds the clock, and keeps the attribute [self.labels].  The
    records it hands the logger are not among [log_msg]; they are kept
    beside it.  [self.client] is [None] when the client could not be
    built. *)

Inductive service_msg : Type :=
| ClientNotInitialized
| ErrorFetchingEmails (e : exn)
| NoMoreMessages
| ErrorFetchingMessage (message_id : pyval) (e : exn)
| ErrorMarking (message_id : pyval) (mark_read : bool) (e : exn)
| ErrorMoving (message_id label_name : pyval) (e : exn)
| ErrorLabel (label_name : pyval) (e : exn).

(** The query of [messages().list]: the day of [date_limit] that
    " after:%Y/%m/%d" spells out, and whether " is:unread" was added. *)
Record query : Type := { after : option Z; is_unread : bool }.

Section Service.
Variable Api : Type.
Variable api_now : Api -> Z * Api.
Variable repr : pyval -> string.

(** [email.utils.parsedate_to_datetime] and
    [base64.urlsafe_b64decode(data).decode("utf-8")], which raise on what
    they cannot read. *)
Variable parsedate_to_datetime : pyval -> res pyval.
Variable b64decode_utf8 : pyval -> res string.

Record service_world : Type := {
  api : Api;
  labels : list pyval;
  service_logs : list (level * service_msg)
}.

#[local] Instance service_runtime : Runtime := {
  World := service_world;
  datetime_now := fun w =>
    let '(t, a) := api_now (api w) in
    (t, {| api := a; labels := labels w; service_logs := service_logs w |});
  py_repr := repr
}.

(** The calls [self.client.users(). ... .execute()] the service makes; each
    acts on Google's side only.  The user is always "me" and a page holds
    at most BATCH_SIZE messages. *)
Record client : Type := {
  messages_list : query -> option pyval -> Api -> res pyval * Api;
  messages_get : pyval -> Api -> res pyval * Api;
  messages_modify : pyval -> pyval -> Api -> res pyval * Api;
  labels_create : pyval -> Api -> res pyval * Api
}.

Definition service_state : Type := @state service_runtime.

(** The state with Google's side, the label cache, or the service log
    replaced. *)
Definition with_api (a : Api) (s : service_state) : service_state :=
  {| world := {| api := a; labels := labels (world s);
                 service_logs := service_logs (world s) |};
     logs := logs s |}.

Definition with_labels (l : list pyval) (s : service_state)
    : service_state :=
  {| world := {| api := api (world s); labels := l;
                 service_logs := service_logs (world s) |};
     logs := logs s |}.

Definition service_logged (lv : level) (m : service_msg)
    (s : service_state) : service_state :=
  {| world := {| api := api (world s); labels := labels (world s);
                 service_logs := service_logs (world s) ++ [(lv, m)] |};
     logs := logs s |}.

Definition call {A} (request : Api -> res A * Api) : Py A :=
  fun s =>
    let '(r, a) := request (api (world s)) in (r, with_api a s).

(** Modelled from the spec: the module [logger] is not among the sources;
    as for [log], the call records its message and returns. *)
Definition service_log (lv : level) (m : service_msg) : Py unit :=
  fun s => (inr tt, service_logged lv m s).

(** [self.labels] and [self.labels = l] *)
Definition get_labels : Py (list pyval) :=
  fun s => (inr (labels (world s)), s).

Definition set_labels (l : list pyval) : Py unit :=
  fun s => (inr tt, with_labels l s).

(** [self.client.users()]: [None] has no such attribute. *)
Definition the_client (self_client : option client) : Py client :=
  match self_client with
  | Some cl => ret cl
  | None => raise AttributeError
  end.

(** The first text/plain part that has data, decoded: the loop over
    [payload["parts"]] of [_get_email_body]. *)
Fixpoint first_plain_part (parts : list pyval) : Py (option string) :=
  match parts with
  | [] => ret None
  | part :: rest =>
      mime <- lift (py_getitem part "mimeType") ;;
      if py_eq_str mime "text/plain" then
        part_body <- lift (py_getitem part "body") ;;
        has_data <- lift (py_in "data" part_body) ;;
        if has_data : bool then
          part_body <- lift (py_getitem part "body") ;;
          data <- lift (py_getitem part_body "data") ;;
          text <- lift (b64decode_utf8 data) ;;
          ret (Some text)
        else first_plain_part rest
      else first_plain_part rest
  end.

Definition _get_email_body (payload : pyval) : Py string :=
  has_body <- lift (py_in "body" payload) ;;
  top <- (if has_body : bool then
            payload_body <- lift (py_getitem payload "body") ;;
            data <- lift (py_get payload_body "data") ;;
            ret (match data with Some d => py_truthy d | None => false end)
          else ret false) ;;
  if top : bool then
    payload_body <- lift (py_getitem payload "body") ;;
    data <- lift (py_getitem payload_body "data") ;;
    lift (b64decode_utf8 data)
  else
    has_parts <- lift (py_in "parts" payload) ;;
    found <- (if has_parts : bool then
                parts <- lift (py_getitem payload "parts") ;;
                part_list <- lift (py_iter parts) ;;
                first_plain_part part_list
              else ret None) ;;
    match found with
    | Some text => ret text
    | None => ret ""
    end.

(** [{header["name"].lower(): header["value"] for header in headers}],
    filling [header_data] from the left. *)
Fixpoint header_dict (headers : list pyval) (header_data : dict) : res dict :=
  match headers with
  | [] => inr header_data
  | header :: rest =>
      match py_getitem header "name" with
      | inl e => inl e
      | inr name =>
          match py_lower name with
          | inl e => inl e
          | inr key =>
              match py_getitem header "value" with
              | inl e => inl e
              | inr v => header_dict rest (dict_set key v header_data)
              end
          end
      end
  end.

(** [header_data.get(k, "")] *)
Definition header_get (header_data : dict) (k : string) : pyval :=
  match dict_get k header_data with
  | Some v => v
  | None => PStr ""
  end.

(** [_get_email_data]: the message as a dict, or [None] after an
    HttpError. *)
Definition _get_email_data (self_client : option client)
    (message_id : pyval) : Py (option dict) :=
  try_except
    (cl <- the_client self_client ;;
     message <- call (messages_get cl message_id) ;;
     payload <- lift (py_getitem message "payload") ;;
     headers <- lift (py_getitem payload "headers") ;;
     header_list <- lift (py_iter headers) ;;
     header_data <- lift (header_dict header_list []) ;;
     payload <- lift (py_getitem message "payload") ;;
     body <- _get_email_body payload ;;
     received_date <- lift (parsedate_to_datetime
                              (header_get header_data "date")) ;;
     label_ids <- lift (py_get_default message "labelIds" (PList [])) ;;
     label_ids' <- lift (py_get_default message "labelIds" (PList [])) ;;
     unread <- lift (py_in "UNREAD" label_ids') ;;
     ret (Some [ ("message_id", message_id);
                 ("sender", header_get header_data "from");
                 ("recipient", header_get header_data "to");
                 ("subject", header_get header_data "subject");
                 ("body", PStr body);
                 ("labels", label_ids);
                 ("received_date", received_date);
                 ("is_read", PBool (negb unread)) ]))
    is_http_error
    (fun e => service_log ERROR (ErrorFetchingMessage message_id e) ;;
              ret None).

Definition mark_as_read (self_client : option client) (message_id : pyval)
    (mark_read : bool) : Py bool :=
  try_except
    (let body :=
       if mark_read then PDict [("removeLabelIds", PList [PStr "UNREAD"])]
       else PDict [("addLabelIds", PList [PStr "UNREAD"])] in
     cl <- the_client self_client ;;
     call (messages_modify cl message_id body) ;;
     ret true)
    is_http_error
    (fun e => service_log ERROR (ErrorMarking message_id mark_read e) ;;
              ret false).

(** The loop over [self.labels] of [_get_or_create_label]: the id of the
    first label whose name is [label_name] up to case. *)
Fixpoint find_label (cache : list pyval) (label_name : pyval)
    : res (option pyval) :=
  match cache with
  | [] => inr None
  | label :: rest =>
      match py_getitem label "name" with
      | inl e => inl e
      | inr name =>
          match py_lower name with
          | inl e => inl e
          | inr lowered =>
              match py_lower label_name with
              | inl e => inl e
              | inr wanted =>
                  if String.eqb lowered wanted then
                    match py_getitem label "id" with
                    | inl e => inl e
                    | inr id => inr (Some id)
                    end
                  else find_label rest label_name
              end
          end
      end
  end.

(** The body of the request that creates a label. *)
Definition label_body (label_name : pyval) : pyval :=
  PDict [("name", label_name);
         ("labelListVisibility", PStr "labelShow");
         ("messageListVisibility", PStr "show")].

(** [_get_or_create_label]: the label id, or [None] after an HttpError. *)
Definition _get_or_create_label (self_client : option client)
    (label_name : pyval) : Py pyval :=
  try_except
    (cache <- get_labels ;;
     found <- lift (find_label cache label_name) ;;
     match found with
     | Some id => ret id
     | None =>
         cl <- the_client self_client ;;
         new_label <- call (labels_create cl (label_body label_name)) ;;
         cache <- get_labels ;;
         set_labels (cache ++ [new_label]) ;;
         lift (py_getitem new_label "id")
     end)
    is_http_error
    (fun e => service_log ERROR (ErrorLabel label_name e) ;; ret PNone).

Definition move_message (self_client : option client)
    (message_id label_name : pyval) : Py bool :=
  try_except
    (label_id <- _get_or_create_label self_client label_name ;;
     if negb (py_truthy label_id) then ret false
     else
       cl <- the_client self_client ;;
       call (messages_modify cl message_id
               (PDict [("addLabelIds", PList [label_id]);
                       ("removeLabelIds", PList [PStr "INBOX"])])) ;;
       ret true)
    is_http_error
    (fun e => service_log ERROR (ErrorMoving message_id label_name e) ;;
              ret false).

(** [max_results and emails_processed >= max_results] *)
Definition limit_reached (max_results : option Z) (emails_processed : Z)
    : bool :=
  match max_results with
  | Some m => negb (m =? 0) && (m <=? emails_processed)
  | None => false
  end.

(** The loop over [messages["messages"]] of [get_emails_batch], returning
    [batch_emails] and [emails_processed]. *)
Fixpoint fetch_page (self_client : option client) (messages : list pyval)
    (max_results : option Z) (emails_processed : Z)
    (batch_emails : list dict) : Py (list dict * Z) :=
  match messages with
  | [] => ret (batch_emails, emails_processed)
  | message :: rest =>
      if limit_reached max_results emails_processed then
        ret (batch_emails, emails_processed)
      else
        id <- lift (py_getitem message "id") ;;
        email <- _get_email_data self_client id ;;
        match email with
        | Some e =>
            fetch_page self_client rest max_results (emails_processed + 1)
              (batch_emails ++ [e])
        | None =>
            fetch_page self_client rest max_results emails_processed
              batch_emails
        end
  end.

(** What one turn of the [while True] loop comes to: the batch it yields,
    if any; the page token the next turn starts from, [None] when the loop
    is left; the count of emails so far. *)
Record turn : Type := {
  yielded : option (list dict);
  next_page : option pyval;
  processed : Z
}.

(** [if batch_emails: yield batch_emails] *)
Definition yield_if_any (batch_emails : list dict) : option (list dict) :=
  match batch_emails with
  | [] => None
  | _ => Some batch_emails
  end.

Definition get_emails_turn (cl : client) (q : query)
    (page_token : option pyval) (max_results : option Z)
    (emails_processed : Z) : Py turn :=
  messages <- call (messages_list cl q page_token) ;;
  has_messages <- lift (py_in "messages" messages) ;;
  if negb has_messages then
    service_log INFO NoMoreMessages ;;
    ret {| yielded := None; next_page := None;
           processed := emails_processed |}
  else
    message_list <- lift (py_getitem messages "messages") ;;
    items <- lift (py_iter message_list) ;;
    fetched <- fetch_page (Some cl) items max_results emails_processed [] ;;
    let '(batch_emails, emails_processed) := fetched in
    if limit_reached max_results emails_processed then
      ret {| yielded := yield_if_any batch_emails; next_page := None;
             processed := emails_processed |}
    else
      token <- lift (py_get messages "nextPageToken") ;;
      ret {| yielded := yield_if_any batch_emails;
             next_page := match token with
                          | Some t => if py_truthy t then Some t else None
                          | None => None
                          end;
             processed := emails_processed |}.

(** The [while True] loop run for at most [pages] turns, giving the
    batches yielded in order.  An HttpError ends the generator after the
    batches it has already yielded. *)
Fixpoint get_emails_pages (pages : nat) (cl : client) (q : query)
    (page_token : option pyval) (max_results : option Z)
    (emails_processed : Z) : Py (list (list dict)) :=
  match pages with
  | O => ret []
  | S pages' =>
      t <- try_except
             (get_emails_turn cl q page_token max_results emails_processed)
             is_http_error
             (fun e =>
                service_log ERROR (ErrorFetchingEmails e) ;;
                ret {| yielded := None; next_page := None;
                       processed := emails_processed |}) ;;
      let batches := match yielded t with Some b => [b] | None => [] end in
      match next_page t with
      | None => ret batches
      | Some token =>
          more <- get_emails_pages pages' cl q (Some token) max_results
                    (processed t) ;;
          ret (batches ++ more)%list
      end
  end.

(** [list(self.get_emails_batch(max_results, days, only_unread))], the
    loop bounded to [pages] turns. *)
Definition get_emails_batch (pages : nat) (self_client : option client)
    (max_results days : option Z) (only_unread : bool)
    : Py (list (list dict)) :=
  match self_client with
  | None => service_log ERROR ClientNotInitialized ;; ret []
  | Some cl =>
      q <- try_except
             (date_limit <-
                match days with
                | Some d =>
                    now_ <- now ;;
                    delta <- lift (timedelta_days d) ;;
                    limit <- lift (datetime_sub now_ delta) ;;
                    ret (Some (limit / DAY))
                | None => ret None
                end ;;
              ret (Some {| after := date_limit; is_unread := only_unread |}))
             is_http_error
             (fun e => service_log ERROR (ErrorFetchingEmails e) ;; ret None) ;;
      match q with
      | Some q => get_emails_pages pages cl q None max_results 0
      | None => ret []
      end
  end.

(** The service as [apply_actions] uses it: the booleans its methods
    return are dropped there. *)
Definition as_collaborator (self_client : option client) : GmailService.t :=
  {| GmailService.mark_as_read :=
       fun id read => mark_as_read self_client id read ;; ret tt;
     GmailService.move_message :=
       fun id label => move_message self_client id label ;; ret tt |}.
End Service.

(** A double of Google's side: it journals the requests and answers as it
    is told to. *)
Module Google.
Inductive request : Type :=
| ListMessages (q : query) (page_token : option pyval)
| GetMessage (id : pyval)
| ModifyMessage (id body : pyval)
| CreateLabel (body : pyval).

Definition side : Type := list request.

Definition clock (a : side) : Z * side := (738886 * DAY, a).

Definition repr (v : pyval) : string := "<object>".

Definition answer {A} (r : request) (a : res A) : side -> res A * side :=
  fun journal => (a, (journal ++ [r])%list).

Definition double (lists : option pyval -> res pyval)
    (gets modifies creates : pyval -> res pyval) : client side :=
  {| messages_list :=
       fun q token => answer (ListMessages q token) (lists token);
     messages_get := fun id => answer (GetMessage id) (gets id);
     messages_modify :=
       fun id body => answer (ModifyMessage id body) (modifies id);
     labels_create := fun body => answer (CreateLabel body) (creates body) |}.

(** The state with the journal [requests], the label cache [cache], the
    service log [records] and an empty engine log. *)
Definition st (requests : side) (cache : list pyval)
    (records : list (level * service_msg)) : service_state clock repr :=
  @Build_state (service_runtime clock repr)
    {| api := requests; labels := cache; service_logs := records |} [].

(** A date parser that refuses the empty string, and a decoder that hands
    a string back as it is. *)
Definition parsedate (v : pyval) : res pyval :=
  match v with
  | PStr "" => inl ValueError
  | PStr _ => inr (PDatetime (738886 * DAY) (Some 0))
  | _ => inl TypeError
  end.

Definition decode (v : pyval) : res string :=
  match v with
  | PStr s => inr s
  | _ => inl TypeError
  end.

Definition refuses (v : pyval) : res pyval := inl HttpError.

Definition accepts (v : pyval) : res pyval := inr (PDict []).

(** A database that takes every call and does nothing. *)
Definition quiet_db : @EmailDatabase.t (service_runtime clock repr) :=
  {| EmailDatabase.add_emails_batch := fun _ => ret tt;
     EmailDatabase.mark_as_read := fun _ _ => ret tt;
     EmailDatabase.update_labels := fun _ _ => ret tt;
     EmailDatabase.mark_as_processed_batch := fun _ => ret tt;
     EmailDatabase.close := ret tt |}.

(** The answers of [mock_gmail_client] of tests/test_gmail.py: one page of
    three messages, and the same message whatever the id. *)
Definition messages_response (token : option pyval) : res pyval :=
  inr (PDict [("messages", PList [PDict [("id", PStr "msg1")];
                                  PDict [("id", PStr "msg2")];
                                  PDict [("id", PStr "msg3")]])]).

Definition message_data (id : pyval) : res pyval :=
  inr (PDict
         [ ("id", PStr "msg1");
           ("labelIds", PList [PStr "INBOX"]);
           ("payload",
            PDict [ ("headers",
                     PList [ PDict [("name", PStr "From");
                                    ("value", PStr "sender@test.com")];
                             PDict [("name", PStr "To");
                                    ("value", PStr "recipient@test.com")];
                             PDict [("name", PStr "Subject");
                                    ("value", PStr "Test Subject")];
                             PDict [("name", PStr "Date");
                                    ("value", PStr "Mon, 01 Jan 2024")] ]);
                    ("body", PDict [("data", PStr "Test Body")]) ]) ]).

Definition test_client : client side :=
  double messages_response message_data accepts accepts.

(** The message the service makes of [message_data] for the id [id]. *)
Definition mail (id : string) : dict :=
  [ ("message_id", PStr id);
    ("sender", PStr "sender@test.com");
    ("recipient", PStr "recipient@test.com");
    ("subject", PStr "Test Subject");
    ("body", PStr "Test Body");
    ("labels", PList [PStr "INBOX"]);
    ("received_date", PDatetime (738886 * DAY) (Some 0));
    ("is_read", PBool true) ].

(** A label as the cache holds it, and the label Google makes on
    request. *)
Definition label (id name : string) : dict :=
  [("id", PStr id); ("name", PStr name)].

Definition new_label (body : pyval) : res pyval :=
  inr (PDict (label "Label_New" "NewLabel")).

(** A payload whose text comes second, after an HTML part. *)
Definition html_part : dict :=
  [("mimeType", PStr "text/html");
   ("body", PDict [("data", PStr "<p>Hi</p>")])].

Definition text_part : dict :=
  [("mimeType", PStr "text/plain"); ("body", PDict [("data", PStr "Hi")])].

Definition multipart : dict :=
  [("mimeType", PStr "multipart/alternative");
   ("body", PDict [("size", PInt 0)]);
   ("parts", PList ([PDict html_part] ++ PDict text_part :: []))].
End Google.

(** ** Vocabulary of the service properties *)

(** A message that carries its identifier. *)
Definition has_message_id (email : dict) : Prop :=
  dict_mem "message_id" email = true.

(** A payload with no data of its own: no "body", or a body whose "data"
    is missing or empty. *)
Definition lacks_data (payload : dict) : Prop :=
  dict_get "body" payload = None \/
  exists b,
    dict_get "body" payload = Some (PDict b) /\
    match dict_get "data" b with
    | None => True
    | Some v => py_truthy v = false
    end.

(** A part [_get_email_body] passes over: one whose type is not
    text/plain, whatever else it holds, or a text/plain part whose body
    has no "data". *)
Definition passed_over (part : pyval) : Prop :=
  exists (p : dict) (mime : pyval),
    part = PDict p /\
    dict_get "mimeType" p = Some mime /\
    (py_eq_str mime "text/plain" = false \/
     exists b, dict_get "body" p = Some (PDict b) /\ dict_get "data" b = None).

(** A header as the message payload lists it. *)
Definition header_entry (h : string * pyval) : pyval :=
  PDict [("name", PStr (fst h)); ("value", snd h)].

(** The value of the last header of [hs] whose name is [k] once lowered. *)
Fixpoint last_value (k : string) (hs : list (string * pyval))
    : option pyval :=
  match hs with
  | [] => None
  | (name, v) :: rest =>
      match last_value k rest with
      | Some v' => Some v'
      | None => if String.eqb (lower name) k then Some v else None
      end
  end.

(** ** Sanity checks of the primitives *)

Example split_ex : split "  7  days ago " = ["7"; "days"; "ago"].
Proof. reflexivity. Qed.

Example py_int_ex :
  py_int "1_000" = inr 1000 /\ py_int "-12" = inr (-12) /\
  py_int "7_" = inl ValueError /\ py_int "days" = inl ValueError /\
  py_int "" = inl ValueError.
Proof. repeat split. Qed.

Example lower_ex : lower "Test Subject" = "test subject".
Proof. reflexivity. Qed.

Example str_contains_ex :
  str_contains "days" "7 days" = true /\ str_contains "" "" = true /\
  str_contains "day" "dy" = false.
Proof. repeat split. Qed.

(** The assertions of tests/test_rules.py, replayed on the embedding. *)

Example test_rule_condition_string_contains :
  fst (RuleCondition.evaluate (Mock.cond "subject" "contains" "test")
         (Mock.sample_email 0) Mock.start) = inr true /\
  fst (RuleCondition.evaluate (Mock.cond "subject" "contains" "test")
         (dict_set "subject" (PStr "No match here") (Mock.sample_email 0))
         Mock.start) = inr false.
Proof. split; reflexivity. Qed.

Example test_rule_condition_string_equals :
  fst (RuleCondition.evaluate (Mock.cond "from" "equals" "sender@test.com")
         (Mock.sample_email 0) Mock.start) = inr true /\
  fst (RuleCondition.evaluate (Mock.cond "from" "equals" "sender@test.com")
         (dict_set "sender" (PStr "other@test.com") (Mock.sample_email 0))
         Mock.start) = inr false.
Proof. split; reflexivity. Qed.

Example test_rule_condition_date_greater_than :
  fst (RuleCondition.evaluate
         (Mock.cond "received_date" "greater_than" "7 days")
         (Mock.sample_email (10 * DAY)) Mock.start) = inr true /\
  fst (RuleCondition.evaluate
         (Mock.cond "received_date" "greater_than" "7 days")
         (Mock.sample_email (5 * DAY)) Mock.start) = inr false.
Proof. split; vm_compute; reflexivity. Qed.

Example test_rule_actions :
  Rule.apply_actions
    (Mock.rule "Test Rule" [Mock.cond "subject" "contains" "test"] "all"
       [Mock.action "mark_as_read"; Mock.move_to "TestLabel"])
    (Mock.sample_email 0) (Mock.gmail Mock.never) (Mock.db Mock.never)
    Mock.start
  = (inr true,
     Mock.st (738886 * DAY)
       [ Mock.GmailMarkAsRead (PStr "test123") true;
         Mock.DbMarkAsRead (PStr "test123") true;
         Mock.GmailMoveMessage (PStr "test123") (PStr "TestLabel");
         Mock.DbUpdateLabels (PStr "test123") (PStr "TestLabel") ]
       []).
Proof. vm_compute. reflexivity. Qed.

Example test_rule_all_predicate :
  fst (Rule.evaluate
         (Mock.rule "Test Rule"
            [Mock.cond "subject" "contains" "test";
             Mock.cond "from" "contains" "@test.com"] "all"
            [Mock.action "mark_as_read"])
         (Mock.sample_email 0) Mock.start) = inr true /\
  fst (Rule.evaluate
         (Mock.rule "Test Rule"
            [Mock.cond "subject" "contains" "test";
             Mock.cond "from" "contains" "@test.com"] "all"
            [Mock.action "mark_as_read"])
         (dict_set "subject" (PStr "No match") (Mock.sample_email 0))
         Mock.start) = inr false.
Proof. split; reflexivity. Qed.

Example test_rule_any_predicate :
  fst (Rule.evaluate
         (Mock.rule "Test Rule"
            [Mock.cond "subject" "contains" "no match";
             Mock.cond "from" "contains" "@test.com"] "any"
            [Mock.action "mark_as_read"])
         (Mock.sample_email 0) Mock.start) = inr true.
Proof. reflexivity. Qed.

Example test_rule_processor_initialization :
  RuleProcessor.init (inr (PDict [("rules", PList [Mock.test_rule_data])]))
    Mock.start
  = (inr {| RuleProcessor.rules := [Mock.test_rule] |}, Mock.start).
Proof. reflexivity. Qed.

Example test_process_email_matches_rule :
  fst (RuleProcessor.process_email
         {| RuleProcessor.rules := [Mock.test_rule] |}
         (Mock.sample_email 0) (Mock.gmail Mock.never) (Mock.db Mock.never)
         Mock.start) = inr true.
Proof. reflexivity. Qed.

(** A whole run over one batch: stored, processed, marked, closed. *)
Example process_emails_run :
  process_emails {| RuleProcessor.rules := [Mock.test_rule] |}
    (Mock.gmail Mock.never) (Mock.db Mock.never) (from_list [Mock.batch3])
    Mock.start
  = (inr tt,
     Mock.st (738886 * DAY)
       [ Mock.DbAddEmailsBatch Mock.stored3;
         Mock.GmailMarkAsRead (PStr "m1") true;
         Mock.DbMarkAsRead (PStr "m1") true;
         Mock.GmailMarkAsRead (PStr "m3") true;
         Mock.DbMarkAsRead (PStr "m3") true;
         Mock.DbMarkAsProcessedBatch [PStr "m1"; PStr "m2"; PStr "m3"];
         Mock.DbClose ]
       [ (INFO, ProcessingBatch 3);
         (DEBUG, AppliedActions (PStr "Test Rule"));
         (DEBUG, AppliedActions (PStr "Test Rule"));
         (INFO, MarkedProcessed 3 3) ]).
Proof. vm_compute. reflexivity. Qed.

(** A run whose generator raises after its first batch: the batch is
    done with, the error is logged and raised again, the database having
    been closed. *)
Example process_emails_generator_raises :
  process_emails {| RuleProcessor.rules := [Mock.test_rule] |}
    (Mock.gmail Mock.never) (Mock.db Mock.never) Sample.breaks_off
    Mock.start
  = (inl ValueError,
     Mock.st (738886 * DAY)
       [ Mock.DbAddEmailsBatch Mock.stored3;
         Mock.GmailMarkAsRead (PStr "m1") true;
         Mock.DbMarkAsRead (PStr "m1") true;
         Mock.GmailMarkAsRead (PStr "m3") true;
         Mock.DbMarkAsRead (PStr "m3") true;
         Mock.DbMarkAsProcessedBatch [PStr "m1"; PStr "m2"; PStr "m3"];
         Mock.DbClose ]
       [ (INFO, ProcessingBatch 3);
         (DEBUG, AppliedActions (PStr "Test Rule"));
         (DEBUG, AppliedActions (PStr "Test Rule"));
         (INFO, MarkedProcessed 3 3);
         (ERROR, ErrorOccurred ValueError) ]).
Proof. vm_compute. reflexivity. Qed.

(** A condition whose value is a number, as a rules document may well
    hold, raises out of [evaluate] on a string field. *)
Example number_value_raises :
  fst (RuleCondition.evaluate
         {| RuleCondition.field := PStr "subject";
            RuleCondition.predicate := PStr "contains";
            RuleCondition.value := PInt 7 |}
         (Mock.sample_email 0) Mock.start) = inl AttributeError.
Proof. reflexivity. Qed.

(** ** Rule.evaluate *)

Section RuleEvaluate.
Context {RT : Runtime}.

Lemma evaluate_conditions_run email cs : forall s results s',
  Rule.evaluate_conditions cs email s = (inr results, s') <->
  conditions_run email cs s results s'.
Proof.
  induction cs as [|c cs IH]; intros s results s'; simpl.
  - unfold ret. split; intros H.
    + injection H as <- <-. constructor.
    + inversion H; subst. reflexivity.
  - unfold bind at 1.
    destruct (RuleCondition.evaluate c email s) as [[e|b] s1] eqn:Ec.
    + split; [discriminate|]. intros H. inversion H; subst. congruence.
    + unfold bind at 1.
      destruct (Rule.evaluate_conditions cs email s1) as [[e|bs] s2] eqn:Ecs.
      * split; [discriminate|]. intros H. inversion H; subst.
        assert (s3 = s1 /\ b0 = b) as [-> ->] by (split; congruence).
        apply IH in H6. congruence.
      * unfold ret. split; intros H.
        -- injection H as <- <-. econstructor; [eassumption|].
           apply IH. assumption.
        -- inversion H; subst.
           assert (s3 = s1 /\ b0 = b) as [-> ->] by (split; congruence).
           apply IH in H6. congruence.
Qed.

Lemma all_true_iff results :
  Rule.all results = true <-> Forall (eq true) results.
Proof.
  unfold Rule.all. rewrite forallb_forall, Forall_forall.
  split; intros H x Hx; specialize (H x Hx); congruence.
Qed.

Lemma any_true_iff results :
  Rule.any results = true <-> Exists (eq true) results.
Proof.
  unfold Rule.any. rewrite existsb_exists, Exists_exists.
  split; intros (x & Hx & E); exists x; split; congruence.
Qed.

(** C9.  With predicate "all", [Rule.evaluate] returns true exactly when
    the rule has conditions and every one of them evaluates to true on
    the message; with "any", exactly when at least one evaluates to
    true; and a rule without conditions evaluates to false under every
    predicate, touching nothing. *)
Theorem rule_evaluate_all_any_empty :
  forall (n a : pyval) (cs : list RuleCondition.t) (email : dict)
         (s s' : state),
    (Rule.evaluate {| Rule.name := n; Rule.conditions := cs;
                      Rule.predicate := PStr "all"; Rule.actions := a |}
       email s = (inr true, s') <->
     cs <> [] /\
     exists results,
       conditions_run email cs s results s' /\ Forall (eq true) results) /\
    (Rule.evaluate {| Rule.name := n; Rule.conditions := cs;
                      Rule.predicate := PStr "any"; Rule.actions := a |}
       email s = (inr true, s') <->
     exists results,
       conditions_run email cs s results s' /\ Exists (eq true) results) /\
    (forall p : pyval,
       Rule.evaluate {| Rule.name := n; Rule.conditions := [];
                        Rule.predicate := p; Rule.actions := a |} email s
       = (inr false, s)).
Proof.
  intros n a cs email s s'. split; [|split].
  - destruct cs as [|c cs].
    + unfold Rule.evaluate; simpl. unfold ret.
      split; [discriminate | intros [H _]; congruence].
    + unfold Rule.evaluate.
      cbn [Rule.conditions Rule.predicate py_eq_str String.eqb].
      change ("all" =? "all")%string with true. cbv iota.
      unfold bind at 1.
      destruct (Rule.evaluate_conditions (c :: cs) email s)
        as [[e|rs] s1] eqn:E.
      * split; [discriminate|]. intros (_ & rs & Hrun & _).
        apply evaluate_conditions_run in Hrun. congruence.
      * unfold ret. split.
        -- intros H. injection H as Hall <-.
           split; [discriminate|]. exists rs. split.
           ++ apply evaluate_conditions_run; assumption.
           ++ apply all_true_iff; assumption.
        -- intros (_ & rs' & Hrun & Hall).
           apply evaluate_conditions_run in Hrun.
           rewrite E in Hrun. injection Hrun as <- <-.
           apply all_true_iff in Hall. rewrite Hall. reflexivity.
  - destruct cs as [|c cs].
    + unfold Rule.evaluate; simpl. unfold ret.
      split; [discriminate|]. intros (rs & Hrun & Hex).
      inversion Hrun; subst. inversion Hex.
    + unfold Rule.evaluate.
      cbn [Rule.conditions Rule.predicate py_eq_str].
      change ("any" =? "all")%string with false.
      change ("any" =? "any")%string with true. cbv iota.
      unfold bind at 1.
      destruct (Rule.evaluate_conditions (c :: cs) email s)
        as [[e|rs] s1] eqn:E.
      * split; [discriminate|]. intros (rs & Hrun & _).
        apply evaluate_conditions_run in Hrun. congruence.
      * unfold ret. split.
        -- intros H. injection H as Hany <-.
           exists rs. split.
           ++ apply evaluate_conditions_run; assumption.
           ++ apply any_true_iff; assumption.
        -- intros (rs' & Hrun & Hany).
           apply evaluate_conditions_run in Hrun.
           rewrite E in Hrun. injection Hrun as <- <-.
           apply any_true_iff in Hany. rewrite Hany. reflexivity.
  - intros p. reflexivity.
Qed.
End RuleEvaluate.

(** ** Rule.apply_actions *)

Section ApplyActions.
Context {RT : Runtime}.
Variables (email : dict) (gmail_service : GmailService.t)
          (email_db : EmailDatabase.t).

Lemma for_each_app {A} (f : A -> Py unit) (l1 l2 : list A) (s : state) :
  for_each (l1 ++ l2) f s = (for_each l1 f ;; for_each l2 f) s.
Proof.
  revert s. induction l1 as [|x l1 IH]; intros s; simpl.
  - reflexivity.
  - unfold bind in *. destruct (f x s) as [[e|[]] s1]; [reflexivity|].
    apply IH.
Qed.

(** Dropping from the list an action on which the loop body returns
    without touching the state changes nothing of the loop. *)
Lemma for_each_skip (pre post : list pyval) (a : pyval) :
  (forall s, Rule.apply_action email gmail_service email_db a s
             = (inr tt, s)) ->
  forall s,
    for_each (pre ++ a :: post)
      (Rule.apply_action email gmail_service email_db) s
    = for_each (pre ++ post)
        (Rule.apply_action email gmail_service email_db) s.
Proof.
  intros Ha s. rewrite !for_each_app. unfold bind.
  destruct (for_each pre _ s) as [[e|[]] s1]; [reflexivity|].
  simpl. unfold bind. rewrite Ha. reflexivity.
Qed.

Lemma apply_actions_skip (n p : pyval) (cs : list RuleCondition.t)
    (pre post : list pyval) (a : pyval) :
  (forall s, Rule.apply_action email gmail_service email_db a s
             = (inr tt, s)) ->
  forall s,
    Rule.apply_actions
      {| Rule.name := n; Rule.conditions := cs; Rule.predicate := p;
         Rule.actions := PList (pre ++ a :: post) |}
      email gmail_service email_db s
    = Rule.apply_actions
        {| Rule.name := n; Rule.conditions := cs; Rule.predicate := p;
           Rule.actions := PList (pre ++ post) |}
        email gmail_service email_db s.
Proof.
  intros Ha s. unfold Rule.apply_actions, try_except. simpl.
  unfold bind, lift. rewrite (for_each_skip pre post a Ha). reflexivity.
Qed.

(** [apply_actions] returns a boolean whatever happens inside. *)
Lemma apply_actions_returns (r : Rule.t) (s : state) :
  exists b s', Rule.apply_actions r email gmail_service email_db s
               = (inr b, s').
Proof.
  unfold Rule.apply_actions, try_except.
  match goal with |- context [match ?m s with _ => _ end] =>
    destruct (m s) as [[e|b] s1] end.
  - simpl. unfold bind, log, ret. eauto.
  - eauto.
Qed.

Lemma py_eq_str_true (v : pyval) (t : string) :
  py_eq_str v t = true -> v = PStr t.
Proof.
  destruct v; simpl; try discriminate.
  intros H. apply String.eqb_eq in H. congruence.
Qed.

(** The loop of [apply_actions] does what [actions_run] says: on actions
    that go through, the collaborator calls of each recognized action
    have been made, in order, when the loop ends. *)
Lemma actions_run_for_each (acts : list pyval) (s s' : state) :
  actions_run email gmail_service email_db acts s s' ->
  for_each acts (Rule.apply_action email gmail_service email_db) s
  = (inr tt, s').
Proof.
  induction 1 as
    [ s
    | a rest ty id s s1 s2 s3 Hty Hread Hid Hgm Hdb _ IH
    | a rest ty id s s1 s2 s3 Hty Hunread Hid Hgm Hdb _ IH
    | a rest ty id label s s1 s2 s3 Hty Hmove Hin Hlabel Hid Hgm Hdb _ IH
    | a rest ty s s1 Hty Hmove Hin _ IH
    | a rest ty s s1 Hty H1 H2 H3 _ IH ];
    [reflexivity| | | | |];
    cbn [for_each]; unfold bind at 1.
  - enough (Ha : Rule.apply_action email gmail_service email_db a s
                 = (inr tt, s2)) by (rewrite Ha; exact IH).
    unfold Rule.apply_action. unfold bind at 1. unfold lift at 1.
    rewrite Hty, Hread. unfold bind at 1. unfold lift at 1.
    unfold dict_getitem. rewrite Hid.
    unfold bind at 1. rewrite Hgm.
    unfold bind at 1. unfold lift at 1. exact Hdb.
  - enough (Ha : Rule.apply_action email gmail_service email_db a s
                 = (inr tt, s2)) by (rewrite Ha; exact IH).
    apply py_eq_str_true in Hunread. subst ty.
    unfold Rule.apply_action. unfold bind at 1. unfold lift at 1.
    rewrite Hty. cbn [py_eq_str String.eqb]. cbv [Ascii.eqb Bool.eqb].
    unfold bind at 1. unfold lift at 1.
    unfold dict_getitem. rewrite Hid.
    unfold bind at 1. rewrite Hgm.
    unfold bind at 1. unfold lift at 1. exact Hdb.
  - enough (Ha : Rule.apply_action email gmail_service email_db a s
                 = (inr tt, s2)) by (rewrite Ha; exact IH).
    apply py_eq_str_true in Hmove. subst ty.
    unfold Rule.apply_action. unfold bind at 1. unfold lift at 1.
    rewrite Hty. cbn [py_eq_str String.eqb]. cbv [Ascii.eqb Bool.eqb].
    unfold bind at 1. unfold lift at 1. rewrite Hin.
    unfold bind at 1. unfold lift at 1.
    unfold dict_getitem. rewrite Hid.
    unfold bind at 1. unfold lift at 1. rewrite Hlabel.
    unfold bind at 1. rewrite Hgm.
    unfold bind at 1. unfold lift at 1.
    unfold bind at 1. unfold lift at 1. exact Hdb.
  - enough (Ha : Rule.apply_action email gmail_service email_db a s
                 = (inr tt, s)) by (rewrite Ha; exact IH).
    apply py_eq_str_true in Hmove. subst ty.
    unfold Rule.apply_action. unfold bind at 1. unfold lift at 1.
    rewrite Hty. cbn [py_eq_str String.eqb]. cbv [Ascii.eqb Bool.eqb].
    unfold bind at 1. unfold lift at 1. rewrite Hin. reflexivity.
  - enough (Ha : Rule.apply_action email gmail_service email_db a s
                 = (inr tt, s)) by (rewrite Ha; exact IH).
    unfold Rule.apply_action. unfold bind at 1. unfold lift at 1.
    rewrite Hty, H1, H2, H3. reflexivity.
Qed.

(** Around an action on which the loop body returns without touching the
    state: when the actions before it and those after it go through,
    [apply_actions] returns true, every one of them having been
    executed. *)
Lemma apply_actions_around (n p : pyval) (cs : list RuleCondition.t)
    (pre post : list pyval) (a : pyval) (s s1 s2 : state) :
  Rule.apply_action email gmail_service email_db a s1 = (inr tt, s1) ->
  actions_run email gmail_service email_db pre s s1 ->
  actions_run email gmail_service email_db post s1 s2 ->
  Rule.apply_actions
    {| Rule.name := n; Rule.conditions := cs; Rule.predicate := p;
       Rule.actions := PList (pre ++ a :: post) |}
    email gmail_service email_db s
  = (inr true, s2).
Proof.
  intros Ha Hpre Hpost. unfold Rule.apply_actions, try_except. simpl.
  unfold bind at 1. unfold lift at 1. unfold bind at 1.
  rewrite for_each_app. unfold bind at 1.
  rewrite (actions_run_for_each Hpre). cbn [for_each].
  unfold bind at 1. rewrite Ha.
  rewrite (actions_run_for_each Hpost). reflexivity.
Qed.

(** C8.  An action whose type is none of mark_as_read, mark_as_unread,
    move_message is passed over: the loop body returns on it leaving
    state and log as they were, so [apply_actions] on a list holding it
    does, returns and logs exactly what it does on the list without it,
    and a list of that action alone returns true.  The actions after it
    are executed all the same: when the actions before it and those after
    it go through, each recognized one calling the mailbox and the
    database, [apply_actions] returns true in the state these calls
    leave. *)
Theorem unrecognized_action_skipped
    (n p : pyval) (cs : list RuleCondition.t) (pre post : list pyval)
    (a action_type : pyval) :
  py_getitem a "type" = inr action_type ->
  py_eq_str action_type "mark_as_read" = false ->
  py_eq_str action_type "mark_as_unread" = false ->
  py_eq_str action_type "move_message" = false ->
  forall s,
    Rule.apply_action email gmail_service email_db a s = (inr tt, s) /\
    Rule.apply_actions
      {| Rule.name := n; Rule.conditions := cs; Rule.predicate := p;
         Rule.actions := PList (pre ++ a :: post) |}
      email gmail_service email_db s
    = Rule.apply_actions
        {| Rule.name := n; Rule.conditions := cs; Rule.predicate := p;
           Rule.actions := PList (pre ++ post) |}
        email gmail_service email_db s /\
    Rule.apply_actions
      {| Rule.name := n; Rule.conditions := cs; Rule.predicate := p;
         Rule.actions := PList [a] |}
      email gmail_service email_db s
    = (inr true, s) /\
    (forall s1 s2 : state,
       actions_run email gmail_service email_db pre s s1 ->
       actions_run email gmail_service email_db post s1 s2 ->
       Rule.apply_actions
         {| Rule.name := n; Rule.conditions := cs; Rule.predicate := p;
            Rule.actions := PList (pre ++ a :: post) |}
         email gmail_service email_db s
       = (inr true, s2)).
Proof.
  intros Hty H1 H2 H3.
  assert (Hskip : forall s,
             Rule.apply_action email gmail_service email_db a s
             = (inr tt, s)).
  { intros s. unfold Rule.apply_action, bind, lift.
    rewrite Hty, H1, H2, H3. reflexivity. }
  intros s. split; [apply Hskip|]. split; [|split].
  - apply apply_actions_skip. exact Hskip.
  - pose proof (apply_actions_skip n p cs [] [] a Hskip s) as E.
    simpl app in E. rewrite E. reflexivity.
  - intros s1 s2 Hpre Hpost.
    exact (apply_actions_around n p cs a (Hskip s1) Hpre Hpost).
Qed.

(** C10.  A move_message action without a "label" entry calls neither
    the mailbox nor the database: the loop body returns on it leaving
    the state as it was, [apply_actions] on a list holding it behaves as
    on the list without it, and on that action alone it returns true.
    The loop goes on with the remaining actions: when the actions before
    it and those after it go through, each recognized one calling the
    mailbox and the database, [apply_actions] returns true in the state
    these calls leave. *)
Theorem move_without_label_skipped
    (n p : pyval) (cs : list RuleCondition.t) (pre post : list pyval)
    (action : dict) :
  dict_get "type" action = Some (PStr "move_message") ->
  dict_get "label" action = None ->
  forall s,
    Rule.apply_action email gmail_service email_db (PDict action) s
    = (inr tt, s) /\
    Rule.apply_actions
      {| Rule.name := n; Rule.conditions := cs; Rule.predicate := p;
         Rule.actions := PList (pre ++ PDict action :: post) |}
      email gmail_service email_db s
    = Rule.apply_actions
        {| Rule.name := n; Rule.conditions := cs; Rule.predicate := p;
           Rule.actions := PList (pre ++ post) |}
        email gmail_service email_db s /\
    Rule.apply_actions
      {| Rule.name := n; Rule.conditions := cs; Rule.predicate := p;
         Rule.actions := PList [PDict action] |}
      email gmail_service email_db s
    = (inr true, s) /\
    (forall s1 s2 : state,
       actions_run email gmail_service email_db pre s s1 ->
       actions_run email gmail_service email_db post s1 s2 ->
       Rule.apply_actions
         {| Rule.name := n; Rule.conditions := cs; Rule.predicate := p;
            Rule.actions := PList (pre ++ PDict action :: post) |}
         email gmail_service email_db s
       = (inr true, s2)).
Proof.
  intros Hty Hlabel.
  assert (Hskip : forall s,
             Rule.apply_action email gmail_service email_db
               (PDict action) s = (inr tt, s)).
  { intros s. unfold Rule.apply_action, bind, lift. simpl.
    unfold dict_getitem, dict_mem. rewrite Hty, Hlabel. reflexivity. }
  intros s. split; [apply Hskip|]. split; [|split].
  - apply apply_actions_skip. exact Hskip.
  - pose proof (apply_actions_skip n p cs [] [] (PDict action) Hskip s)
      as E.
    simpl app in E. rewrite E. reflexivity.
  - intros s1 s2 Hpre Hpost.
    exact (apply_actions_around n p cs (PDict action) (Hskip s1)
             Hpre Hpost).
Qed.

(** C7.  When the actions [pre] have run and the next action raises [e],
    [apply_actions] returns false without trying the actions [post]; the
    state it leaves is the one the raise left, [pre]'s effects and those
    of the failing action up to the raise included, with one more log
    record, the error carrying the rule's name and [e]. *)
Theorem apply_actions_aborts_without_rollback
    (n p : pyval) (cs : list RuleCondition.t) (pre post : list pyval)
    (a : pyval) (e : exn) (s s1 s2 : state) :
  for_each pre (Rule.apply_action email gmail_service email_db) s
  = (inr tt, s1) ->
  Rule.apply_action email gmail_service email_db a s1 = (inl e, s2) ->
  Rule.apply_actions
    {| Rule.name := n; Rule.conditions := cs; Rule.predicate := p;
       Rule.actions := PList (pre ++ a :: post) |}
    email gmail_service email_db s
  = (inr false, log_state ERROR (ErrorApplyingActions n e) s2).
Proof.
  intros Hpre Ha. unfold Rule.apply_actions, try_except. simpl.
  unfold bind at 1. unfold lift at 1. unfold bind at 1.
  rewrite for_each_app. unfold bind at 1. rewrite Hpre. simpl.
  unfold bind at 1. rewrite Ha. reflexivity.
Qed.
End ApplyActions.

Lemma unrecognized_action_skipped_witness :
  py_getitem (Mock.action "archive") "type" = inr (PStr "archive") /\
  py_eq_str (PStr "archive") "mark_as_read" = false /\
  py_eq_str (PStr "archive") "mark_as_unread" = false /\
  py_eq_str (PStr "archive") "move_message" = false /\
  (Rule.apply_action (Mock.sample_email 0) (Mock.gmail Mock.never)
     (Mock.db Mock.never) (Mock.action "archive") Mock.start
   = (inr tt, Mock.start) /\
   Rule.apply_actions
     (Mock.tidy ([Mock.action "mark_as_read"]
                 ++ Mock.action "archive" :: [Mock.move_to "Done"])%list)
     (Mock.sample_email 0) (Mock.gmail Mock.never) (Mock.db Mock.never)
     Mock.start
   = Rule.apply_actions
       (Mock.tidy ([Mock.action "mark_as_read"] ++ [Mock.move_to "Done"])%list)
       (Mock.sample_email 0) (Mock.gmail Mock.never) (Mock.db Mock.never)
       Mock.start /\
   Rule.apply_actions (Mock.tidy [Mock.action "archive"])
     (Mock.sample_email 0) (Mock.gmail Mock.never) (Mock.db Mock.never)
     Mock.start
   = (inr true, Mock.start) /\
   actions_run (Mock.sample_email 0) (Mock.gmail Mock.never)
     (Mock.db Mock.never) [Mock.action "mark_as_read"]
     Mock.start Mock.after_read /\
   actions_run (Mock.sample_email 0) (Mock.gmail Mock.never)
     (Mock.db Mock.never) [Mock.move_to "Done"]
     Mock.after_read Mock.after_move /\
   Rule.apply_actions
     (Mock.tidy ([Mock.action "mark_as_read"]
                 ++ Mock.action "archive" :: [Mock.move_to "Done"])%list)
     (Mock.sample_email 0) (Mock.gmail Mock.never) (Mock.db Mock.never)
     Mock.start
   = (inr true, Mock.after_move)).
Proof.
  do 4 (split; [reflexivity|]).
  assert (Hpre : actions_run (Mock.sample_email 0) (Mock.gmail Mock.never)
                   (Mock.db Mock.never) [Mock.action "mark_as_read"]
                   Mock.start Mock.after_read).
  { eapply actions_run_read; try reflexivity. apply actions_run_nil. }
  assert (Hpost : actions_run (Mock.sample_email 0) (Mock.gmail Mock.never)
                    (Mock.db Mock.never) [Mock.move_to "Done"]
                    Mock.after_read Mock.after_move).
  { eapply actions_run_move; try reflexivity. apply actions_run_nil. }
  destruct (@unrecognized_action_skipped Mock.runtime (Mock.sample_email 0)
              (Mock.gmail Mock.never) (Mock.db Mock.never)
              (PStr "Tidy") (PStr "all")
              [Mock.cond "subject" "contains" "test"]
              [Mock.action "mark_as_read"] [Mock.move_to "Done"]
              (Mock.action "archive") (PStr "archive")
              eq_refl eq_refl eq_refl eq_refl Mock.start)
    as (H1 & H2 & H3 & H4).
  split; [exact H1|]. split; [exact H2|]. split; [exact H3|].
  split; [exact Hpre|]. split; [exact Hpost|].
  exact (H4 Mock.after_read Mock.after_move Hpre Hpost).
Defined.

Lemma move_without_label_skipped_witness :
  dict_get "type" Mock.move_nowhere = Some (PStr "move_message") /\
  dict_get "label" Mock.move_nowhere = None /\
  (Rule.apply_action (Mock.sample_email 0) (Mock.gmail Mock.never)
     (Mock.db Mock.never) (PDict Mock.move_nowhere) Mock.start
   = (inr tt, Mock.start) /\
   Rule.apply_actions
     (Mock.tidy ([Mock.action "mark_as_read"]
                 ++ PDict Mock.move_nowhere :: [Mock.move_to "Done"])%list)
     (Mock.sample_email 0) (Mock.gmail Mock.never) (Mock.db Mock.never)
     Mock.start
   = Rule.apply_actions
       (Mock.tidy ([Mock.action "mark_as_read"] ++ [Mock.move_to "Done"])%list)
       (Mock.sample_email 0) (Mock.gmail Mock.never) (Mock.db Mock.never)
       Mock.start /\
   Rule.apply_actions (Mock.tidy [PDict Mock.move_nowhere])
     (Mock.sample_email 0) (Mock.gmail Mock.never) (Mock.db Mock.never)
     Mock.start
   = (inr true, Mock.start) /\
   actions_run (Mock.sample_email 0) (Mock.gmail Mock.never)
     (Mock.db Mock.never) [Mock.action "mark_as_read"]
     Mock.start Mock.after_read /\
   actions_run (Mock.sample_email 0) (Mock.gmail Mock.never)
     (Mock.db Mock.never) [Mock.move_to "Done"]
     Mock.after_read Mock.after_move /\
   Rule.apply_actions
     (Mock.tidy ([Mock.action "mark_as_read"]
                 ++ PDict Mock.move_nowhere :: [Mock.move_to "Done"])%list)
     (Mock.sample_email 0) (Mock.gmail Mock.never) (Mock.db Mock.never)
     Mock.start
   = (inr true, Mock.after_move)).
Proof.
  do 2 (split; [reflexivity|]).
  assert (Hpre : actions_run (Mock.sample_email 0) (Mock.gmail Mock.never)
                   (Mock.db Mock.never) [Mock.action "mark_as_read"]
                   Mock.start Mock.after_read).
  { eapply actions_run_read; try reflexivity. apply actions_run_nil. }
  assert (Hpost : actions_run (Mock.sample_email 0) (Mock.gmail Mock.never)
                    (Mock.db Mock.never) [Mock.move_to "Done"]
                    Mock.after_read Mock.after_move).
  { eapply actions_run_move; try reflexivity. apply actions_run_nil. }
  destruct (@move_without_label_skipped Mock.runtime (Mock.sample_email 0)
              (Mock.gmail Mock.never) (Mock.db Mock.never)
              (PStr "Tidy") (PStr "all")
              [Mock.cond "subject" "contains" "test"]
              [Mock.action "mark_as_read"] [Mock.move_to "Done"]
              Mock.move_nowhere eq_refl eq_refl Mock.start)
    as (H1 & H2 & H3 & H4).
  split; [exact H1|]. split; [exact H2|]. split; [exact H3|].
  split; [exact Hpre|]. split; [exact Hpost|].
  exact (H4 Mock.after_read Mock.after_move Hpre Hpost).
Defined.

Lemma apply_actions_aborts_without_rollback_witness :
  for_each [Mock.action "mark_as_read"]
    (Rule.apply_action (Mock.sample_email 0) (Mock.gmail Mock.never)
       (Mock.db Mock.labels_fail))
    Mock.start = (inr tt, Mock.after_read) /\
  Rule.apply_action (Mock.sample_email 0) (Mock.gmail Mock.never)
    (Mock.db Mock.labels_fail) (Mock.move_to "Done") Mock.after_read
  = (inl Mock.failure, Mock.after_move) /\
  Rule.apply_actions
    (Mock.tidy ([Mock.action "mark_as_read"]
                ++ Mock.move_to "Done" :: [Mock.action "mark_as_unread"])%list)
    (Mock.sample_email 0) (Mock.gmail Mock.never) (Mock.db Mock.labels_fail)
    Mock.start
  = (inr false,
     log_state ERROR (ErrorApplyingActions (PStr "Tidy") Mock.failure)
       Mock.after_move).
Proof.
  split; [reflexivity|]. split; [reflexivity|].
  apply (@apply_actions_aborts_without_rollback Mock.runtime
           (Mock.sample_email 0) (Mock.gmail Mock.never)
           (Mock.db Mock.labels_fail)
           (PStr "Tidy") (PStr "all") [Mock.cond "subject" "contains" "test"]
           [Mock.action "mark_as_read"] [Mock.action "mark_as_unread"]
           (Mock.move_to "Done") Mock.failure
           Mock.start Mock.after_read Mock.after_move);
    reflexivity.
Defined.

(** ** RuleCondition.evaluate on the date field *)

Section DateCondition.
Context {RT : Runtime}.

Lemma now_eq (s : state) :
  now s = (inr (fst (datetime_now (world s))), after_now s).
Proof.
  unfold now, after_now. destruct (datetime_now (world s)); reflexivity.
Qed.

(** On a message that has a datetime under "received_date", a condition on
    that field comes down to [_evaluate_date] on the datetime. *)
Lemma evaluate_date_field (p v : pyval) (email : dict) (dt : pyval)
    (s : state) :
  dict_get "received_date" email = Some dt ->
  RuleCondition.evaluate
    {| RuleCondition.field := PStr "received_date";
       RuleCondition.predicate := p; RuleCondition.value := v |} email s
  = RuleCondition._evaluate_date
      {| RuleCondition.field := PStr "received_date";
         RuleCondition.predicate := p; RuleCondition.value := v |} dt s.
Proof.
  intros H. unfold RuleCondition.evaluate, bind, lift. simpl.
  unfold dict_mem, dict_getitem. rewrite H. reflexivity.
Qed.

Lemma huge_days_overflow (email : dict) (wall : Z) (tz : option Z)
    (s : state) :
  dict_get "received_date" email = Some (PDatetime wall tz) ->
  RuleCondition.evaluate huge_days email s = (inl OverflowError, after_now s).
Proof.
  intros H. unfold huge_days.
  rewrite evaluate_date_field with (dt := PDatetime wall tz) by exact H.
  unfold RuleCondition._evaluate_date, try_except, bind, lift. simpl.
  rewrite now_eq. reflexivity.
Qed.

(** C4.  [RuleCondition.evaluate] does raise: on a message received at any
    datetime, the condition received_date less_than "1000000000 days"
    raises OverflowError out of [evaluate]; [timedelta] refuses that many
    days and the [except] clause of [_evaluate_date] names ValueError and
    AttributeError only. *)
Theorem condition_evaluate_raises_overflow (wall : Z) (tz : option Z)
    (s : state) :
  RuleCondition.evaluate huge_days
    [("message_id", PStr "m1"); ("received_date", PDatetime wall tz)] s
  = (inl OverflowError, after_now s).
Proof.
  apply huge_days_overflow with (wall := wall) (tz := tz). reflexivity.
Qed.
End DateCondition.

(** ** RuleProcessor.process_email *)

Section ProcessEmail.
Context {RT : Runtime}.
Variables (email : dict) (gmail_service : GmailService.t)
          (email_db : EmailDatabase.t).

(** A message that carries its identifier is always answered with a
    boolean. *)
Lemma process_email_returns (self : RuleProcessor.t) (id : pyval)
    (s : state) :
  dict_get "message_id" email = Some id ->
  exists b s',
    RuleProcessor.process_email self email gmail_service email_db s
    = (inr b, s').
Proof.
  intros Hid. unfold RuleProcessor.process_email, try_except.
  match goal with |- context [match ?m s with _ => _ end] =>
    destruct (m s) as [[e|b] s1] end.
  - simpl. unfold bind, lift, dict_getitem. rewrite Hid.
    unfold log, ret. eauto.
  - eauto.
Qed.

(** Once the loop body has returned on the first rule, the call goes on
    as a call on the rules that remain. *)
Lemma process_email_cons (r : Rule.t) (rest : list Rule.t) (s s1 : state) :
  RuleProcessor.process_rule email gmail_service email_db r s
  = (inr tt, s1) ->
  RuleProcessor.process_email {| RuleProcessor.rules := r :: rest |}
    email gmail_service email_db s
  = RuleProcessor.process_email {| RuleProcessor.rules := rest |}
      email gmail_service email_db s1.
Proof.
  intros H. unfold RuleProcessor.process_email, try_except. simpl.
  unfold bind at 1. unfold bind at 1. rewrite H. reflexivity.
Qed.

(** C6.  A matching rule whose actions fail does not end the loop: after
    the failure is logged, [process_email] carries on with the rules that
    follow.  With two rules [r1], [r2] that both match, [r1]'s actions
    failing, [r2] is evaluated, its actions are applied, and the call
    returns true. *)
Theorem process_email_continues_after_action_failure
    (r1 r2 : Rule.t) (rest : list Rule.t) (s s1 s2 s3 : state) :
  Rule.evaluate r1 email s = (inr true, s1) ->
  Rule.apply_actions r1 email gmail_service email_db s1 = (inr false, s2) ->
  RuleProcessor.process_email {| RuleProcessor.rules := r1 :: rest |}
    email gmail_service email_db s
  = RuleProcessor.process_email {| RuleProcessor.rules := rest |}
      email gmail_service email_db
      (log_state ERROR (FailedActions (Rule.name r1)) s2) /\
  (Rule.evaluate r2 email (log_state ERROR (FailedActions (Rule.name r1)) s2)
   = (inr true, s3) ->
   exists (applied : bool) (s4 : state),
     Rule.apply_actions r2 email gmail_service email_db s3
     = (inr applied, s4) /\
     RuleProcessor.process_email {| RuleProcessor.rules := [r1; r2] |}
       email gmail_service email_db s
     = (inr true,
        log_state (if applied then DEBUG else ERROR)
          (if applied then AppliedActions (Rule.name r2)
           else FailedActions (Rule.name r2)) s4)).
Proof.
  intros Hev Hact.
  assert (Hstep :
            RuleProcessor.process_rule email gmail_service email_db r1 s
            = (inr tt, log_state ERROR (FailedActions (Rule.name r1)) s2)).
  { unfold RuleProcessor.process_rule, bind. rewrite Hev, Hact. reflexivity. }
  split.
  - apply process_email_cons. exact Hstep.
  - intros Hev2.
    destruct (apply_actions_returns email gmail_service email_db r2 s3)
      as (applied & s4 & Hact2).
    exists applied, s4. split; [exact Hact2|].
    rewrite process_email_cons with (1 := Hstep).
    unfold RuleProcessor.process_email, try_except. simpl.
    unfold bind at 1. unfold bind at 1.
    unfold RuleProcessor.process_rule at 1. unfold bind at 1.
    rewrite Hev2. unfold bind at 1. rewrite Hact2.
    destruct applied; reflexivity.
Qed.

(** C3.  [process_email] does raise: when the evaluation of a rule raises
    and the message has no "message_id", the handler's own log line raises
    KeyError, which leaves [process_email]. *)
Theorem process_email_raises_key_error (wall : Z) (tz : option Z)
    (s : state) :
  RuleProcessor.process_email {| RuleProcessor.rules := [huge_days_rule] |}
    [("received_date", PDatetime wall tz)] gmail_service email_db s
  = (inl (KeyError "message_id"), after_now s).
Proof.
  unfold RuleProcessor.process_email, try_except. simpl.
  unfold bind at 1. unfold bind at 1.
  unfold RuleProcessor.process_rule at 1. unfold bind at 1.
  unfold Rule.evaluate. simpl. unfold bind at 1. unfold bind at 1.
  rewrite huge_days_overflow with (wall := wall) (tz := tz)
    by reflexivity.
  reflexivity.
Qed.
End ProcessEmail.

Lemma process_email_continues_after_action_failure_witness :
  Rule.evaluate Mock.move_done (Mock.sample_email 0) Mock.start
  = (inr true, Mock.start) /\
  Rule.apply_actions Mock.move_done (Mock.sample_email 0)
    (Mock.gmail Mock.never) (Mock.db Mock.labels_fail) Mock.start
  = (inr false, Mock.after_failed_move) /\
  (RuleProcessor.process_email
     {| RuleProcessor.rules := [Mock.move_done; Mock.second] |}
     (Mock.sample_email 0) (Mock.gmail Mock.never) (Mock.db Mock.labels_fail)
     Mock.start
   = RuleProcessor.process_email
       {| RuleProcessor.rules := [Mock.second] |}
       (Mock.sample_email 0) (Mock.gmail Mock.never)
       (Mock.db Mock.labels_fail)
       (log_state ERROR (FailedActions (PStr "Tidy")) Mock.after_failed_move)
   /\
   (Rule.evaluate Mock.second (Mock.sample_email 0)
      (log_state ERROR (FailedActions (PStr "Tidy")) Mock.after_failed_move)
    = (inr true,
       log_state ERROR (FailedActions (PStr "Tidy")) Mock.after_failed_move) ->
    exists (applied : bool) (s4 : state),
      Rule.apply_actions Mock.second (Mock.sample_email 0)
        (Mock.gmail Mock.never) (Mock.db Mock.labels_fail)
        (log_state ERROR (FailedActions (PStr "Tidy")) Mock.after_failed_move)
      = (inr applied, s4) /\
      RuleProcessor.process_email
        {| RuleProcessor.rules := [Mock.move_done; Mock.second] |}
        (Mock.sample_email 0) (Mock.gmail Mock.never)
        (Mock.db Mock.labels_fail) Mock.start
      = (inr true,
         log_state (if applied then DEBUG else ERROR)
           (if applied then AppliedActions (PStr "Second")
            else FailedActions (PStr "Second")) s4))).
Proof.
  split; [reflexivity|]. split; [reflexivity|].
  apply (@process_email_continues_after_action_failure Mock.runtime
           (Mock.sample_email 0) (Mock.gmail Mock.never)
           (Mock.db Mock.labels_fail) Mock.move_done Mock.second
           [Mock.second] Mock.start Mock.start Mock.after_failed_move
           (log_state ERROR (FailedActions (PStr "Tidy"))
              Mock.after_failed_move));
    reflexivity.
Defined.

(** The run of the witness, in full: the second rule's [mark_as_read]
    reaches the mailbox and the database after the first rule's move
    failed. *)
Example second_rule_still_applied :
  RuleProcessor.process_email
    {| RuleProcessor.rules := [Mock.move_done; Mock.second] |}
    (Mock.sample_email 0) (Mock.gmail Mock.never) (Mock.db Mock.labels_fail)
    Mock.start
  = (inr true,
     Mock.st (738886 * DAY)
       [Mock.GmailMoveMessage (PStr "test123") (PStr "Done");
        Mock.DbUpdateLabels (PStr "test123") (PStr "Done");
        Mock.GmailMarkAsRead (PStr "test123") true;
        Mock.DbMarkAsRead (PStr "test123") true]
       [(ERROR, ErrorApplyingActions (PStr "Tidy") Mock.failure);
        (ERROR, FailedActions (PStr "Tidy"));
        (DEBUG, AppliedActions (PStr "Second"))]).
Proof. vm_compute. reflexivity. Qed.

(** ** The value "<N> days" as [_evaluate_date] reads it *)

Section DaysValue.
Local Open Scope string_scope.

Lemma append_empty_r (s : string) : s ++ "" = s.
Proof. induction s as [|c s IH]; simpl; [reflexivity | now rewrite IH]. Qed.

Lemma append_snoc (t : string) (c : ascii) (s : string) :
  (t ++ String c "") ++ s = t ++ String c s.
Proof. induction t as [|c' t IH]; simpl; [reflexivity | now rewrite IH]. Qed.

Lemma contains_days_suffix (ds : string) :
  str_contains "days" (ds ++ " days") = true.
Proof.
  induction ds as [|c ds IH].
  - reflexivity.
  - change (String c ds ++ " days") with (String c (ds ++ " days")).
    cbn [str_contains]. rewrite IH. apply orb_true_r.
Qed.

Lemma split_digits_aux (d : Decimal.uint) (t : string) :
  split_aux (Some t) (NilEmpty.string_of_uint d ++ " days")
  = [t ++ NilEmpty.string_of_uint d; "days"].
Proof.
  revert t. induction d; intros t;
    try (cbn [NilEmpty.string_of_uint append split_aux];
         match goal with
         | |- context [is_space ?c] =>
             change (is_space c) with false; cbv iota
         end;
         rewrite IHd, append_snoc; reflexivity).
  simpl. rewrite append_empty_r. reflexivity.
Qed.

Lemma split_digits (d : Decimal.uint) :
  d <> Decimal.Nil ->
  split (NilEmpty.string_of_uint d ++ " days")
  = [NilEmpty.string_of_uint d; "days"].
Proof.
  unfold split. destruct d; intros Hd; [congruence | ..];
    cbn [NilEmpty.string_of_uint append split_aux];
    match goal with
    | |- context [is_space ?c] => change (is_space c) with false; cbv iota
    end;
    rewrite split_digits_aux; reflexivity.
Qed.

Lemma rstrip_digits (d : Decimal.uint) :
  rstrip (NilEmpty.string_of_uint d) = NilEmpty.string_of_uint d.
Proof.
  induction d; cbn [NilEmpty.string_of_uint rstrip];
    [reflexivity | rewrite IHd; destruct (NilEmpty.string_of_uint d);
                   reflexivity ..].
Qed.

Lemma int_digits_uint (d : Decimal.uint) : forall acc : nat,
  int_digits (Z.of_nat acc) true (NilEmpty.string_of_uint d)
  = Some (Z.of_nat (Nat.of_uint_acc d acc)).
Proof.
  induction d; intros acc;
    cbn [NilEmpty.string_of_uint int_digits Nat.of_uint_acc];
    [reflexivity | ..];
    match goal with
    | |- context [digit_of ?c] =>
        let v := eval vm_compute in (digit_of c) in
        change (digit_of c) with v; cbv iota
    end;
    rewrite <- IHd; f_equal; rewrite Nat.tail_mul_spec; lia.
Qed.

Lemma int_digits_uint_Z (d : Decimal.uint) (z : Z) :
  0 <= z ->
  int_digits z true (NilEmpty.string_of_uint d)
  = Some (Z.of_nat (Nat.of_uint_acc d (Z.to_nat z))).
Proof.
  intros Hz. rewrite <- int_digits_uint, Z2Nat.id by exact Hz. reflexivity.
Qed.

Lemma py_int_digits (d : Decimal.uint) :
  d <> Decimal.Nil ->
  py_int (NilEmpty.string_of_uint d) = inr (Z.of_nat (Nat.of_uint d)).
Proof.
  intros Hd. unfold py_int. rewrite rstrip_digits.
  destruct d; [congruence | ..];
    cbn [NilEmpty.string_of_uint lstrip];
    match goal with
    | |- context [is_space ?c] => change (is_space c) with false; cbv iota
    end;
    cbn [int_digits];
    match goal with
    | |- context [digit_of ?c] =>
        let v := eval vm_compute in (digit_of c) in
        change (digit_of c) with v; cbv iota
    end;
    rewrite int_digits_uint_Z by lia;
    rewrite Z.mul_1_l; reflexivity.
Qed.

Lemma to_uint_nonnil (n : nat) : Nat.to_uint n <> Decimal.Nil.
Proof.
  rewrite <- (DecimalNat.Unsigned.of_to n) at 1.
  rewrite DecimalNat.Unsigned.to_of. apply DecimalFacts.unorm_nonnil.
Qed.

Lemma py_int_days_value (n : nat) :
  py_int (NilEmpty.string_of_uint (Nat.to_uint n)) = inr (Z.of_nat n).
Proof.
  rewrite py_int_digits by apply to_uint_nonnil.
  rewrite DecimalNat.Unsigned.of_to. reflexivity.
Qed.

Lemma split_days_value (n : nat) :
  split (days_value n) = [NilEmpty.string_of_uint (Nat.to_uint n); "days"].
Proof. apply split_digits, to_uint_nonnil. Qed.
End DaysValue.

(** ** Date conditions against the threshold *)

Section DateThreshold.
Context {RT : Runtime}.

(** With "<N> days" as its value and the threshold within the datetimes,
    [_evaluate_date] gets as far as the comparison. *)
Lemma evaluate_date_days (p : string) (n : nat) (wall : Z) (tz : option Z)
    (email : dict) (s : state) :
  dict_get "received_date" email = Some (PDatetime wall tz) ->
  valid_datetime (fst (datetime_now (world s))) ->
  valid_datetime (fst (datetime_now (world s)) - Z.of_nat n * DAY) ->
  RuleCondition.evaluate (date_condition p n) email s
  = (inr (if String.eqb p "less_than" then
            fst (datetime_now (world s)) - Z.of_nat n * DAY <? wall
          else if String.eqb p "greater_than" then
            wall <? fst (datetime_now (world s)) - Z.of_nat n * DAY
          else false),
     after_now s).
Proof.
  intros Hdate Hnow Hthr. unfold date_condition.
  rewrite evaluate_date_field with (dt := PDatetime wall tz) by exact Hdate.
  unfold RuleCondition._evaluate_date, try_except.
  cbn [RuleCondition.value RuleCondition.predicate py_tzinfo py_in py_split
       py_eq_str].
  unfold bind at 1. unfold lift at 1. unfold bind at 1. rewrite now_eq.
  unfold bind at 1. unfold lift at 1.
  unfold days_value at 1. rewrite contains_days_suffix.
  unfold bind at 1. unfold lift at 1. rewrite split_days_value.
  unfold bind at 1. unfold lift at 1. cbn [py_first].
  unfold bind at 1. unfold lift at 1. rewrite py_int_days_value.
  unfold valid_datetime, MAX_ORDINAL, DAY in Hnow, Hthr.
  assert (Hdelta : timedelta_days (Z.of_nat n) = inr (Z.of_nat n * DAY)).
  { unfold timedelta_days, MAX_DELTA_DAYS, DAY.
    destruct (Z.leb_spec (Z.abs (Z.of_nat n)) 999999999); [reflexivity|lia]. }
  unfold bind at 1. unfold lift at 1. rewrite Hdelta.
  assert (Hsub : datetime_sub (fst (datetime_now (world s)))
                   (Z.of_nat n * DAY)
                 = inr (fst (datetime_now (world s)) - Z.of_nat n * DAY)).
  { unfold datetime_sub, MAX_ORDINAL, DAY.
    destruct (Z.leb_spec 0
                (fst (datetime_now (world s)) - Z.of_nat n * 86400000000));
      [|lia].
    destruct (Z.ltb_spec
                (fst (datetime_now (world s)) - Z.of_nat n * 86400000000)
                (3652059 * 86400000000)); [reflexivity|lia]. }
  unfold bind at 1. unfold lift at 1. rewrite Hsub.
  destruct (String.eqb p "less_than");
    [destruct tz; reflexivity|].
  destruct (String.eqb p "greater_than"); destruct tz; reflexivity.
Qed.

(** C5.  On a message received at wall-clock reading [wall], with the
    threshold "now less N days" taken at the evaluation, the condition
    less_than "<N> days" returns whether [wall] is strictly after the
    threshold and greater_than "<N> days" whether it is strictly before.
    So a message received 10 days before the evaluation satisfies
    greater_than "7 days" and not less_than "7 days", and one received 5
    days before satisfies less_than "7 days" and not greater_than
    "7 days". *)
Theorem date_condition_compares_with_threshold (s : state) :
  valid_datetime (fst (datetime_now (world s))) ->
  (forall (n : nat) (wall : Z) (tz : option Z) (email : dict),
     dict_get "received_date" email = Some (PDatetime wall tz) ->
     valid_datetime (fst (datetime_now (world s)) - Z.of_nat n * DAY) ->
     RuleCondition.evaluate (date_condition "less_than" n) email s
     = (inr (fst (datetime_now (world s)) - Z.of_nat n * DAY <? wall),
        after_now s) /\
     RuleCondition.evaluate (date_condition "greater_than" n) email s
     = (inr (wall <? fst (datetime_now (world s)) - Z.of_nat n * DAY),
        after_now s)) /\
  (forall (tz : option Z) (email : dict),
     valid_datetime (fst (datetime_now (world s)) - 7 * DAY) ->
     (dict_get "received_date" email
      = Some (PDatetime (fst (datetime_now (world s)) - 10 * DAY) tz) ->
      RuleCondition.evaluate
        {| RuleCondition.field := PStr "received_date";
           RuleCondition.predicate := PStr "greater_than";
           RuleCondition.value := PStr "7 days" |} email s
      = (inr true, after_now s) /\
      RuleCondition.evaluate
        {| RuleCondition.field := PStr "received_date";
           RuleCondition.predicate := PStr "less_than";
           RuleCondition.value := PStr "7 days" |} email s
      = (inr false, after_now s)) /\
     (dict_get "received_date" email
      = Some (PDatetime (fst (datetime_now (world s)) - 5 * DAY) tz) ->
      RuleCondition.evaluate
        {| RuleCondition.field := PStr "received_date";
           RuleCondition.predicate := PStr "greater_than";
           RuleCondition.value := PStr "7 days" |} email s
      = (inr false, after_now s) /\
      RuleCondition.evaluate
        {| RuleCondition.field := PStr "received_date";
           RuleCondition.predicate := PStr "less_than";
           RuleCondition.value := PStr "7 days" |} email s
      = (inr true, after_now s))).
Proof.
  intros Hnow. split.
  - intros n wall tz email Hdate Hthr. split.
    + rewrite (@evaluate_date_days "less_than" n _ _ _ _ Hdate Hnow Hthr).
      reflexivity.
    + rewrite (@evaluate_date_days "greater_than" n _ _ _ _ Hdate Hnow Hthr).
      reflexivity.
  - intros tz email Hthr.
    change (PStr "7 days") with (PStr (days_value 7)).
    change {| RuleCondition.field := PStr "received_date";
              RuleCondition.predicate := PStr "greater_than";
              RuleCondition.value := PStr (days_value 7) |}
      with (date_condition "greater_than" 7).
    change {| RuleCondition.field := PStr "received_date";
              RuleCondition.predicate := PStr "less_than";
              RuleCondition.value := PStr (days_value 7) |}
      with (date_condition "less_than" 7).
    split; intros Hdate; split.
    + rewrite (@evaluate_date_days "greater_than" 7 _ _ _ _ Hdate Hnow Hthr).
      cbn [String.eqb Ascii.eqb Bool.eqb]. cbv iota. do 2 f_equal.
      apply Z.ltb_lt. unfold DAY. lia.
    + rewrite (@evaluate_date_days "less_than" 7 _ _ _ _ Hdate Hnow Hthr).
      cbn [String.eqb Ascii.eqb Bool.eqb]. cbv iota. do 2 f_equal.
      apply Z.ltb_ge. unfold DAY. lia.
    + rewrite (@evaluate_date_days "greater_than" 7 _ _ _ _ Hdate Hnow Hthr).
      cbn [String.eqb Ascii.eqb Bool.eqb]. cbv iota. do 2 f_equal.
      apply Z.ltb_ge. unfold DAY. lia.
    + rewrite (@evaluate_date_days "less_than" 7 _ _ _ _ Hdate Hnow Hthr).
      cbn [String.eqb Ascii.eqb Bool.eqb]. cbv iota. do 2 f_equal.
      apply Z.ltb_lt. unfold DAY. lia.
Qed.
End DateThreshold.

Lemma date_condition_compares_with_threshold_witness :
  valid_datetime (fst (datetime_now (world Mock.start))) /\
  dict_get "received_date" (Mock.sample_email (10 * DAY))
  = Some (PDatetime (738886 * DAY - 10 * DAY) None) /\
  valid_datetime (fst (datetime_now (world Mock.start)) - Z.of_nat 7 * DAY) /\
  RuleCondition.evaluate (date_condition "less_than" 7)
    (Mock.sample_email (10 * DAY)) Mock.start
  = (inr (fst (datetime_now (world Mock.start)) - Z.of_nat 7 * DAY
          <? 738886 * DAY - 10 * DAY),
     after_now Mock.start) /\
  RuleCondition.evaluate (date_condition "greater_than" 7)
    (Mock.sample_email (10 * DAY)) Mock.start
  = (inr (738886 * DAY - 10 * DAY
          <? fst (datetime_now (world Mock.start)) - Z.of_nat 7 * DAY),
     after_now Mock.start).
Proof.
  assert (Hnow : valid_datetime (fst (datetime_now (world Mock.start))))
    by (vm_compute; split; [discriminate | reflexivity]).
  assert (Hthr : valid_datetime
                   (fst (datetime_now (world Mock.start)) - Z.of_nat 7 * DAY))
    by (vm_compute; split; [discriminate | reflexivity]).
  split; [exact Hnow|]. split; [reflexivity|]. split; [exact Hthr|].
  exact (proj1 (@date_condition_compares_with_threshold Mock.runtime
                  Mock.start Hnow)
           7%nat (738886 * DAY - 10 * DAY) None
           (Mock.sample_email (10 * DAY)) eq_refl Hthr).
Defined.

(** ** RuleProcessor.load_rules *)

Section LoadRules.
Context {RT : Runtime}.

Lemma load_condition_state (c : pyval) (s : state) :
  snd (RuleProcessor.load_condition c s) = s.
Proof.
  unfold RuleProcessor.load_condition, bind, lift, ret.
  destruct (py_getitem c "field"); [reflexivity|].
  destruct (py_getitem c "predicate"); [reflexivity|].
  destruct (py_getitem c "value"); reflexivity.
Qed.

Lemma load_conditions_state (cs : list pyval) (s : state) :
  snd (map_py RuleProcessor.load_condition cs s) = s.
Proof.
  induction cs as [|c cs IH]; simpl; [reflexivity|].
  unfold bind at 1.
  pose proof (load_condition_state c s) as Hc.
  destruct (RuleProcessor.load_condition c s) as [[e|x] s1];
    simpl in Hc; subst s1; [reflexivity|].
  unfold bind at 1.
  destruct (map_py RuleProcessor.load_condition cs s) as [[e|xs] s1];
    simpl in IH; subst s1; reflexivity.
Qed.

(** Building a rule from its entry reads the entry and nothing else. *)
Lemma load_rule_state (rule_data : pyval) (s : state) :
  snd (RuleProcessor.load_rule rule_data s) = s.
Proof.
  unfold RuleProcessor.load_rule.
  unfold bind at 1. unfold lift at 1.
  destruct (py_getitem rule_data "conditions") as [e|conditions_data];
    [reflexivity|].
  unfold bind at 1. unfold lift at 1.
  destruct (py_iter conditions_data) as [e|l]; [reflexivity|].
  unfold bind at 1.
  pose proof (load_conditions_state l s) as Hc.
  destruct (map_py RuleProcessor.load_condition l s) as [[e|cs] s1];
    simpl in Hc; subst s1; [reflexivity|].
  unfold bind, lift, ret.
  destruct (py_getitem rule_data "name"); [reflexivity|].
  destruct (py_getitem rule_data "predicate"); [reflexivity|].
  destruct (py_getitem rule_data "actions"); reflexivity.
Qed.

Lemma load_rule_eq (rule_data : pyval) (r : res Rule.t) (s : state) :
  fst (RuleProcessor.load_rule rule_data s) = r ->
  RuleProcessor.load_rule rule_data s = (r, s).
Proof.
  intros H. pose proof (load_rule_state rule_data s) as Hs.
  destruct (RuleProcessor.load_rule rule_data s) as [r' s'].
  simpl in H, Hs. congruence.
Qed.

(** The loop over entries [good] that all build, followed by an entry that
    raises: the rules built from [good] are appended and stay. *)
Lemma load_rules_loop_stops (good rest : list pyval) (bad : pyval)
    (built : list Rule.t) (e : exn) (s : state) :
  Forall2 (fun rule_data rule =>
             fst (RuleProcessor.load_rule rule_data s) = inr rule)
    good built ->
  fst (RuleProcessor.load_rule bad s) = inl e ->
  forall self_rules,
    RuleProcessor.load_rules_loop (good ++ bad :: rest) self_rules s
    = (inl e, (self_rules ++ built)%list, s).
Proof.
  intros Hgood Hbad. apply load_rule_eq in Hbad.
  induction Hgood as [|d r good built Hd _ IH];
    intros self_rules; simpl.
  - rewrite Hbad, List.app_nil_r. reflexivity.
  - apply load_rule_eq in Hd.
    rewrite Hd, IH, <- List.app_assoc. reflexivity.
Qed.

(** The loop over entries that all build appends every rule. *)
Lemma load_rules_loop_all (good : list pyval) (built : list Rule.t)
    (s : state) :
  Forall2 (fun rule_data rule =>
             fst (RuleProcessor.load_rule rule_data s) = inr rule)
    good built ->
  forall self_rules,
    RuleProcessor.load_rules_loop good self_rules s
    = (inr tt, (self_rules ++ built)%list, s).
Proof.
  intros Hgood. induction Hgood as [|d r good built Hd _ IH];
    intros self_rules; simpl.
  - rewrite List.app_nil_r. reflexivity.
  - apply load_rule_eq in Hd.
    rewrite Hd, IH, <- List.app_assoc. reflexivity.
Qed.

(** C2, as amended.  Constructing a [RuleProcessor] never raises.  When the
    document cannot be read or parsed, or has no list of rules to iterate,
    the failure is logged and the rule list is empty.  When the entries
    [good] build into the rules [built] and the entry after them is
    malformed, the failure is logged and the rule list is [built]: the
    rules built before the malformed entry stay, the entries after it are
    not read. *)
Theorem load_rules_keeps_rules_before_failure (document : res pyval)
    (s : state) :
  (exists (self : RuleProcessor.t) (s' : state),
     RuleProcessor.init document s = (inr self, s')) /\
  (forall e : exn,
     document = inl e \/
     (exists v, document = inr v /\ py_getitem v "rules" = inl e) \/
     (exists v rule_list,
        document = inr v /\ py_getitem v "rules" = inr rule_list /\
        py_iter rule_list = inl e) ->
     RuleProcessor.init document s
     = (inr {| RuleProcessor.rules := [] |},
        log_state ERROR (ErrorLoadingRules e) s)) /\
  (forall (d : dict) (good rest : list pyval) (bad : pyval)
          (built : list Rule.t) (e : exn),
     document = inr (PDict d) ->
     dict_get "rules" d = Some (PList (good ++ bad :: rest)) ->
     Forall2 (fun rule_data rule =>
                fst (RuleProcessor.load_rule rule_data s) = inr rule)
       good built ->
     fst (RuleProcessor.load_rule bad s) = inl e ->
     RuleProcessor.init document s
     = (inr {| RuleProcessor.rules := built |},
        log_state ERROR (ErrorLoadingRules e) s)).
Proof.
  split; [|split].
  - unfold RuleProcessor.init, RuleProcessor.load_rules, bind, ret.
    destruct (RuleProcessor.load_rules_try document [] s) as [[[e|[]] rs] s'];
      eauto.
  - intros e H.
    unfold RuleProcessor.init, RuleProcessor.load_rules,
      RuleProcessor.load_rules_try, bind, ret.
    destruct H as [-> | [(v & -> & Hv) | (v & l & -> & Hv & Hl)]].
    + reflexivity.
    + rewrite Hv. reflexivity.
    + rewrite Hv, Hl. reflexivity.
  - intros d good rest bad built e -> Hrules Hgood Hbad.
    unfold RuleProcessor.init, RuleProcessor.load_rules,
      RuleProcessor.load_rules_try, bind, ret.
    cbn [py_getitem]. unfold dict_getitem. rewrite Hrules.
    cbn [py_iter].
    rewrite load_rules_loop_stops with (1 := Hgood) (2 := Hbad).
    reflexivity.
Qed.
End LoadRules.

Lemma load_rules_keeps_rules_before_failure_witness :
  dict_get "rules" [("rules",
                     PList ([Mock.test_rule_data]
                            ++ Mock.broken_rule_data
                               :: [Mock.test_rule_data])%list)]
  = Some (PList ([Mock.test_rule_data]
                 ++ Mock.broken_rule_data :: [Mock.test_rule_data])%list) /\
  Forall2 (fun rule_data rule =>
             fst (RuleProcessor.load_rule rule_data Mock.start) = inr rule)
    [Mock.test_rule_data] [Mock.test_rule] /\
  fst (RuleProcessor.load_rule Mock.broken_rule_data Mock.start)
  = inl (KeyError "conditions") /\
  RuleProcessor.init (inr Mock.half_broken_document) Mock.start
  = (inr {| RuleProcessor.rules := [Mock.test_rule] |},
     log_state ERROR (ErrorLoadingRules (KeyError "conditions")) Mock.start).
Proof.
  assert (Hgood : Forall2 (fun rule_data rule =>
                             fst (RuleProcessor.load_rule rule_data Mock.start)
                             = inr rule)
                    [Mock.test_rule_data] [Mock.test_rule])
    by (constructor; [reflexivity | constructor]).
  split; [reflexivity|]. split; [exact Hgood|]. split; [reflexivity|].
  exact (proj2 (proj2 (@load_rules_keeps_rules_before_failure Mock.runtime
                         (inr Mock.half_broken_document) Mock.start))
           _ [Mock.test_rule_data] [Mock.test_rule_data]
           Mock.broken_rule_data [Mock.test_rule] (KeyError "conditions")
           eq_refl eq_refl Hgood eq_refl).
Defined.

(** C2 as the specification has it fails on a document whose second rule
    is malformed: the rule list is left holding the first rule, not
    empty. *)
Lemma malformed_document_leaves_rules :
  fst (RuleProcessor.load_rule Mock.broken_rule_data Mock.start)
  = inl (KeyError "conditions") /\
  exists s' : state,
    RuleProcessor.init (inr Mock.half_broken_document) Mock.start
    = (inr {| RuleProcessor.rules := [Mock.test_rule] |}, s') /\
    [Mock.test_rule] <> [].
Proof.
  split; [reflexivity|].
  exists (log_state ERROR (ErrorLoadingRules (KeyError "conditions"))
            Mock.start).
  split; [reflexivity | discriminate].
Qed.

(** ** The batch coordinator *)

Section Batch.
Context {RT : Runtime}.
Variables (rule_processor : RuleProcessor.t) (email_service : GmailService.t)
          (email_db : EmailDatabase.t).

(** The loop over a batch whose messages all carry their identifier
    collects the identifiers of the messages [process_email] answered true
    for. *)
Lemma process_batch_emails_run (batch : list dict) :
  Forall (fun email => dict_mem "message_id" email = true) batch ->
  forall (acc : list pyval) (s : state),
  exists (ids : list pyval) (s' : state),
    batch_run rule_processor email_service email_db batch s ids s' /\
    process_batch_emails rule_processor email_service email_db batch acc s
    = (inr (acc ++ ids)%list, s').
Proof.
  induction 1 as [|email rest Hid _ IH]; intros acc s.
  - exists [], s. split; [constructor|]. simpl. rewrite List.app_nil_r.
    reflexivity.
  - unfold dict_mem in Hid.
    destruct (dict_get "message_id" email) as [id|] eqn:Eid; [|discriminate].
    destruct (@process_email_returns RT email email_service email_db
                rule_processor id s Eid) as (b & s1 & Hp).
    cbn [process_batch_emails]. unfold bind at 1. unfold try_except.
    unfold bind at 1. rewrite Hp. destruct b.
    + unfold bind, lift, ret, dict_getitem. rewrite Eid.
      destruct (IH (acc ++ [id])%list s1) as (ids & s2 & Hrun & Hloop).
      exists (id :: ids), s2. split.
      * eapply batch_run_true; eassumption.
      * fold (@bind RT). rewrite Hloop, <- List.app_assoc. reflexivity.
    + unfold ret.
      destruct (IH acc s1) as (ids & s2 & Hrun & Hloop).
      exists ids, s2. split.
      * eapply batch_run_false; eassumption.
      * exact Hloop.
Qed.

(** C1, as amended.  For a batch whose labels were joined, that was stored,
    and whose messages all carry their identifier, the coordinator hands
    [mark_as_processed_batch], in one call made after the last message,
    exactly the identifiers of the messages for which [process_email]
    returned true, in batch order and whether or not a rule matched them;
    when there is none, it makes no call. *)
Theorem batch_marks_ids_answered_true
    (batch batch' : list dict) (total_processed : nat) (s s0 s1 : state) :
  map_py join_labels batch
    (log_state INFO (ProcessingBatch (List.length batch)) s)
  = (inr batch', s0) ->
  EmailDatabase.add_emails_batch email_db batch' s0 = (inr tt, s1) ->
  Forall (fun email => dict_mem "message_id" email = true) batch' ->
  exists (ids : list pyval) (s2 : state),
    batch_run rule_processor email_service email_db batch' s1 ids s2 /\
    process_batch rule_processor email_service email_db batch
      total_processed s
    = match ids with
      | [] => (inr total_processed, s2)
      | _ =>
          match
            EmailDatabase.mark_as_processed_batch email_db ids
              (log_state INFO
                 (MarkedProcessed (List.length ids)
                    (total_processed + List.length ids)) s2)
          with
          | (inr _, s3) =>
              (inr (total_processed + List.length ids)%nat, s3)
          | (inl e, s3) =>
              (inr (total_processed + List.length ids)%nat,
               log_state ERROR (ErrorProcessingBatch e) s3)
          end
      end.
Proof.
  intros Hjoin Hadd Hids.
  destruct (process_batch_emails_run Hids [] s1) as (ids & s2 & Hrun & Hloop).
  exists ids, s2. split; [exact Hrun|].
  unfold process_batch. unfold bind at 1. unfold log at 1.
  unfold bind at 1. unfold try_except at 1.
  unfold bind at 1. rewrite Hjoin.
  unfold bind at 1. rewrite Hadd.
  unfold bind at 1. rewrite Hloop. unfold ret at 1.
  cbn [app]. unfold bind at 1. unfold try_except, mark_batch.
  destruct ids as [|id ids'].
  - unfold ret. cbn [List.length]. rewrite Nat.add_0_r. reflexivity.
  - unfold bind at 1. unfold log at 1.
    destruct (EmailDatabase.mark_as_processed_batch email_db (id :: ids') _)
      as [[e|[]] s3]; reflexivity.
Qed.
End Batch.

Lemma batch_marks_ids_answered_true_witness :
  map_py join_labels Mock.batch3
    (log_state INFO (ProcessingBatch (List.length Mock.batch3)) Mock.start)
  = (inr Mock.stored3, Mock.announced) /\
  EmailDatabase.add_emails_batch (Mock.db Mock.never) Mock.stored3
    Mock.announced
  = (inr tt, Mock.after_store) /\
  Forall (fun email => dict_mem "message_id" email = true) Mock.stored3 /\
  exists (ids : list pyval) (s2 : state),
    batch_run {| RuleProcessor.rules := [Mock.test_rule] |}
      (Mock.gmail Mock.never) (Mock.db Mock.never) Mock.stored3
      Mock.after_store ids s2 /\
    process_batch {| RuleProcessor.rules := [Mock.test_rule] |}
      (Mock.gmail Mock.never) (Mock.db Mock.never) Mock.batch3 0 Mock.start
    = match ids with
      | [] => (inr 0%nat, s2)
      | _ =>
          match
            EmailDatabase.mark_as_processed_batch (Mock.db Mock.never) ids
              (log_state INFO
                 (MarkedProcessed (List.length ids) (0 + List.length ids)) s2)
          with
          | (inr _, s3) => (inr (0 + List.length ids)%nat, s3)
          | (inl e, s3) =>
              (inr (0 + List.length ids)%nat,
               log_state ERROR (ErrorProcessingBatch e) s3)
          end
      end.
Proof.
  assert (Hids : Forall (fun email => dict_mem "message_id" email = true)
                   Mock.stored3)
    by (repeat constructor).
  split; [reflexivity|]. split; [reflexivity|]. split; [exact Hids|].
  exact (@batch_marks_ids_answered_true Mock.runtime
           {| RuleProcessor.rules := [Mock.test_rule] |}
           (Mock.gmail Mock.never) (Mock.db Mock.never)
           Mock.batch3 Mock.stored3 0%nat Mock.start Mock.announced
           Mock.after_store eq_refl eq_refl Hids).
Defined.

(** C1 as the specification has it fails on a batch of three messages of
    which the second is matched by no rule: the one call of
    [mark_as_processed_batch] names all three. *)
Lemma unmatched_message_marked_processed :
  (forall s : @state Mock.runtime,
     fst (Rule.evaluate Mock.test_rule (Mock.stored "m2" "Nothing") s)
     = inr false) /\
  process_batch {| RuleProcessor.rules := [Mock.test_rule] |}
    (Mock.gmail Mock.never) (Mock.db Mock.never) Mock.batch3 0 Mock.start
  = (inr 3%nat,
     Mock.st (738886 * DAY)
       [ Mock.DbAddEmailsBatch Mock.stored3;
         Mock.GmailMarkAsRead (PStr "m1") true;
         Mock.DbMarkAsRead (PStr "m1") true;
         Mock.GmailMarkAsRead (PStr "m3") true;
         Mock.DbMarkAsRead (PStr "m3") true;
         Mock.DbMarkAsProcessedBatch [PStr "m1"; PStr "m2"; PStr "m3"] ]
       [ (INFO, ProcessingBatch 3);
         (DEBUG, AppliedActions (PStr "Test Rule"));
         (DEBUG, AppliedActions (PStr "Test Rule"));
         (INFO, MarkedProcessed 3 3) ]).
Proof.
  split.
  - intros s. reflexivity.
  - vm_compute. reflexivity.
Qed.

(** * Further properties of the rule engine *)

(** ** String conditions *)

Section StringConditions.
Context {RT : Runtime}.
Local Open Scope string_scope.

Lemma prefix_iff (a b : string) :
  String.prefix a b = true <-> exists post, b = a ++ post.
Proof.
  revert b. induction a as [|c a IH]; intros b.
  - destruct b; simpl; split; eauto.
  - destruct b as [|c' b]; simpl.
    + split; [discriminate | intros [post H]; discriminate].
    + destruct (Ascii.ascii_dec c c') as [->|Hne].
      * rewrite IH. split; intros [post H]; exists post; congruence.
      * split; [discriminate | intros [post H]; congruence].
Qed.

(** [needle in hay] holds exactly of the substrings of [hay]. *)
Lemma str_contains_iff (needle hay : string) :
  str_contains needle hay = true <->
  exists pre post, hay = pre ++ needle ++ post.
Proof.
  induction hay as [|c hay IH]; cbn [str_contains].
  - rewrite prefix_iff. split.
    + intros [post H]. exists "", post. exact H.
    + intros (pre & post & H). destruct pre; [eauto | discriminate].
  - rewrite orb_true_iff, IH, prefix_iff. split.
    + intros [[post H] | (pre & post & H)].
      * exists "", post. exact H.
      * exists (String c pre), post. simpl. congruence.
    + intros (pre & post & H). destruct pre as [|c' pre].
      * left. exists post. exact H.
      * right. exists pre, post. simpl in H. congruence.
Qed.

Lemma mapping_values_nonempty (f key : string) :
  assoc_get f EMAIL_FIELD_MAPPING = Some key -> String.eqb key "" = false.
Proof.
  unfold EMAIL_FIELD_MAPPING. simpl.
  repeat match goal with
         | |- context [String.eqb f ?k] => destruct (String.eqb f k)
         end; intros H; inversion H; reflexivity.
Qed.

(** A condition on a mapped field other than the date, on a message that
    has the field, comes down to [_evaluate_string] on [str] of the
    field. *)
Lemma evaluate_string_field (f key : string) (p v fv : pyval)
    (email : dict) (s : state) :
  assoc_get f EMAIL_FIELD_MAPPING = Some key ->
  String.eqb f "received_date" = false ->
  dict_get key email = Some fv ->
  RuleCondition.evaluate
    {| RuleCondition.field := PStr f; RuleCondition.predicate := p;
       RuleCondition.value := v |} email s
  = RuleCondition._evaluate_string
      {| RuleCondition.field := PStr f; RuleCondition.predicate := p;
         RuleCondition.value := v |} (py_str fv) s.
Proof.
  intros Hmap Hdate Hget.
  unfold RuleCondition.evaluate, bind, lift.
  cbn [RuleCondition.field mapping_get py_eq_str].
  rewrite Hmap, (mapping_values_nonempty _ Hmap).
  unfold dict_mem, dict_getitem. rewrite Hget, Hdate. reflexivity.
Qed.

Lemma lower_upper_ascii (c : ascii) :
  lower_ascii (upper_ascii c) = lower_ascii c.
Proof.
  destruct c as [[] [] [] [] [] [] [] []]; reflexivity.
Qed.

Lemma lower_lower_ascii (c : ascii) :
  lower_ascii (lower_ascii c) = lower_ascii c.
Proof.
  destruct c as [[] [] [] [] [] [] [] []]; reflexivity.
Qed.

Lemma lower_upper (s : string) : lower (upper s) = lower s.
Proof.
  induction s as [|c s IH]; simpl; [reflexivity|].
  now rewrite lower_upper_ascii, IH.
Qed.

Lemma lower_lower (s : string) : lower (lower s) = lower s.
Proof.
  induction s as [|c s IH]; simpl; [reflexivity|].
  now rewrite lower_lower_ascii, IH.
Qed.

Lemma dict_get_set_same (k : string) (v : pyval) (d : dict) :
  dict_get k (dict_set k v d) = Some v.
Proof.
  induction d as [|[k' v'] d IH]; simpl.
  - now rewrite String.eqb_refl.
  - destruct (String.eqb k k') eqn:E; simpl.
    + now rewrite String.eqb_refl.
    + now rewrite E.
Qed.

Lemma dict_get_set_other (k k' : string) (v : pyval) (d : dict) :
  k' <> k -> dict_get k' (dict_set k v d) = dict_get k' d.
Proof.
  intros Hne. induction d as [|[k0 v0] d IH]; simpl.
  - apply String.eqb_neq in Hne. now rewrite Hne.
  - destruct (String.eqb k k0) eqn:E; simpl.
    + apply String.eqb_eq in E. subst k0.
      apply String.eqb_neq in Hne. now rewrite Hne.
    + destruct (String.eqb k' k0); [reflexivity | exact IH].
Qed.

(** The four string predicates, on a message that has the field: "contains"
    is true exactly when the lower-cased value occurs in the lower-cased
    field, "equals" exactly when the two lower-cased strings are the same,
    and "does_not_contain", "does_not_equal" are their negations; none
    touches the state. *)
Theorem string_predicates_specification
    (f key v : string) (fv : pyval) (email : dict) (s : state) :
  assoc_get f EMAIL_FIELD_MAPPING = Some key ->
  String.eqb f "received_date" = false ->
  dict_get key email = Some fv ->
  exists has same : bool,
    (has = true <->
     exists pre post, lower (py_str fv) = pre ++ lower v ++ post) /\
    (same = true <-> lower v = lower (py_str fv)) /\
    RuleCondition.evaluate (condition f "contains" v) email s
    = (inr has, s) /\
    RuleCondition.evaluate (condition f "does_not_contain" v) email s
    = (inr (negb has), s) /\
    RuleCondition.evaluate (condition f "equals" v) email s
    = (inr same, s) /\
    RuleCondition.evaluate (condition f "does_not_equal" v) email s
    = (inr (negb same), s).
Proof.
  intros Hmap Hdate Hget.
  exists (str_contains (lower v) (lower (py_str fv))),
         (String.eqb (lower v) (lower (py_str fv))).
  split; [apply str_contains_iff|]. split; [apply String.eqb_eq|].
  unfold condition.
  rewrite !evaluate_string_field with (key := key) (fv := fv)
    by assumption.
  repeat split.
Qed.

(** String conditions do not see case: writing the value or the field in
    upper case, or in lower case, changes nothing of the evaluation. *)
Theorem string_condition_ignores_case
    (f key p v fv : string) (email : dict) (s : state) :
  assoc_get f EMAIL_FIELD_MAPPING = Some key ->
  String.eqb f "received_date" = false ->
  dict_get key email = Some (PStr fv) ->
  RuleCondition.evaluate (condition f p (upper v)) email s
  = RuleCondition.evaluate (condition f p v) email s /\
  RuleCondition.evaluate (condition f p (lower v)) email s
  = RuleCondition.evaluate (condition f p v) email s /\
  RuleCondition.evaluate (condition f p v)
    (dict_set key (PStr (upper fv)) email) s
  = RuleCondition.evaluate (condition f p v) email s /\
  RuleCondition.evaluate (condition f p v)
    (dict_set key (PStr (lower fv)) email) s
  = RuleCondition.evaluate (condition f p v) email s.
Proof.
  intros Hmap Hdate Hget. unfold condition.
  rewrite !evaluate_string_field with (key := key) (fv := PStr fv)
    by assumption.
  rewrite evaluate_string_field with (key := key) (fv := PStr (upper fv))
    by (try assumption; apply dict_get_set_same).
  rewrite evaluate_string_field with (key := key) (fv := PStr (lower fv))
    by (try assumption; apply dict_get_set_same).
  unfold RuleCondition._evaluate_string, bind, lift, ret.
  cbn [RuleCondition.predicate RuleCondition.value py_lower py_str].
  rewrite !lower_upper, !lower_lower. repeat split.
Qed.

(** A field the mapping does not know (a string outside it, or a hashable
    value that is no string), and a field the message lacks, give false
    with one error record and nothing else, whatever the predicate and the
    value; a field that is a list or a dict raises TypeError. *)
Theorem unknown_or_missing_field_is_false
    (fld p v : pyval) (email : dict) (s : state) :
  (mapping_get fld = inr None ->
   RuleCondition.evaluate
     {| RuleCondition.field := fld; RuleCondition.predicate := p;
        RuleCondition.value := v |} email s
   = (inr false, log_state ERROR (FieldNotFound fld None) s)) /\
  (forall key : string,
     mapping_get fld = inr (Some key) ->
     dict_get key email = None ->
     RuleCondition.evaluate
       {| RuleCondition.field := fld; RuleCondition.predicate := p;
          RuleCondition.value := v |} email s
     = (inr false, log_state ERROR (FieldNotFound fld (Some key)) s)) /\
  (forall e : exn,
     mapping_get fld = inl e ->
     RuleCondition.evaluate
       {| RuleCondition.field := fld; RuleCondition.predicate := p;
          RuleCondition.value := v |} email s
     = (inl e, s)).
Proof.
  split; [|split].
  - intros H. unfold RuleCondition.evaluate, bind, lift.
    cbn [RuleCondition.field]. rewrite H. reflexivity.
  - intros key H Hget. unfold RuleCondition.evaluate, bind, lift.
    cbn [RuleCondition.field]. rewrite H. unfold dict_mem. rewrite Hget.
    rewrite orb_true_r. reflexivity.
  - intros e H. unfold RuleCondition.evaluate, bind, lift.
    cbn [RuleCondition.field]. rewrite H. reflexivity.
Qed.

(** "from" reads the same entry as "sender" and "to" the same as
    "recipient": on a message that has the entry, the two spellings of a
    condition evaluate alike. *)
Theorem field_aliases_agree (p v fv : pyval) (email : dict) (s : state) :
  (dict_get "sender" email = Some fv ->
   RuleCondition.evaluate
     {| RuleCondition.field := PStr "from"; RuleCondition.predicate := p;
        RuleCondition.value := v |} email s
   = RuleCondition.evaluate
       {| RuleCondition.field := PStr "sender"; RuleCondition.predicate := p;
          RuleCondition.value := v |} email s) /\
  (dict_get "recipient" email = Some fv ->
   RuleCondition.evaluate
     {| RuleCondition.field := PStr "to"; RuleCondition.predicate := p;
        RuleCondition.value := v |} email s
   = RuleCondition.evaluate
       {| RuleCondition.field := PStr "recipient";
          RuleCondition.predicate := p; RuleCondition.value := v |} email s).
Proof.
  split; intros Hget.
  - rewrite evaluate_string_field with (key := "sender") (fv := fv)
      by (try assumption; reflexivity).
    rewrite evaluate_string_field with (key := "sender") (fv := fv)
      by (try assumption; reflexivity).
    reflexivity.
  - rewrite evaluate_string_field with (key := "recipient") (fv := fv)
      by (try assumption; reflexivity).
    rewrite evaluate_string_field with (key := "recipient") (fv := fv)
      by (try assumption; reflexivity).
    reflexivity.
Qed.

(** On a string field, a predicate that is none of the four string
    predicates (a date predicate, say) gives false without looking at the
    value; one of the four with a value that is not a string raises
    AttributeError out of [evaluate]. *)
Theorem string_field_other_predicate_or_value
    (f key : string) (p v fv : pyval) (email : dict) (s : state) :
  assoc_get f EMAIL_FIELD_MAPPING = Some key ->
  String.eqb f "received_date" = false ->
  dict_get key email = Some fv ->
  (py_eq_str p "contains" = false ->
   py_eq_str p "does_not_contain" = false ->
   py_eq_str p "equals" = false ->
   py_eq_str p "does_not_equal" = false ->
   RuleCondition.evaluate
     {| RuleCondition.field := PStr f; RuleCondition.predicate := p;
        RuleCondition.value := v |} email s
   = (inr false, s)) /\
  (py_eq_str p "contains" = true \/ py_eq_str p "does_not_contain" = true \/
   py_eq_str p "equals" = true \/ py_eq_str p "does_not_equal" = true ->
   (forall t : string, v <> PStr t) ->
   RuleCondition.evaluate
     {| RuleCondition.field := PStr f; RuleCondition.predicate := p;
        RuleCondition.value := v |} email s
   = (inl AttributeError, s)).
Proof.
  intros Hmap Hdate Hget.
  rewrite evaluate_string_field with (key := key) (fv := fv) by assumption.
  unfold RuleCondition._evaluate_string.
  cbn [RuleCondition.predicate RuleCondition.value]. split.
  - intros -> -> -> ->. reflexivity.
  - intros Hp Hv.
    assert (Hlow : py_lower v = inl AttributeError).
    { destruct v; try reflexivity. exfalso. eapply Hv. reflexivity. }
    unfold bind, lift. rewrite Hlow.
    destruct (py_eq_str p "contains"); [reflexivity|].
    destruct (py_eq_str p "does_not_contain"); [reflexivity|].
    destruct (py_eq_str p "equals"); [reflexivity|].
    destruct (py_eq_str p "does_not_equal"); [reflexivity|].
    destruct Hp as [H|[H|[H|H]]]; discriminate.
Qed.
End StringConditions.

Lemma string_predicates_specification_witness :
  assoc_get "subject" EMAIL_FIELD_MAPPING = Some "subject" /\
  String.eqb "subject" "received_date" = false /\
  dict_get "subject" (Mock.sample_email 0) = Some (PStr "Test Subject") /\
  exists has same : bool,
    (has = true <->
     exists pre post,
       lower (@py_str Mock.runtime (PStr "Test Subject"))
       = (pre ++ lower "TEST" ++ post)%string) /\
    (same = true <->
     lower "TEST" = lower (@py_str Mock.runtime (PStr "Test Subject"))) /\
    RuleCondition.evaluate (condition "subject" "contains" "TEST")
      (Mock.sample_email 0) Mock.start = (inr has, Mock.start) /\
    RuleCondition.evaluate (condition "subject" "does_not_contain" "TEST")
      (Mock.sample_email 0) Mock.start = (inr (negb has), Mock.start) /\
    RuleCondition.evaluate (condition "subject" "equals" "TEST")
      (Mock.sample_email 0) Mock.start = (inr same, Mock.start) /\
    RuleCondition.evaluate (condition "subject" "does_not_equal" "TEST")
      (Mock.sample_email 0) Mock.start = (inr (negb same), Mock.start).
Proof.
  do 3 (split; [reflexivity|]).
  apply (@string_predicates_specification Mock.runtime "subject" "subject"
           "TEST" (PStr "Test Subject") (Mock.sample_email 0) Mock.start);
    reflexivity.
Defined.

Lemma string_condition_ignores_case_witness :
  assoc_get "from" EMAIL_FIELD_MAPPING = Some "sender" /\
  String.eqb "from" "received_date" = false /\
  dict_get "sender" (Mock.sample_email 0) = Some (PStr "sender@test.com") /\
  RuleCondition.evaluate (condition "from" "equals" (upper "Sender@Test.com"))
    (Mock.sample_email 0) Mock.start
  = RuleCondition.evaluate (condition "from" "equals" "Sender@Test.com")
      (Mock.sample_email 0) Mock.start /\
  RuleCondition.evaluate (condition "from" "equals" (lower "Sender@Test.com"))
    (Mock.sample_email 0) Mock.start
  = RuleCondition.evaluate (condition "from" "equals" "Sender@Test.com")
      (Mock.sample_email 0) Mock.start /\
  RuleCondition.evaluate (condition "from" "equals" "Sender@Test.com")
    (dict_set "sender" (PStr (upper "sender@test.com")) (Mock.sample_email 0))
    Mock.start
  = RuleCondition.evaluate (condition "from" "equals" "Sender@Test.com")
      (Mock.sample_email 0) Mock.start /\
  RuleCondition.evaluate (condition "from" "equals" "Sender@Test.com")
    (dict_set "sender" (PStr (lower "sender@test.com")) (Mock.sample_email 0))
    Mock.start
  = RuleCondition.evaluate (condition "from" "equals" "Sender@Test.com")
      (Mock.sample_email 0) Mock.start.
Proof.
  do 3 (split; [reflexivity|]).
  apply (@string_condition_ignores_case Mock.runtime "from" "sender" "equals"
           "Sender@Test.com" "sender@test.com" (Mock.sample_email 0)
           Mock.start);
    reflexivity.
Defined.

Lemma unknown_or_missing_field_is_false_witness :
  (mapping_get (PStr "cc") = inr None /\
   RuleCondition.evaluate (condition "cc" "contains" "x")
     (Mock.sample_email 0) Mock.start
   = (inr false, log_state ERROR (FieldNotFound (PStr "cc") None) Mock.start))
  /\
  (mapping_get (PStr "to") = inr (Some "recipient") /\
   dict_get "recipient" [("message_id", PStr "m1")] = None /\
   RuleCondition.evaluate (condition "to" "contains" "x")
     [("message_id", PStr "m1")] Mock.start
   = (inr false,
      log_state ERROR (FieldNotFound (PStr "to") (Some "recipient"))
        Mock.start)) /\
  (mapping_get (PList []) = inl TypeError /\
   RuleCondition.evaluate
     {| RuleCondition.field := PList []; RuleCondition.predicate := PStr "x";
        RuleCondition.value := PStr "x" |} (Mock.sample_email 0) Mock.start
   = (inl TypeError, Mock.start)).
Proof.
  split; [|split].
  - split; [reflexivity|].
    exact (proj1 (@unknown_or_missing_field_is_false Mock.runtime (PStr "cc")
                    (PStr "contains") (PStr "x") (Mock.sample_email 0)
                    Mock.start) eq_refl).
  - split; [reflexivity|]. split; [reflexivity|].
    exact (proj1 (proj2 (@unknown_or_missing_field_is_false Mock.runtime
                           (PStr "to") (PStr "contains") (PStr "x")
                           [("message_id", PStr "m1")] Mock.start))
             "recipient" eq_refl eq_refl).
  - split; [reflexivity|].
    exact (proj2 (proj2 (@unknown_or_missing_field_is_false Mock.runtime
                           (PList []) (PStr "x") (PStr "x")
                           (Mock.sample_email 0) Mock.start))
             TypeError eq_refl).
Defined.

Lemma field_aliases_agree_witness :
  dict_get "sender" (Mock.sample_email 0) = Some (PStr "sender@test.com") /\
  dict_get "recipient" (Mock.sample_email 0)
  = Some (PStr "recipient@test.com") /\
  RuleCondition.evaluate (condition "from" "contains" "@test.com")
    (Mock.sample_email 0) Mock.start
  = RuleCondition.evaluate (condition "sender" "contains" "@test.com")
      (Mock.sample_email 0) Mock.start /\
  RuleCondition.evaluate (condition "to" "contains" "@test.com")
    (Mock.sample_email 0) Mock.start
  = RuleCondition.evaluate (condition "recipient" "contains" "@test.com")
      (Mock.sample_email 0) Mock.start.
Proof.
  split; [reflexivity|]. split; [reflexivity|]. split.
  - exact (proj1 (@field_aliases_agree Mock.runtime (PStr "contains")
                    (PStr "@test.com") (PStr "sender@test.com")
                    (Mock.sample_email 0) Mock.start) eq_refl).
  - exact (proj2 (@field_aliases_agree Mock.runtime (PStr "contains")
                    (PStr "@test.com") (PStr "recipient@test.com")
                    (Mock.sample_email 0) Mock.start) eq_refl).
Defined.

Lemma string_field_other_predicate_or_value_witness :
  assoc_get "subject" EMAIL_FIELD_MAPPING = Some "subject" /\
  String.eqb "subject" "received_date" = false /\
  dict_get "subject" (Mock.sample_email 0) = Some (PStr "Test Subject") /\
  RuleCondition.evaluate
    {| RuleCondition.field := PStr "subject";
       RuleCondition.predicate := PStr "less_than";
       RuleCondition.value := PInt 7 |} (Mock.sample_email 0) Mock.start
  = (inr false, Mock.start) /\
  RuleCondition.evaluate
    {| RuleCondition.field := PStr "subject";
       RuleCondition.predicate := PStr "equals";
       RuleCondition.value := PInt 7 |} (Mock.sample_email 0) Mock.start
  = (inl AttributeError, Mock.start).
Proof.
  do 3 (split; [reflexivity|]). split.
  - exact (proj1 (@string_field_other_predicate_or_value Mock.runtime
                    "subject" "subject" (PStr "less_than") (PInt 7)
                    (PStr "Test Subject") (Mock.sample_email 0) Mock.start
                    eq_refl eq_refl eq_refl)
             eq_refl eq_refl eq_refl eq_refl).
  - refine (proj2 (@string_field_other_predicate_or_value Mock.runtime
                     "subject" "subject" (PStr "equals") (PInt 7)
                     (PStr "Test Subject") (Mock.sample_email 0) Mock.start
                     eq_refl eq_refl eq_refl)
              (or_intror (or_intror (or_introl eq_refl))) _).
    intros t H. discriminate H.
Defined.

(** ** Date conditions at the edges *)

Section DateEdges.
Context {RT : Runtime}.

(** How far [_evaluate_date] gets on a datetime and a string value that
    holds "days": the first token is read as the number of days. *)
Lemma evaluate_date_token (p : pyval) (t token : string)
    (rest : list string) (wall : Z) (tz : option Z) (email : dict)
    (s : state) :
  dict_get "received_date" email = Some (PDatetime wall tz) ->
  str_contains "days" t = true ->
  split t = token :: rest ->
  RuleCondition.evaluate
    {| RuleCondition.field := PStr "received_date";
       RuleCondition.predicate := p; RuleCondition.value := PStr t |} email s
  = try_except
      (days <- lift (py_int token) ;;
       delta <- lift (timedelta_days days) ;;
       compare_date <- lift (datetime_sub (fst (datetime_now (world s)))
                                delta) ;;
       if py_eq_str p "less_than" then
         lift (datetime_gt (PDatetime wall None) compare_date)
       else if py_eq_str p "greater_than" then
         lift (datetime_lt (PDatetime wall None) compare_date)
       else ret false)
      RuleCondition.date_errors
      (fun e => log ERROR (ErrorEvaluatingDate e) ;; ret false)
      (after_now s).
Proof.
  intros Hdate Hdays Hsplit.
  rewrite evaluate_date_field with (dt := PDatetime wall tz) by exact Hdate.
  unfold RuleCondition._evaluate_date, try_except.
  cbn [RuleCondition.value RuleCondition.predicate py_tzinfo py_in py_split].
  unfold bind at 1. unfold lift at 1. unfold bind at 1. rewrite now_eq.
  unfold bind at 1. unfold lift at 1. rewrite Hdays.
  unfold bind at 1. unfold lift at 1. rewrite Hsplit.
  unfold bind at 1. unfold lift at 1. cbn [py_first].
  destruct tz; reflexivity.
Qed.

(** A message whose "received_date" is not a datetime fails every date
    condition: the AttributeError is caught and logged, the result is
    false, and the clock is not even read. *)
Theorem date_condition_on_non_datetime
    (p v fv : pyval) (email : dict) (s : state) :
  dict_get "received_date" email = Some fv ->
  (forall wall tz, fv <> PDatetime wall tz) ->
  RuleCondition.evaluate
    {| RuleCondition.field := PStr "received_date";
       RuleCondition.predicate := p; RuleCondition.value := v |} email s
  = (inr false, log_state ERROR (ErrorEvaluatingDate AttributeError) s).
Proof.
  intros Hdate Hfv.
  rewrite evaluate_date_field with (dt := fv) by exact Hdate.
  unfold RuleCondition._evaluate_date, try_except, bind, lift.
  destruct fv; try reflexivity. exfalso. eapply Hfv. reflexivity.
Qed.

(** A value that does not hold "days" gives false silently; a value that
    holds it but does not start with an integer gives false and logs the
    ValueError.  In both cases the clock has been read. *)
Theorem date_condition_bad_value
    (p : pyval) (t : string) (wall : Z) (tz : option Z) (email : dict)
    (s : state) :
  dict_get "received_date" email = Some (PDatetime wall tz) ->
  (str_contains "days" t = false ->
   RuleCondition.evaluate
     {| RuleCondition.field := PStr "received_date";
        RuleCondition.predicate := p; RuleCondition.value := PStr t |}
     email s
   = (inr false, after_now s)) /\
  (forall (token : string) (rest : list string) (e : exn),
     str_contains "days" t = true ->
     split t = token :: rest ->
     py_int token = inl e ->
     RuleCondition.evaluate
       {| RuleCondition.field := PStr "received_date";
          RuleCondition.predicate := p; RuleCondition.value := PStr t |}
       email s
     = (inr false,
        log_state ERROR (ErrorEvaluatingDate ValueError) (after_now s))).
Proof.
  intros Hdate. split.
  - intros Hdays.
    rewrite evaluate_date_field with (dt := PDatetime wall tz)
      by exact Hdate.
    unfold RuleCondition._evaluate_date, try_except.
    cbn [RuleCondition.value py_tzinfo py_in].
    unfold bind at 1. unfold lift at 1. unfold bind at 1. rewrite now_eq.
    unfold bind at 1. unfold lift at 1. rewrite Hdays. reflexivity.
  - intros token rest e Hdays Hsplit Hint.
    rewrite evaluate_date_token with (1 := Hdate) (2 := Hdays) (3 := Hsplit).
    assert (e = ValueError) as ->.
    { unfold py_int in Hint.
      destruct (match lstrip (rstrip token) with
                | String "-" r => (-1, r)
                | String "+" r => (1, r)
                | _ => (1, lstrip (rstrip token))
                end) as [sign body].
      destruct (int_digits 0 false body); congruence. }
    unfold try_except, bind, lift. rewrite Hint. reflexivity.
Qed.

(** The value need only hold "days" and start with an integer: whatever
    follows the first token, and whatever the sign of the integer, the
    threshold is now less that many days, and less_than, greater_than
    compare the wall-clock reading with it. *)
Theorem date_value_reads_first_token
    (t token : string) (rest : list string) (days wall : Z)
    (tz : option Z) (email : dict) (s : state) :
  dict_get "received_date" email = Some (PDatetime wall tz) ->
  str_contains "days" t = true ->
  split t = token :: rest ->
  py_int token = inr days ->
  Z.abs days <= MAX_DELTA_DAYS ->
  valid_datetime (fst (datetime_now (world s)) - days * DAY) ->
  RuleCondition.evaluate (condition "received_date" "less_than" t) email s
  = (inr (fst (datetime_now (world s)) - days * DAY <? wall), after_now s) /\
  RuleCondition.evaluate (condition "received_date" "greater_than" t) email s
  = (inr (wall <? fst (datetime_now (world s)) - days * DAY), after_now s).
Proof.
  intros Hdate Hdays Hsplit Hint Habs Hthr. unfold condition.
  rewrite !evaluate_date_token with (1 := Hdate) (2 := Hdays) (3 := Hsplit).
  assert (Hdelta : timedelta_days days = inr (days * DAY)).
  { unfold timedelta_days.
    destruct (Z.leb_spec (Z.abs days) MAX_DELTA_DAYS); [reflexivity | lia]. }
  assert (Hsub : datetime_sub (fst (datetime_now (world s))) (days * DAY)
                 = inr (fst (datetime_now (world s)) - days * DAY)).
  { unfold datetime_sub. unfold valid_datetime in Hthr.
    destruct (Z.leb_spec 0 (fst (datetime_now (world s)) - days * DAY));
      [|lia].
    destruct (Z.ltb_spec (fst (datetime_now (world s)) - days * DAY)
                (MAX_ORDINAL * DAY)); [reflexivity | lia]. }
  unfold try_except, bind, lift. rewrite Hint, Hdelta, Hsub.
  split; reflexivity.
Qed.

(** The zone of an aware datetime plays no part: a condition evaluates on
    it as on the naive datetime with the same wall-clock reading. *)
Theorem date_condition_ignores_timezone
    (p v : pyval) (wall : Z) (tz : option Z) (email : dict) (s : state) :
  dict_get "received_date" email = Some (PDatetime wall tz) ->
  RuleCondition.evaluate
    {| RuleCondition.field := PStr "received_date";
       RuleCondition.predicate := p; RuleCondition.value := v |} email s
  = RuleCondition.evaluate
      {| RuleCondition.field := PStr "received_date";
         RuleCondition.predicate := p; RuleCondition.value := v |}
      (dict_set "received_date" (PDatetime wall None) email) s.
Proof.
  intros Hdate.
  rewrite evaluate_date_field with (dt := PDatetime wall tz) by exact Hdate.
  rewrite evaluate_date_field with (dt := PDatetime wall None)
    by apply dict_get_set_same.
  unfold RuleCondition._evaluate_date. destruct tz; reflexivity.
Qed.
End DateEdges.

Lemma date_condition_on_non_datetime_witness :
  dict_get "received_date" Sample.undated = Some (PStr "2024-01-01") /\
  (forall wall tz, PStr "2024-01-01" <> PDatetime wall tz) /\
  RuleCondition.evaluate (condition "received_date" "less_than" "7 days")
    Sample.undated Mock.start
  = (inr false,
     log_state ERROR (ErrorEvaluatingDate AttributeError) Mock.start).
Proof.
  assert (H : forall wall tz, PStr "2024-01-01" <> PDatetime wall tz)
    by (intros wall tz E; discriminate E).
  split; [reflexivity|]. split; [exact H|].
  exact (@date_condition_on_non_datetime Mock.runtime (PStr "less_than")
           (PStr "7 days") (PStr "2024-01-01") Sample.undated Mock.start
           eq_refl H).
Defined.

Lemma date_condition_bad_value_witness :
  dict_get "received_date" Sample.zoned
  = Some (PDatetime (738886 * DAY) (Some 330)) /\
  (str_contains "days" "a week" = false /\
   RuleCondition.evaluate (condition "received_date" "less_than" "a week")
     Sample.zoned Mock.start
   = (inr false, after_now Mock.start)) /\
  (str_contains "days" "seven days" = true /\
   split "seven days" = ["seven"; "days"] /\
   py_int "seven" = inl ValueError /\
   RuleCondition.evaluate (condition "received_date" "less_than" "seven days")
     Sample.zoned Mock.start
   = (inr false,
      log_state ERROR (ErrorEvaluatingDate ValueError)
        (after_now Mock.start))).
Proof.
  split; [reflexivity|]. split.
  - split; [reflexivity|].
    exact (proj1 (@date_condition_bad_value Mock.runtime (PStr "less_than")
                    "a week" (738886 * DAY) (Some 330) Sample.zoned
                    Mock.start eq_refl) eq_refl).
  - do 3 (split; [reflexivity|]).
    exact (proj2 (@date_condition_bad_value Mock.runtime (PStr "less_than")
                    "seven days" (738886 * DAY) (Some 330) Sample.zoned
                    Mock.start eq_refl)
             "seven" ["days"] ValueError eq_refl eq_refl eq_refl).
Defined.

Lemma date_value_reads_first_token_witness :
  dict_get "received_date" Sample.zoned
  = Some (PDatetime (738886 * DAY) (Some 330)) /\
  str_contains "days" "-3 days from now" = true /\
  split "-3 days from now" = ["-3"; "days"; "from"; "now"] /\
  py_int "-3" = inr (-3) /\
  Z.abs (-3) <= MAX_DELTA_DAYS /\
  valid_datetime (fst (datetime_now (world Mock.start)) - -3 * DAY) /\
  RuleCondition.evaluate
    (condition "received_date" "less_than" "-3 days from now")
    Sample.zoned Mock.start
  = (inr (fst (datetime_now (world Mock.start)) - -3 * DAY <? 738886 * DAY),
     after_now Mock.start) /\
  RuleCondition.evaluate
    (condition "received_date" "greater_than" "-3 days from now")
    Sample.zoned Mock.start
  = (inr (738886 * DAY <? fst (datetime_now (world Mock.start)) - -3 * DAY),
     after_now Mock.start).
Proof.
  assert (Habs : Z.abs (-3) <= MAX_DELTA_DAYS)
    by (vm_compute; discriminate).
  assert (Hthr : valid_datetime
                   (fst (datetime_now (world Mock.start)) - -3 * DAY))
    by (vm_compute; split; [discriminate | reflexivity]).
  do 4 (split; [reflexivity|]). split; [exact Habs|]. split; [exact Hthr|].
  exact (@date_value_reads_first_token Mock.runtime "-3 days from now" "-3"
           ["days"; "from"; "now"] (-3) (738886 * DAY) (Some 330)
           Sample.zoned Mock.start eq_refl eq_refl eq_refl eq_refl Habs Hthr).
Defined.

Lemma date_condition_ignores_timezone_witness :
  dict_get "received_date" Sample.zoned
  = Some (PDatetime (738886 * DAY) (Some 330)) /\
  RuleCondition.evaluate (condition "received_date" "less_than" "7 days")
    Sample.zoned Mock.start
  = RuleCondition.evaluate (condition "received_date" "less_than" "7 days")
      (dict_set "received_date" (PDatetime (738886 * DAY) None) Sample.zoned)
      Mock.start.
Proof.
  split; [reflexivity|].
  exact (@date_condition_ignores_timezone Mock.runtime (PStr "less_than")
           (PStr "7 days") (738886 * DAY) (Some 330) Sample.zoned Mock.start
           eq_refl).
Defined.

(** ** Rules at the edges *)

Section RuleEdges.
Context {RT : Runtime}.

(** A rule whose predicate is neither "all" nor "any" never matches, yet
    its conditions are all evaluated first: the state it leaves is the one
    their run leaves. *)
Theorem rule_other_predicate_never_matches
    (n p a : pyval) (cs : list RuleCondition.t) (email : dict)
    (results : list bool) (s s' : state) :
  py_eq_str p "all" = false ->
  py_eq_str p "any" = false ->
  conditions_run email cs s results s' ->
  Rule.evaluate {| Rule.name := n; Rule.conditions := cs;
                   Rule.predicate := p; Rule.actions := a |} email s
  = (inr false, s').
Proof.
  intros Hall Hany Hrun. unfold Rule.evaluate.
  cbn [Rule.conditions Rule.predicate].
  destruct cs as [|c cs].
  - inversion Hrun; subst. reflexivity.
  - apply evaluate_conditions_run in Hrun. unfold bind.
    rewrite Hrun, Hall, Hany. reflexivity.
Qed.

Lemma evaluate_conditions_raises (email : dict)
    (pre post : list RuleCondition.t) (c : RuleCondition.t)
    (results : list bool) (e : exn) (s s1 s2 : state) :
  conditions_run email pre s results s1 ->
  RuleCondition.evaluate c email s1 = (inl e, s2) ->
  Rule.evaluate_conditions (pre ++ c :: post) email s = (inl e, s2).
Proof.
  intros Hrun Hc. induction Hrun as [s|c0 cs s s0 s1 b bs Hc0 _ IH]; simpl.
  - unfold bind. rewrite Hc. reflexivity.
  - unfold bind at 1. rewrite Hc0. unfold bind at 1.
    rewrite (IH Hc). reflexivity.
Qed.

(** When a condition raises, the rule raises the same exception, whatever
    its predicate, and the conditions after it are not evaluated. *)
Theorem rule_evaluate_stops_at_raising_condition
    (n p a : pyval) (pre post : list RuleCondition.t) (c : RuleCondition.t)
    (email : dict) (results : list bool) (e : exn) (s s1 s2 : state) :
  conditions_run email pre s results s1 ->
  RuleCondition.evaluate c email s1 = (inl e, s2) ->
  Rule.evaluate {| Rule.name := n; Rule.conditions := pre ++ c :: post;
                   Rule.predicate := p; Rule.actions := a |} email s
  = (inl e, s2).
Proof.
  intros Hrun Hc. unfold Rule.evaluate. cbn [Rule.conditions].
  pose proof (@evaluate_conditions_raises email pre post c results e
                s s1 s2 Hrun Hc) as H.
  destruct (pre ++ c :: post)%list as [|c0 l] eqn:E.
  - destruct pre; discriminate E.
  - unfold bind. rewrite H. reflexivity.
Qed.
End RuleEdges.

(** ** apply_actions at the edges *)

Section ActionEdges.
Context {RT : Runtime}.
Variables (email : dict) (gmail_service : GmailService.t)
          (email_db : EmailDatabase.t).

Lemma apply_actions_stops (n p : pyval) (cs : list RuleCondition.t)
    (pre post : list pyval) (a : pyval) (e : exn) (s s1 s2 : state) :
  for_each pre (Rule.apply_action email gmail_service email_db) s
  = (inr tt, s1) ->
  Rule.apply_action email gmail_service email_db a s1 = (inl e, s2) ->
  Rule.apply_actions
    {| Rule.name := n; Rule.conditions := cs; Rule.predicate := p;
       Rule.actions := PList (pre ++ a :: post) |}
    email gmail_service email_db s
  = (inr false, log_state ERROR (ErrorApplyingActions n e) s2).
Proof.
  intros Hpre Ha. unfold Rule.apply_actions, try_except. simpl.
  unfold bind at 1. unfold lift at 1. unfold bind at 1.
  rewrite for_each_app. unfold bind at 1. rewrite Hpre. simpl.
  unfold bind at 1. rewrite Ha. reflexivity.
Qed.

(** On a message without "message_id", the first action that would reach a
    collaborator (mark_as_read, mark_as_unread, or move_message with a
    label) ends [apply_actions]: it returns false and logs the KeyError,
    and neither the mailbox nor the database has been called for it. *)
Theorem apply_actions_without_message_id
    (n p : pyval) (cs : list RuleCondition.t) (pre post : list pyval)
    (a action_type : pyval) (s s1 : state) :
  dict_get "message_id" email = None ->
  for_each pre (Rule.apply_action email gmail_service email_db) s
  = (inr tt, s1) ->
  py_getitem a "type" = inr action_type ->
  py_eq_str action_type "mark_as_read" = true \/
  py_eq_str action_type "mark_as_unread" = true \/
  (py_eq_str action_type "move_message" = true /\
   py_in "label" a = inr true) ->
  Rule.apply_actions
    {| Rule.name := n; Rule.conditions := cs; Rule.predicate := p;
       Rule.actions := PList (pre ++ a :: post) |}
    email gmail_service email_db s
  = (inr false,
     log_state ERROR (ErrorApplyingActions n (KeyError "message_id")) s1).
Proof.
  intros Hid Hpre Hty Hkind.
  apply apply_actions_stops with (s1 := s1); [exact Hpre|].
  unfold Rule.apply_action, bind, lift, dict_getitem. rewrite Hty, Hid.
  destruct Hkind as [H | [H | [H Hl]]].
  - rewrite H. reflexivity.
  - rewrite H. destruct (py_eq_str action_type "mark_as_read"); reflexivity.
  - rewrite H, Hl.
    destruct (py_eq_str action_type "mark_as_read"); [reflexivity|].
    destruct (py_eq_str action_type "mark_as_unread"); reflexivity.
Qed.

(** Malformed actions make [apply_actions] return false with the error
    logged: actions that cannot be iterated (a number, null) fail before
    anything is done, and an entry that has no "type" (or is no dict) fails
    when the loop reaches it. *)
Theorem apply_actions_malformed
    (n p : pyval) (cs : list RuleCondition.t) (s : state) :
  (forall (acts : pyval) (e : exn),
     py_iter acts = inl e ->
     Rule.apply_actions
       {| Rule.name := n; Rule.conditions := cs; Rule.predicate := p;
          Rule.actions := acts |}
       email gmail_service email_db s
     = (inr false, log_state ERROR (ErrorApplyingActions n e) s)) /\
  (forall (pre post : list pyval) (a : pyval) (e : exn) (s1 : state),
     for_each pre (Rule.apply_action email gmail_service email_db) s
     = (inr tt, s1) ->
     py_getitem a "type" = inl e ->
     Rule.apply_actions
       {| Rule.name := n; Rule.conditions := cs; Rule.predicate := p;
          Rule.actions := PList (pre ++ a :: post) |}
       email gmail_service email_db s
     = (inr false, log_state ERROR (ErrorApplyingActions n e) s1)).
Proof.
  split.
  - intros acts e H. unfold Rule.apply_actions, try_except, bind, lift.
    cbn [Rule.actions Rule.name]. rewrite H. reflexivity.
  - intros pre post a e s1 Hpre Hty.
    apply apply_actions_stops with (s1 := s1); [exact Hpre|].
    unfold Rule.apply_action, bind, lift. rewrite Hty. reflexivity.
Qed.
End ActionEdges.

Lemma rule_other_predicate_never_matches_witness :
  py_eq_str (PStr "every") "all" = false /\
  py_eq_str (PStr "every") "any" = false /\
  conditions_run (Mock.sample_email 0)
    [condition "subject" "contains" "test"] Mock.start [true] Mock.start /\
  Rule.evaluate
    {| Rule.name := PStr "Typo";
       Rule.conditions := [condition "subject" "contains" "test"];
       Rule.predicate := PStr "every";
       Rule.actions := PList [] |} (Mock.sample_email 0) Mock.start
  = (inr false, Mock.start).
Proof.
  assert (Hrun : conditions_run (Mock.sample_email 0)
                   [condition "subject" "contains" "test"] Mock.start [true]
                   Mock.start).
  { eapply conditions_run_cons; [reflexivity | constructor]. }
  do 2 (split; [reflexivity|]). split; [exact Hrun|].
  exact (@rule_other_predicate_never_matches Mock.runtime (PStr "Typo")
           (PStr "every") (PList []) _ _ _ _ _ eq_refl eq_refl Hrun).
Defined.

Lemma rule_evaluate_stops_at_raising_condition_witness :
  conditions_run (Mock.sample_email 0)
    [condition "subject" "contains" "test"] Mock.start [true] Mock.start /\
  RuleCondition.evaluate huge_days (Mock.sample_email 0) Mock.start
  = (inl OverflowError, Mock.start) /\
  Rule.evaluate
    {| Rule.name := PStr "Old mail";
       Rule.conditions :=
         ([condition "subject" "contains" "test"]
          ++ huge_days :: [condition "cc" "contains" "x"])%list;
       Rule.predicate := PStr "any";
       Rule.actions := PList [] |} (Mock.sample_email 0) Mock.start
  = (inl OverflowError, Mock.start).
Proof.
  assert (Hrun : conditions_run (Mock.sample_email 0)
                   [condition "subject" "contains" "test"] Mock.start [true]
                   Mock.start).
  { eapply conditions_run_cons; [reflexivity | constructor]. }
  split; [exact Hrun|]. split; [reflexivity|].
  exact (@rule_evaluate_stops_at_raising_condition Mock.runtime
           (PStr "Old mail") (PStr "any") (PList [])
           [condition "subject" "contains" "test"]
           [condition "cc" "contains" "x"] huge_days (Mock.sample_email 0)
           [true] OverflowError Mock.start Mock.start Mock.start Hrun
           eq_refl).
Defined.

Lemma apply_actions_without_message_id_witness :
  dict_get "message_id" Sample.anonymous = None /\
  for_each [Mock.action "archive"]
    (Rule.apply_action Sample.anonymous (Mock.gmail Mock.never)
       (Mock.db Mock.never)) Mock.start
  = (inr tt, Mock.start) /\
  py_getitem (Mock.action "mark_as_read") "type" = inr (PStr "mark_as_read") /\
  Rule.apply_actions
    (Mock.tidy ([Mock.action "archive"]
                ++ Mock.action "mark_as_read" :: [Mock.move_to "Done"])%list)
    Sample.anonymous (Mock.gmail Mock.never) (Mock.db Mock.never) Mock.start
  = (inr false,
     log_state ERROR
       (ErrorApplyingActions (PStr "Tidy") (KeyError "message_id"))
       Mock.start).
Proof.
  do 3 (split; [reflexivity|]).
  exact (@apply_actions_without_message_id Mock.runtime Sample.anonymous
           (Mock.gmail Mock.never) (Mock.db Mock.never) (PStr "Tidy")
           (PStr "all") [Mock.cond "subject" "contains" "test"]
           [Mock.action "archive"] [Mock.move_to "Done"]
           (Mock.action "mark_as_read") (PStr "mark_as_read") Mock.start
           Mock.start eq_refl eq_refl eq_refl (or_introl eq_refl)).
Defined.

Lemma apply_actions_malformed_witness :
  (py_iter PNone = inl TypeError /\
   Rule.apply_actions
     {| Rule.name := PStr "Tidy"; Rule.conditions := [];
        Rule.predicate := PStr "all"; Rule.actions := PNone |}
     (Mock.sample_email 0) (Mock.gmail Mock.never) (Mock.db Mock.never)
     Mock.start
   = (inr false,
      log_state ERROR (ErrorApplyingActions (PStr "Tidy") TypeError)
        Mock.start)) /\
  (for_each [Mock.action "mark_as_read"]
     (Rule.apply_action (Mock.sample_email 0) (Mock.gmail Mock.never)
        (Mock.db Mock.never)) Mock.start
   = (inr tt, Mock.after_read) /\
   py_getitem (PDict [("label", PStr "Done")]) "type"
   = inl (KeyError "type") /\
   Rule.apply_actions
     {| Rule.name := PStr "Tidy"; Rule.conditions := [];
        Rule.predicate := PStr "all";
        Rule.actions :=
          PList ([Mock.action "mark_as_read"]
                 ++ PDict [("label", PStr "Done")]
                    :: [Mock.action "mark_as_unread"]) |}
     (Mock.sample_email 0) (Mock.gmail Mock.never) (Mock.db Mock.never)
     Mock.start
   = (inr false,
      log_state ERROR (ErrorApplyingActions (PStr "Tidy") (KeyError "type"))
        Mock.after_read)).
Proof.
  split.
  - split; [reflexivity|].
    exact (proj1 (@apply_actions_malformed Mock.runtime (Mock.sample_email 0)
                    (Mock.gmail Mock.never) (Mock.db Mock.never)
                    (PStr "Tidy") (PStr "all") [] Mock.start)
             PNone TypeError eq_refl).
  - do 2 (split; [reflexivity|]).
    exact (proj2 (@apply_actions_malformed Mock.runtime (Mock.sample_email 0)
                    (Mock.gmail Mock.never) (Mock.db Mock.never)
                    (PStr "Tidy") (PStr "all") [] Mock.start)
             [Mock.action "mark_as_read"] [Mock.action "mark_as_unread"]
             (PDict [("label", PStr "Done")]) (KeyError "type")
             Mock.after_read eq_refl eq_refl).
Defined.

(** ** Loading rules that are well formed *)

Section LoadRulesMore.
Context {RT : Runtime}.

Lemma load_condition_json (c : RuleCondition.t) (s : state) :
  RuleProcessor.load_condition (condition_json c) s = (inr c, s).
Proof. destruct c. reflexivity. Qed.

Lemma load_conditions_json (cs : list RuleCondition.t) (s : state) :
  map_py RuleProcessor.load_condition (map condition_json cs) s
  = (inr cs, s).
Proof.
  induction cs as [|c cs IH]; simpl; [reflexivity|].
  unfold bind at 1. rewrite load_condition_json.
  unfold bind at 1. rewrite IH. reflexivity.
Qed.

Lemma load_rule_json (r : Rule.t) (s : state) :
  RuleProcessor.load_rule (rule_json r) s = (inr r, s).
Proof.
  destruct r as [n cs p a]. unfold RuleProcessor.load_rule, rule_json.
  cbn [Rule.name Rule.conditions Rule.predicate Rule.actions].
  unfold bind at 1. unfold lift at 1. cbn [py_getitem].
  cbv [dict_getitem dict_get String.eqb Ascii.eqb Bool.eqb].
  unfold bind at 1. unfold lift at 1. cbn [py_iter].
  unfold bind at 1. rewrite load_conditions_json. reflexivity.
Qed.

(** Every rule set can be written out as a document, and constructing a
    [RuleProcessor] from that document gives back exactly that rule set, in
    its order, logging nothing: loading neither drops, reorders nor
    validates anything. *)
Theorem load_rules_round_trip (rules : list Rule.t) (s : state) :
  RuleProcessor.init (inr (document_of rules)) s
  = (inr {| RuleProcessor.rules := rules |}, s).
Proof.
  unfold RuleProcessor.init, RuleProcessor.load_rules,
    RuleProcessor.load_rules_try, document_of, bind, ret.
  cbn [py_getitem].
  cbv [dict_getitem dict_get String.eqb Ascii.eqb Bool.eqb].
  cbn [py_iter].
  rewrite load_rules_loop_all with (built := rules).
  - reflexivity.
  - induction rules as [|r rules IH]; constructor.
    + rewrite load_rule_json. reflexivity.
    + exact IH.
Qed.

Lemma load_rules_loop_extends (l : list pyval) :
  forall (self_rules : list Rule.t) (s : state),
  exists added,
    snd (fst (RuleProcessor.load_rules_loop l self_rules s))
    = (self_rules ++ added)%list.
Proof.
  induction l as [|d l IH]; intros self_rules s; simpl.
  - exists []. now rewrite List.app_nil_r.
  - destruct (RuleProcessor.load_rule d s) as [[e|r] s1].
    + exists []. now rewrite List.app_nil_r.
    + destruct (IH (self_rules ++ [r])%list s1) as [added H].
      exists (r :: added). rewrite H, <- List.app_assoc. reflexivity.
Qed.

(** [load_rules] only ever appends: whatever the document, the rules the
    processor already had are still there, first and in their order, so
    loading a second time adds to the first load and never replaces it. *)
Theorem load_rules_only_appends
    (self_rules : list Rule.t) (document : res pyval) (s : state) :
  (exists (added : list Rule.t) (s' : state),
     RuleProcessor.load_rules self_rules document s
     = (inr (self_rules ++ added)%list, s')) /\
  (forall rules : list Rule.t,
     document = inr (document_of rules) ->
     RuleProcessor.load_rules self_rules document s
     = (inr (self_rules ++ rules)%list, s)).
Proof.
  split.
  - unfold RuleProcessor.load_rules.
    assert (H : exists added,
               snd (fst (RuleProcessor.load_rules_try document self_rules s))
               = (self_rules ++ added)%list).
    { unfold RuleProcessor.load_rules_try.
      destruct document as [e|v];
        [exists []; now rewrite List.app_nil_r|].
      destruct (py_getitem v "rules") as [e|l];
        [exists []; now rewrite List.app_nil_r|].
      destruct (py_iter l) as [e|items];
        [exists []; now rewrite List.app_nil_r|].
      apply load_rules_loop_extends. }
    destruct H as [added H].
    destruct (RuleProcessor.load_rules_try document self_rules s)
      as [[[e|[]] rs] s']; simpl in H; subst rs; eauto.
  - intros rules ->.
    unfold RuleProcessor.load_rules, RuleProcessor.load_rules_try,
      document_of.
    cbn [py_getitem].
    cbv [dict_getitem dict_get String.eqb Ascii.eqb Bool.eqb].
    cbn [py_iter].
    rewrite load_rules_loop_all with (built := rules).
    + reflexivity.
    + induction rules as [|r rules IH]; constructor.
      * rewrite load_rule_json. reflexivity.
      * exact IH.
Qed.
End LoadRulesMore.

Lemma load_rules_only_appends_witness :
  (inr (document_of [Mock.second]) : res pyval)
  = inr (document_of [Mock.second]) /\
  RuleProcessor.load_rules [Mock.test_rule] (inr (document_of [Mock.second]))
    Mock.start
  = (inr ([Mock.test_rule] ++ [Mock.second])%list, Mock.start).
Proof.
  split; [reflexivity|].
  exact (proj2 (@load_rules_only_appends Mock.runtime [Mock.test_rule]
                  (inr (document_of [Mock.second])) Mock.start)
           [Mock.second] eq_refl).
Defined.

(** ** process_email, rule by rule *)

Section ProcessEmailMore.
Context {RT : Runtime}.
Variables (email : dict) (gmail_service : GmailService.t)
          (email_db : EmailDatabase.t).

Lemma process_rule_outcome (r : Rule.t) (s : state) :
  (exists e s1, Rule.evaluate r email s = (inl e, s1) /\
     RuleProcessor.process_rule email gmail_service email_db r s
     = (inl e, s1)) \/
  (exists s1, Rule.evaluate r email s = (inr false, s1) /\
     RuleProcessor.process_rule email gmail_service email_db r s
     = (inr tt, s1)) \/
  (exists s1 applied s2,
     Rule.evaluate r email s = (inr true, s1) /\
     Rule.apply_actions r email gmail_service email_db s1
     = (inr applied, s2) /\
     RuleProcessor.process_rule email gmail_service email_db r s
     = (inr tt, outcome_logged r applied s2)).
Proof.
  unfold RuleProcessor.process_rule, bind.
  destruct (Rule.evaluate r email s) as [[e|[]] s1].
  - left. exists e, s1. split; reflexivity.
  - right. right.
    destruct (apply_actions_returns email gmail_service email_db r s1)
      as (applied & s2 & Ha).
    exists s1, applied, s2. rewrite Ha.
    repeat split. destruct applied; reflexivity.
  - right. left. exists s1. split; reflexivity.
Qed.

Lemma rules_loop_run (rules : list Rule.t) : forall s s',
  for_each rules (RuleProcessor.process_rule email gmail_service email_db) s
  = (inr tt, s') <->
  rules_run email gmail_service email_db rules s s'.
Proof.
  induction rules as [|r rules IH]; intros s s'.
  - simpl. unfold ret. split.
    + intros H. injection H as <-. constructor.
    + intros H. inversion H; subst. reflexivity.
  - cbn [for_each]. unfold bind at 1.
    destruct (process_rule_outcome r s)
      as [(e & s1 & Hev & Hp)
         | [(s1 & Hev & Hp) | (s1 & ap & s2 & Hev & Ha & Hp)]];
      rewrite Hp.
    + split; [discriminate|]. intros H.
      inversion H
        as [| ? ? ? t1 ? Hev' Hrest | ? ? ? t1 t2 ? ap' Hev' Ha' Hrest];
        subst; rewrite Hev in Hev'; discriminate Hev'.
    + rewrite IH. split.
      * intros H. eapply rules_run_skip; eassumption.
      * intros H.
        inversion H
          as [| ? ? ? t1 ? Hev' Hrest | ? ? ? t1 t2 ? ap' Hev' Ha' Hrest];
          subst; rewrite Hev in Hev'.
        -- injection Hev' as <-. exact Hrest.
        -- discriminate Hev'.
    + rewrite IH. split.
      * intros H. eapply rules_run_fire; eassumption.
      * intros H.
        inversion H
          as [| ? ? ? t1 ? Hev' Hrest | ? ? ? t1 t2 ? ap' Hev' Ha' Hrest];
          subst; rewrite Hev in Hev'.
        -- discriminate Hev'.
        -- injection Hev' as <-. rewrite Ha in Ha'.
           injection Ha' as <- <-. exact Hrest.
Qed.

(** [process_email] returns true exactly when every rule was evaluated
    without raising: rules that do not match are passed over, the actions
    of every rule that matches are tried, and each try is logged as applied
    or failed.  In particular it returns true when no rule matches. *)
Theorem process_email_true_iff_rules_run
    (self : RuleProcessor.t) (s s' : state) :
  RuleProcessor.process_email self email gmail_service email_db s
  = (inr true, s') <->
  rules_run email gmail_service email_db (RuleProcessor.rules self) s s'.
Proof.
  rewrite <- rules_loop_run.
  unfold RuleProcessor.process_email, try_except. unfold bind at 1.
  destruct (for_each (RuleProcessor.rules self)
              (RuleProcessor.process_rule email gmail_service email_db) s)
    as [[e|[]] s1].
  - cbn [any_exception]. unfold bind, lift, log, ret.
    destruct (dict_getitem email "message_id"); split; discriminate.
  - unfold ret. split; intros H; injection H as <-; reflexivity.
Qed.

(** When the evaluation of a rule raises, the rules after it are not
    looked at.  If the message has its identifier, [process_email] logs
    the error with it and returns false; if it has none, the log line
    itself raises and the KeyError leaves [process_email]. *)
Theorem process_email_on_evaluation_error
    (pre rest : list Rule.t) (r : Rule.t) (e : exn) (s s1 s2 : state) :
  rules_run email gmail_service email_db pre s s1 ->
  Rule.evaluate r email s1 = (inl e, s2) ->
  (forall id : pyval,
     dict_get "message_id" email = Some id ->
     RuleProcessor.process_email
       {| RuleProcessor.rules := pre ++ r :: rest |}
       email gmail_service email_db s
     = (inr false, log_state ERROR (ErrorProcessingEmail id e) s2)) /\
  (dict_get "message_id" email = None ->
   RuleProcessor.process_email
     {| RuleProcessor.rules := pre ++ r :: rest |}
     email gmail_service email_db s
   = (inl (KeyError "message_id"), s2)).
Proof.
  intros Hrun Hev. apply rules_loop_run in Hrun.
  assert (Hloop : for_each (pre ++ r :: rest)
                    (RuleProcessor.process_rule email gmail_service email_db)
                    s = (inl e, s2)).
  { rewrite for_each_app. unfold bind at 1. rewrite Hrun.
    cbn [for_each]. unfold bind at 1.
    unfold RuleProcessor.process_rule at 1. unfold bind at 1.
    rewrite Hev. reflexivity. }
  split.
  - intros id Hid. unfold RuleProcessor.process_email, try_except.
    cbn [RuleProcessor.rules]. unfold bind at 1. rewrite Hloop.
    cbn [any_exception]. unfold bind, lift, dict_getitem. rewrite Hid.
    reflexivity.
  - intros Hid. unfold RuleProcessor.process_email, try_except.
    cbn [RuleProcessor.rules]. unfold bind at 1. rewrite Hloop.
    cbn [any_exception]. unfold bind, lift, dict_getitem. rewrite Hid.
    reflexivity.
Qed.
End ProcessEmailMore.

Lemma process_email_on_evaluation_error_witness :
  rules_run (Mock.sample_email 0) (Mock.gmail Mock.never)
    (Mock.db Mock.never) [Mock.test_rule] Mock.start
    (outcome_logged Mock.test_rule true Mock.after_read) /\
  Rule.evaluate huge_days_rule (Mock.sample_email 0)
    (outcome_logged Mock.test_rule true Mock.after_read)
  = (inl OverflowError, outcome_logged Mock.test_rule true Mock.after_read) /\
  dict_get "message_id" (Mock.sample_email 0) = Some (PStr "test123") /\
  RuleProcessor.process_email
    {| RuleProcessor.rules :=
         ([Mock.test_rule] ++ huge_days_rule :: [Mock.second])%list |}
    (Mock.sample_email 0) (Mock.gmail Mock.never) (Mock.db Mock.never)
    Mock.start
  = (inr false,
     log_state ERROR (ErrorProcessingEmail (PStr "test123") OverflowError)
       (outcome_logged Mock.test_rule true Mock.after_read)).
Proof.
  assert (Hrun : rules_run (Mock.sample_email 0) (Mock.gmail Mock.never)
                   (Mock.db Mock.never) [Mock.test_rule] Mock.start
                   (outcome_logged Mock.test_rule true Mock.after_read)).
  { eapply rules_run_fire; [reflexivity | reflexivity | constructor]. }
  split; [exact Hrun|]. do 2 (split; [reflexivity|]).
  exact (proj1 (@process_email_on_evaluation_error Mock.runtime
                  (Mock.sample_email 0) (Mock.gmail Mock.never)
                  (Mock.db Mock.never) [Mock.test_rule] [Mock.second]
                  huge_days_rule OverflowError Mock.start
                  (outcome_logged Mock.test_rule true Mock.after_read)
                  (outcome_logged Mock.test_rule true Mock.after_read)
                  Hrun eq_refl)
           (PStr "test123") eq_refl).
Defined.

(** ** The batch coordinator when things fail *)

Section BatchMore.
Context {RT : Runtime}.
Variables (rule_processor : RuleProcessor.t) (email_service : GmailService.t)
          (email_db : EmailDatabase.t).

Lemma join_labels_state (email : dict) (s : state) :
  snd (join_labels email s) = s.
Proof.
  unfold join_labels, bind, lift, ret.
  destruct (dict_getitem email "labels") as [e|labels]; [reflexivity|].
  destruct (py_join "," labels); reflexivity.
Qed.

Lemma join_labels_eq (email : dict) (r : res dict) (s : state) :
  fst (join_labels email s) = r -> join_labels email s = (r, s).
Proof.
  intros H. pose proof (join_labels_state email s) as Hs.
  destruct (join_labels email s) as [r' s']. simpl in H, Hs. congruence.
Qed.

Lemma map_join_labels_state (batch : list dict) (s : state) :
  snd (map_py join_labels batch s) = s.
Proof.
  induction batch as [|email batch IH]; simpl; [reflexivity|].
  unfold bind at 1. pose proof (join_labels_state email s) as He.
  destruct (join_labels email s) as [[e|x] s1]; simpl in He; subst s1;
    [reflexivity|].
  unfold bind at 1.
  destruct (map_py join_labels batch s) as [[e|xs] s1]; simpl in IH; subst s1;
    reflexivity.
Qed.

(** If one message of the batch cannot have its labels joined, the joining
    of the batch raises. *)
Lemma map_join_labels_fails (batch : list dict) (email : dict) (e : exn)
    (s : state) :
  In email batch ->
  fst (join_labels email s) = inl e ->
  exists e', map_py join_labels batch s = (inl e', s).
Proof.
  intros Hin He. induction batch as [|x batch IH]; [contradiction|].
  simpl. unfold bind at 1. pose proof (join_labels_state x s) as Hx.
  destruct (join_labels x s) as [[ex|x'] s1] eqn:Ex; simpl in Hx; subst s1.
  - eauto.
  - destruct Hin as [-> | Hin].
    + rewrite Ex in He. discriminate He.
    + destruct (IH Hin) as [e' H]. unfold bind at 1. rewrite H. eauto.
Qed.

Lemma all_strs_strings (ls : list string) :
  all_strs (map PStr ls) = inr ls.
Proof.
  induction ls as [|l ls IH]; simpl; [reflexivity | now rewrite IH].
Qed.

(** Joining the labels changes the "labels" entry and nothing else: a list
    of strings becomes the one string of its items with commas between,
    every other entry of the message keeps its value, and a message with
    no "labels" entry raises KeyError. *)
Theorem join_labels_specification (email : dict) (s : state) :
  (dict_get "labels" email = None ->
   join_labels email s = (inl (KeyError "labels"), s)) /\
  (forall ls : list string,
     dict_get "labels" email = Some (PList (map PStr ls)) ->
     join_labels email s
     = (inr (dict_set "labels" (PStr (String.concat "," ls)) email), s) /\
     dict_get "labels"
       (dict_set "labels" (PStr (String.concat "," ls)) email)
     = Some (PStr (String.concat "," ls)) /\
     forall k : string,
       k <> "labels" ->
       dict_get k (dict_set "labels" (PStr (String.concat "," ls)) email)
       = dict_get k email).
Proof.
  split.
  - intros H. unfold join_labels, bind, lift, dict_getitem. rewrite H.
    reflexivity.
  - intros ls H. split; [|split].
    + unfold join_labels, bind, lift, ret, dict_getitem, py_join.
      rewrite H. cbn [py_iter]. rewrite all_strs_strings. reflexivity.
    + apply dict_get_set_same.
    + intros k Hk. apply dict_get_set_other. exact Hk.
Qed.

(** Whatever happens inside, a turn of the batch loop returns. *)
Lemma process_batch_returns (batch : list dict) (total_processed : nat)
    (s : state) :
  exists (total : nat) (s' : state),
    process_batch rule_processor email_service email_db batch
      total_processed s = (inr total, s').
Proof.
  unfold process_batch. unfold bind at 1. unfold log at 1.
  unfold bind at 1. unfold try_except at 1.
  match goal with |- context [match ?m ?st with _ => _ end] =>
    destruct (m st) as [[e|collected] s1] end.
  - cbn [any_exception]. unfold bind at 1. unfold log at 1.
    unfold ret at 1. unfold ret. eauto.
  - destruct collected as [ids|]; [|unfold ret; eauto].
    unfold bind at 1. unfold try_except.
    destruct (mark_batch email_db ids total_processed s1) as [[e|[]] s2];
      cbn [any_exception]; unfold log, ret; eauto.
Qed.

Lemma process_batches_returns (batches : list (list dict)) :
  forall (total_processed : nat) (s : state),
  exists s' : state,
    process_batches rule_processor email_service email_db batches
      total_processed s = (inr tt, s').
Proof.
  induction batches as [|batch batches IH]; intros total s; simpl.
  - unfold ret. eauto.
  - unfold bind at 1.
    destruct (process_batch_returns batch total s) as (n & s1 & H).
    rewrite H. apply IH.
Qed.

(** On a generator that only hands over the batches of a list, the loop
    is the loop over that list. *)
Lemma process_generator_from_list (batches : list (list dict)) :
  forall (total_processed : nat) (s : state),
    process_generator rule_processor email_service email_db
      (from_list batches) total_processed s
    = process_batches rule_processor email_service email_db batches
        total_processed s.
Proof.
  induction batches as [|batch batches IH]; intros total s.
  - reflexivity.
  - cbn [from_list process_generator process_batches].
    unfold bind at 1. unfold ret at 1. unfold bind.
    destruct (process_batch rule_processor email_service email_db batch
                total s) as [[e|total'] s1]; [reflexivity|].
    apply IH.
Qed.

(** The loop over a generator ends when the generator returns or raises,
    and in no other way. *)
Lemma process_generator_run :
  forall (batches : generator) (total_processed : nat) (s : state),
  exists (ending : option exn) (s1 : state),
    generator_run rule_processor email_service email_db batches
      total_processed s ending s1 /\
    process_generator rule_processor email_service email_db batches
      total_processed s
    = (match ending with Some e => inl e | None => inr tt end, s1).
Proof.
  fix IH 1. intros [resume] total s.
  cbn [process_generator]. unfold bind at 1.
  destruct (resume s) as [[e|[[batch rest]|]] s1] eqn:E.
  - exists (Some e), s1. split; [|reflexivity].
    apply generator_raises. exact E.
  - destruct (process_batch_returns batch total s1) as (total' & s2 & H).
    destruct (IH rest total' s2) as (ending & s3 & Hrun & Hloop).
    exists ending, s3. split.
    + eapply generator_yields; [exact E|exact H|exact Hrun].
    + unfold bind at 1. rewrite H. exact Hloop.
  - exists None, s1. split; [|reflexivity].
    apply generator_returns. exact E.
Qed.

(** A run ends with the closing of the database, whatever happened
    before.  No failure inside a batch leaves [process_emails]: the loop
    ends only when the generator returns or raises.  When it returns, the
    outcome of the run is that of the closing.  When it raises, the error
    is logged, the database is closed, and the error is raised again
    (or the error of the closing, should that fail too). *)
Theorem process_emails_always_closes (batches : generator) (s : state) :
  exists (ending : option exn) (s1 : state),
    generator_run rule_processor email_service email_db batches 0%nat s
      ending s1 /\
    process_emails rule_processor email_service email_db batches s
    = match ending with
      | None => EmailDatabase.close email_db s1
      | Some e =>
          match
            EmailDatabase.close email_db
              (log_state ERROR (ErrorOccurred e) s1)
          with
          | (inr _, s2) => (inl e, s2)
          | (inl e', s2) => (inl e', s2)
          end
      end.
Proof.
  destruct (process_generator_run batches 0%nat s)
    as (ending & s1 & Hrun & Hloop).
  exists ending, s1. split; [exact Hrun|].
  unfold process_emails, try_finally, try_except. rewrite Hloop.
  destruct ending as [e|].
  - cbn [any_exception]. unfold bind at 1. unfold log at 1.
    unfold raise at 1.
    destruct (EmailDatabase.close email_db
                (log_state ERROR (ErrorOccurred e) s1)) as [[e'|[]] s2];
      reflexivity.
  - destruct (EmailDatabase.close email_db s1) as [[e|[]] s2]; reflexivity.
Qed.


(** A batch in which some message has no "labels" entry is dropped before
    anything is done with it: nothing reaches the store, the mailbox or the
    rules, only the announcement and the error are logged. *)
Theorem batch_without_labels_is_dropped
    (batch : list dict) (email : dict) (total_processed : nat) (s : state) :
  In email batch ->
  dict_get "labels" email = None ->
  exists e : exn,
    process_batch rule_processor email_service email_db batch
      total_processed s
    = (inr total_processed,
       log_state ERROR (ErrorProcessingBatch e)
         (log_state INFO (ProcessingBatch (List.length batch)) s)).
Proof.
  intros Hin Hlabels.
  destruct (@map_join_labels_fails batch email (KeyError "labels")
              (log_state INFO (ProcessingBatch (List.length batch)) s) Hin)
    as [e He].
  { unfold join_labels, bind, lift, dict_getitem. rewrite Hlabels.
    reflexivity. }
  exists e. unfold process_batch. unfold bind at 1. unfold log at 1.
  unfold bind at 1. unfold try_except at 1.
  unfold bind at 1. rewrite He. reflexivity.
Qed.
End BatchMore.

Lemma join_labels_specification_witness :
  (dict_get "labels" Sample.anonymous = None /\
   join_labels Sample.anonymous Mock.start
   = (inl (KeyError "labels"), Mock.start)) /\
  (dict_get "labels" (Mock.message "m1" "Test one")
   = Some (PList (map PStr ["INBOX"; "UNREAD"])) /\
   join_labels (Mock.message "m1" "Test one") Mock.start
   = (inr (dict_set "labels" (PStr (String.concat "," ["INBOX"; "UNREAD"]))
             (Mock.message "m1" "Test one")), Mock.start) /\
   dict_get "labels"
     (dict_set "labels" (PStr (String.concat "," ["INBOX"; "UNREAD"]))
        (Mock.message "m1" "Test one"))
   = Some (PStr (String.concat "," ["INBOX"; "UNREAD"])) /\
   forall k : string,
     k <> "labels" ->
     dict_get k
       (dict_set "labels" (PStr (String.concat "," ["INBOX"; "UNREAD"]))
          (Mock.message "m1" "Test one"))
     = dict_get k (Mock.message "m1" "Test one")).
Proof.
  split.
  - split; [reflexivity|].
    exact (proj1 (@join_labels_specification Mock.runtime Sample.anonymous
                    Mock.start) eq_refl).
  - split; [reflexivity|].
    exact (proj2 (@join_labels_specification Mock.runtime
                    (Mock.message "m1" "Test one") Mock.start)
             ["INBOX"; "UNREAD"] eq_refl).
Defined.


Lemma batch_without_labels_is_dropped_witness :
  In Sample.anonymous [Mock.message "m1" "Test one"; Sample.anonymous] /\
  dict_get "labels" Sample.anonymous = None /\
  exists e : exn,
    process_batch {| RuleProcessor.rules := [Mock.test_rule] |}
      (Mock.gmail Mock.never) (Mock.db Mock.never)
      [Mock.message "m1" "Test one"; Sample.anonymous] 0 Mock.start
    = (inr 0%nat,
       log_state ERROR (ErrorProcessingBatch e)
         (log_state INFO
            (ProcessingBatch
               (List.length [Mock.message "m1" "Test one"; Sample.anonymous]))
            Mock.start)).
Proof.
  assert (Hin : In Sample.anonymous
                  [Mock.message "m1" "Test one"; Sample.anonymous])
    by (right; left; reflexivity).
  split; [exact Hin|]. split; [reflexivity|].
  exact (@batch_without_labels_is_dropped Mock.runtime
           {| RuleProcessor.rules := [Mock.test_rule] |}
           (Mock.gmail Mock.never) (Mock.db Mock.never)
           [Mock.message "m1" "Test one"; Sample.anonymous] Sample.anonymous
           0%nat Mock.start Hin eq_refl).
Defined.

(** * The mailbox service *)

Section ServiceProperties.
Variable Api : Type.
Variable api_now : Api -> Z * Api.
Variable repr : pyval -> string.
Variable parsedate_to_datetime : pyval -> res pyval.
Variable b64decode_utf8 : pyval -> res string.
Variable cl : client Api.

(** The request body of [mark_as_read]. *)
Lemma mark_as_read_refused (id : pyval) (read : bool) (a : Api)
    (s : service_state api_now repr) :
  messages_modify cl id
    (if read then PDict [("removeLabelIds", PList [PStr "UNREAD"])]
     else PDict [("addLabelIds", PList [PStr "UNREAD"])])
    (api (world s))
  = (inl HttpError, a) ->
  mark_as_read (Some cl) id read s
  = (inr false,
     service_logged ERROR (ErrorMarking id read HttpError) (with_api a s)).
Proof.
  intros H. unfold mark_as_read, try_except, the_client.
  unfold bind at 1. unfold ret at 1. unfold bind at 1. unfold call at 1.
  rewrite H. reflexivity.
Qed.

(** When Google refuses a read/unread change with an HttpError, the service
    swallows it: [apply_actions] is not told, goes on to the database with
    the same change, and returns true if the database accepts it.  The
    store then says what the mailbox does not. *)
Theorem http_error_leaves_database_updated
    (email_db : @EmailDatabase.t (service_runtime api_now repr))
    (n p id : pyval) (cs : list RuleCondition.t) (email : dict)
    (read : bool) (a : Api) (s : service_state api_now repr) :
  dict_get "message_id" email = Some id ->
  messages_modify cl id
    (if read then PDict [("removeLabelIds", PList [PStr "UNREAD"])]
     else PDict [("addLabelIds", PList [PStr "UNREAD"])])
    (api (world s))
  = (inl HttpError, a) ->
  Rule.apply_actions
    {| Rule.name := n; Rule.conditions := cs; Rule.predicate := p;
       Rule.actions :=
         PList [PDict [("type",
                        PStr (if read then "mark_as_read"
                              else "mark_as_unread"))]] |}
    email (as_collaborator api_now repr (Some cl)) email_db s
  = match
      EmailDatabase.mark_as_read email_db id read
        (service_logged ERROR (ErrorMarking id read HttpError)
           (with_api a s))
    with
    | (inr _, s') => (inr true, s')
    | (inl e, s') =>
        (inr false, log_state ERROR (ErrorApplyingActions n e) s')
    end.
Proof.
  intros Hid Hmod.
  pose proof (mark_as_read_refused id read s Hmod) as Hm.
  unfold Rule.apply_actions, try_except.
  cbn [Rule.actions Rule.name py_iter].
  unfold bind at 1. unfold lift at 1. unfold bind at 1.
  cbn [for_each]. unfold bind at 1.
  unfold Rule.apply_action, dict_getitem. rewrite Hid.
  destruct read.
  - cbn -[mark_as_read]. unfold bind, lift, ret.
    cbn [as_collaborator GmailService.mark_as_read].
    unfold bind. rewrite Hm. unfold ret.
    destruct (EmailDatabase.mark_as_read email_db id true _)
      as [[e|[]] s']; reflexivity.
  - cbn -[mark_as_read]. unfold bind, lift, ret.
    cbn [as_collaborator GmailService.mark_as_read].
    unfold bind. rewrite Hm. unfold ret.
    destruct (EmailDatabase.mark_as_read email_db id false _)
      as [[e|[]] s']; reflexivity.
Qed.

Lemma find_label_lower (cache : list pyval) (a b : string) :
  lower a = lower b ->
  find_label cache (PStr a) = find_label cache (PStr b).
Proof.
  intros H. induction cache as [|label cache IH]; simpl; [reflexivity|].
  destruct (py_getitem label "name") as [e|name]; [reflexivity|].
  destruct (py_lower name) as [e|lowered]; [reflexivity|].
  rewrite H, IH. reflexivity.
Qed.

Lemma find_label_app_miss (c1 c2 : list pyval) (label_name : pyval) :
  find_label c1 label_name = inr None ->
  find_label (c1 ++ c2) label_name = find_label c2 label_name.
Proof.
  induction c1 as [|label c1 IH]; simpl; [reflexivity|].
  destruct (py_getitem label "name") as [e|name]; [discriminate|].
  destruct (py_lower name) as [e|lowered]; [discriminate|].
  destruct (py_lower label_name) as [e|wanted]; [discriminate|].
  destruct (String.eqb lowered wanted).
  - destruct (py_getitem label "id"); discriminate.
  - exact IH.
Qed.

Lemma find_label_here (l : dict) (post : list pyval) (name n : string)
    (id : pyval) :
  dict_get "name" l = Some (PStr n) ->
  lower n = lower name ->
  dict_get "id" l = Some id ->
  find_label (PDict l :: post) (PStr name) = inr (Some id).
Proof.
  intros Hn Hl Hid. cbn [find_label py_getitem py_lower].
  unfold dict_getitem. rewrite Hn. cbn [py_lower].
  rewrite Hl, String.eqb_refl, Hid. reflexivity.
Qed.

Lemma label_from_cache
    (self_client : option (client Api)) (pre post : list pyval) (l : dict)
    (name n : string) (id : pyval) (s : service_state api_now repr) :
  labels (world s) = (pre ++ PDict l :: post)%list ->
  find_label pre (PStr name) = inr None ->
  dict_get "name" l = Some (PStr n) ->
  lower n = lower name ->
  dict_get "id" l = Some id ->
  _get_or_create_label self_client (PStr name) s = (inr id, s).
Proof.
  intros Hcache Hpre Hn Hl Hid.
  unfold _get_or_create_label, try_except.
  unfold bind at 1. unfold get_labels at 1. unfold bind at 1.
  unfold lift at 1. rewrite Hcache.
  rewrite find_label_app_miss by exact Hpre.
  rewrite find_label_here with (n := n) (id := id) by assumption.
  reflexivity.
Qed.

(** A label that is in the cache under the same name up to case is
    answered from the cache: the first such label gives its id, no request
    is made (a client is not even needed) and nothing changes. *)
Theorem cached_label_needs_no_request
    (self_client : option (client Api)) (pre post : list pyval) (l : dict)
    (name n : string) (id : pyval) (s : service_state api_now repr) :
  labels (world s) = (pre ++ PDict l :: post)%list ->
  find_label pre (PStr name) = inr None ->
  dict_get "name" l = Some (PStr n) ->
  lower n = lower name ->
  dict_get "id" l = Some id ->
  _get_or_create_label self_client (PStr name) s = (inr id, s).
Proof.
  intros Hcache Hpre Hn Hl Hid.
  apply label_from_cache with (pre := pre) (post := post) (l := l) (n := n);
    assumption.
Qed.

(** A label that is not in the cache is created, and is in the cache from
    then on: when Google answers with a label of the same name up to case,
    the call returns its id, and every later call for that name, however
    it is cased, returns the same id without a request. *)
Theorem created_label_is_found_again
    (l : dict) (name n : string) (id : pyval) (a : Api)
    (s : service_state api_now repr) :
  find_label (labels (world s)) (PStr name) = inr None ->
  labels_create cl (label_body (PStr name)) (api (world s))
  = (inr (PDict l), a) ->
  dict_get "name" l = Some (PStr n) ->
  lower n = lower name ->
  dict_get "id" l = Some id ->
  _get_or_create_label (Some cl) (PStr name) s
  = (inr id, with_labels (labels (world s) ++ [PDict l]) (with_api a s)) /\
  forall (name2 : string) (self_client : option (client Api)),
    lower name2 = lower name ->
    _get_or_create_label self_client (PStr name2)
      (with_labels (labels (world s) ++ [PDict l]) (with_api a s))
    = (inr id, with_labels (labels (world s) ++ [PDict l]) (with_api a s)).
Proof.
  intros Hmiss Hcreate Hn Hl Hid. split.
  - unfold _get_or_create_label, try_except.
    unfold bind at 1. unfold get_labels at 1. unfold bind at 1.
    unfold lift at 1. rewrite Hmiss.
    unfold the_client. unfold bind at 1. unfold ret at 1.
    unfold bind at 1. unfold call at 1. rewrite Hcreate.
    unfold bind, get_labels, set_labels, lift. cbn [py_getitem].
    unfold dict_getitem. rewrite Hid. reflexivity.
  - intros name2 self_client H2.
    apply label_from_cache
      with (pre := labels (world s)) (post := []) (l := l) (n := n).
    + reflexivity.
    + rewrite find_label_lower with (b := name) by exact H2. exact Hmiss.
    + exact Hn.
    + congruence.
    + exact Hid.
Qed.

(** When Google refuses to create the label of a move, the service gives
    up the move without touching the message, and [apply_actions] still
    writes the label into the database. *)
Theorem refused_label_still_reaches_database
    (email_db : @EmailDatabase.t (service_runtime api_now repr))
    (n p id : pyval) (cs : list RuleCondition.t) (email : dict)
    (label : string) (a : Api) (s : service_state api_now repr) :
  dict_get "message_id" email = Some id ->
  find_label (labels (world s)) (PStr label) = inr None ->
  labels_create cl (label_body (PStr label)) (api (world s))
  = (inl HttpError, a) ->
  move_message (Some cl) id (PStr label) s
  = (inr false,
     service_logged ERROR (ErrorLabel (PStr label) HttpError)
       (with_api a s)) /\
  Rule.apply_actions
    {| Rule.name := n; Rule.conditions := cs; Rule.predicate := p;
       Rule.actions :=
         PList [PDict [("type", PStr "move_message");
                       ("label", PStr label)]] |}
    email (as_collaborator api_now repr (Some cl)) email_db s
  = match
      EmailDatabase.update_labels email_db id (PStr label)
        (service_logged ERROR (ErrorLabel (PStr label) HttpError)
           (with_api a s))
    with
    | (inr _, s') => (inr true, s')
    | (inl e, s') =>
        (inr false, log_state ERROR (ErrorApplyingActions n e) s')
    end.
Proof.
  intros Hid Hmiss Hcreate.
  assert (Hlabel : _get_or_create_label (Some cl) (PStr label) s
                   = (inr PNone,
                      service_logged ERROR (ErrorLabel (PStr label) HttpError)
                        (with_api a s))).
  { unfold _get_or_create_label, try_except.
    unfold bind at 1. unfold get_labels at 1. unfold bind at 1.
    unfold lift at 1. rewrite Hmiss.
    unfold the_client. unfold bind at 1. unfold ret at 1.
    unfold bind at 1. unfold call at 1. rewrite Hcreate. reflexivity. }
  assert (Hmove : move_message (Some cl) id (PStr label) s
                  = (inr false,
                     service_logged ERROR (ErrorLabel (PStr label) HttpError)
                       (with_api a s))).
  { unfold move_message, try_except. unfold bind at 1. rewrite Hlabel.
    reflexivity. }
  split; [exact Hmove|].
  unfold Rule.apply_actions, try_except.
  cbn [Rule.actions Rule.name py_iter].
  unfold bind at 1. unfold lift at 1. unfold bind at 1.
  cbn [for_each]. unfold bind at 1.
  unfold Rule.apply_action, dict_getitem. rewrite Hid.
  cbn -[move_message]. unfold bind, lift, ret.
  cbn [as_collaborator GmailService.move_message].
  unfold bind. rewrite Hmove. unfold ret.
  destruct (EmailDatabase.update_labels email_db id (PStr label) _)
    as [[e|[]] s']; reflexivity.
Qed.

(** One step of a computation that returned, read backwards. *)
Ltac bind_inv H :=
  unfold bind at 1 in H;
  match type of H with
  | context [match ?m ?st with _ => _ end] =>
      let e := fresh "e" in
      let x := fresh "x" in
      let s := fresh "s" in
      let E := fresh "E" in
      destruct (m st) as [[e|x] s] eqn:E; [discriminate H|]
  end.

(** What [_get_email_data] returns when it returns a message. *)
Lemma get_email_data_shape (self_client : option (client Api))
    (id : pyval) (email : dict) (s s' : service_state api_now repr) :
  _get_email_data parsedate_to_datetime b64decode_utf8 self_client id s
  = (inr (Some email), s') ->
  exists (sender recipient subject label_ids received_date : pyval)
         (body : string) (unread : bool),
    email = [ ("message_id", id); ("sender", sender);
              ("recipient", recipient); ("subject", subject);
              ("body", PStr body); ("labels", label_ids);
              ("received_date", received_date);
              ("is_read", PBool (negb unread)) ] /\
    py_in "UNREAD" label_ids = inr unread.
Proof.
  intros H. unfold _get_email_data, try_except in H.
  match type of H with
  | context [match ?m s with _ => _ end] =>
      destruct (m s) as [[e|r] s1] eqn:Eb
  end.
  - destruct (is_http_error e); [|discriminate H].
    unfold bind, service_log, ret in H. discriminate H.
  - injection H as -> <-.
    do 10 bind_inv Eb. bind_inv Eb. bind_inv Eb.
    unfold ret in Eb. injection Eb as <- <-.
    unfold lift in *.
    repeat match goal with
           | E : (_, _) = (inr _, _) |- _ => injection E as ? ?
           end.
    subst. eexists _, _, _, _, _, _, _. split; [reflexivity|].
    congruence.
Qed.

(** A message the service hands over has the seven entries the database
    stores, its identifier being the one that was asked for; so
    [process_email] never raises on it, whatever the rules and the
    collaborators. *)
Theorem mailbox_messages_are_processable
    (self_client : option (client Api)) (id : pyval) (email : dict)
    (s s' : service_state api_now repr) :
  _get_email_data parsedate_to_datetime b64decode_utf8 self_client id s
  = (inr (Some email), s') ->
  dict_get "message_id" email = Some id /\
  (forall k : string,
     In k ["sender"; "recipient"; "subject"; "body"; "labels";
           "received_date"] ->
     dict_mem k email = true) /\
  (forall (RT : Runtime) (self : RuleProcessor.t)
          (gmail_service : GmailService.t) (email_db : EmailDatabase.t)
          (s2 : state),
     exists (b : bool) (s3 : state),
       RuleProcessor.process_email self email gmail_service email_db s2
       = (inr b, s3)).
Proof.
  intros H.
  destruct (get_email_data_shape _ _ _ H)
    as (sender & recipient & subject & label_ids & received_date & body
        & unread & -> & _).
  split; [reflexivity|]. split.
  - intros k Hk. simpl in Hk.
    repeat (destruct Hk as [<- | Hk]; [reflexivity|]). contradiction.
  - intros RT self gmail_service email_db s2.
    apply process_email_returns with (id := id). reflexivity.
Qed.

Lemma fetch_page_invariant (self_client : option (client Api))
    (max_results : option Z) (messages : list pyval) :
  forall (n : Z) (batch batch' : list dict) (n' : Z)
         (s s' : service_state api_now repr),
    fetch_page parsedate_to_datetime b64decode_utf8 self_client messages
      max_results n batch s
    = (inr (batch', n'), s') ->
    Z.of_nat (List.length batch') - Z.of_nat (List.length batch) = n' - n /\
    n <= n' /\
    (forall m, max_results = Some m -> 0 < m -> n <= m -> n' <= m) /\
    (Forall has_message_id batch -> Forall has_message_id batch').
Proof.
  induction messages as [|message rest IH];
    intros n batch batch' n' s s' H; cbn [fetch_page] in H.
  - unfold ret in H. injection H as <- <- <-.
    repeat split; try lia; auto.
  - destruct (limit_reached max_results n) eqn:Elim.
    + unfold ret in H. injection H as <- <- <-.
      repeat split; try lia; auto.
    + bind_inv H. bind_inv H. destruct x0 as [email|].
      * apply IH in H. destruct H as (Hlen & Hle & Hmax & Hids).
        rewrite List.length_app in Hlen. cbn [List.length] in Hlen.
        repeat split; try lia.
        -- intros m Hm Hpos Hn. apply (Hmax m Hm Hpos).
           unfold limit_reached in Elim. rewrite Hm in Elim.
           destruct (Z.eqb_spec m 0); [lia|]. cbn [negb andb] in Elim.
           apply Z.leb_gt in Elim. lia.
        -- intros Hb. apply Hids. apply Forall_app. split; [exact Hb|].
           constructor; [|constructor].
           destruct (get_email_data_shape _ _ _ E0)
             as (? & ? & ? & ? & ? & ? & ? & -> & _).
           reflexivity.
      * apply IH in H. exact H.
Qed.

Lemma yield_if_any_some (batch b : list dict) :
  yield_if_any batch = Some b -> b = batch /\ batch <> [].
Proof.
  destruct batch; simpl; [discriminate|].
  intros H. injection H as <-. split; [reflexivity | discriminate].
Qed.

Lemma yield_if_any_none (batch : list dict) :
  yield_if_any batch = None -> batch = [].
Proof. destruct batch; simpl; [reflexivity | discriminate]. Qed.

Ltac bind_as H x s E :=
  unfold bind at 1 in H;
  match type of H with
  | context [match ?m ?st with _ => _ end] =>
      let e := fresh "e" in
      destruct (m st) as [[e|x] s] eqn:E; [discriminate H|]
  end.

Lemma fetch_page_at_limit (self_client : option (client Api))
    (max_results : option Z) (messages : list pyval) (n : Z)
    (batch : list dict) (s : service_state api_now repr) :
  limit_reached max_results n = true ->
  fetch_page parsedate_to_datetime b64decode_utf8 self_client messages
    max_results n batch s
  = (inr (batch, n), s).
Proof.
  intros H. destruct messages; cbn [fetch_page]; [reflexivity|].
  rewrite H. reflexivity.
Qed.

Lemma limit_reached_negative (m n : Z) :
  m < 0 -> 0 <= n -> limit_reached (Some m) n = true.
Proof.
  intros Hm Hn. unfold limit_reached.
  destruct (Z.eqb_spec m 0); [lia|].
  destruct (Z.leb_spec m n); [reflexivity | lia].
Qed.

Lemma limit_not_reached (m n : Z) :
  0 < m -> limit_reached (Some m) n = false -> n < m.
Proof.
  intros Hm H. unfold limit_reached in H.
  destruct (Z.eqb_spec m 0); [lia|].
  destruct (Z.leb_spec m n); [discriminate H | lia].
Qed.

(** What a turn of the loop keeps true. *)
Lemma turn_invariant (c : client Api) (q : query)
    (page_token : option pyval) (max_results : option Z) (n : Z) (t : turn)
    (s s' : service_state api_now repr) :
  get_emails_turn parsedate_to_datetime b64decode_utf8 c q page_token
    max_results n s = (inr t, s') ->
  Z.of_nat (List.length (match yielded t with Some b => b | None => [] end))
  = processed t - n /\
  yielded t <> Some [] /\
  (forall b, yielded t = Some b -> Forall has_message_id b) /\
  (forall m, max_results = Some m -> 0 < m -> n <= m -> processed t <= m) /\
  (forall m, max_results = Some m -> m < 0 -> 0 <= n ->
             yielded t = None /\ next_page t = None).
Proof.
  intros H. unfold get_emails_turn in H.
  bind_as H messages s1 E1. bind_as H has s2 E2.
  destruct has; cbn [negb] in H.
  - bind_as H message_list s3 E3. bind_as H items s4 E4.
    bind_as H fetched s5 E5. destruct fetched as [batch n'].
    assert (Hneg : forall m, max_results = Some m -> m < 0 -> 0 <= n ->
                             batch = [] /\ n' = n).
    { intros m Hm Hlt Hn. subst max_results.
      rewrite fetch_page_at_limit in E5
        by (apply limit_reached_negative; assumption).
      injection E5 as <- <- _. split; reflexivity. }
    apply fetch_page_invariant in E5.
    destruct E5 as (Hlen & Hle & Hmax & Hids). cbn [List.length] in Hlen.
    assert (Hcore :
              Z.of_nat (List.length (match yield_if_any batch with
                                     | Some b => b | None => [] end))
              = n' - n /\
              yield_if_any batch <> Some [] /\
              (forall b, yield_if_any batch = Some b ->
                         Forall has_message_id b)).
    { destruct (yield_if_any batch) as [b|] eqn:Ey.
      - apply yield_if_any_some in Ey. destruct Ey as [-> Hne].
        split; [lia|]. split.
        + intros E. injection E as E. contradiction.
        + intros b E. injection E as <-. apply Hids. constructor.
      - apply yield_if_any_none in Ey. subst batch.
        cbn [List.length] in *. split; [lia|]. split; [discriminate|].
        intros b E. discriminate E. }
    destruct Hcore as (Hc1 & Hc2 & Hc3).
    destruct (limit_reached max_results n') eqn:Elim.
    + unfold ret in H. injection H as <- <-.
      cbn [yielded processed next_page].
      split; [exact Hc1|]. split; [exact Hc2|]. split; [exact Hc3|].
      split; [exact Hmax|].
      intros m Hm Hlt Hn. destruct (Hneg m Hm Hlt Hn) as [-> _].
      split; reflexivity.
    + bind_as H token s6 E6. unfold ret in H. injection H as <- <-.
      cbn [yielded processed next_page].
      split; [exact Hc1|]. split; [exact Hc2|]. split; [exact Hc3|].
      split; [exact Hmax|].
      intros m Hm Hlt Hn. exfalso. subst max_results.
      rewrite limit_reached_negative in Elim by lia. discriminate Elim.
  - unfold bind, service_log, ret in H. injection H as <- <-.
    cbn [yielded processed next_page List.length].
    split; [lia|]. split; [discriminate|].
    split; [intros b E; discriminate E|].
    split; [intros; lia|]. intros; split; reflexivity.
Qed.

Lemma pages_invariant (c : client Api) (q : query)
    (max_results : option Z) (pages : nat) :
  forall (page_token : option pyval) (n : Z) (batches : list (list dict))
         (s s' : service_state api_now repr),
    get_emails_pages parsedate_to_datetime b64decode_utf8 pages c q
      page_token max_results n s = (inr batches, s') ->
    Forall (fun b => b <> []) batches /\
    Forall (Forall has_message_id) batches /\
    (forall m, max_results = Some m -> 0 < m -> n <= m ->
               n + Z.of_nat (List.length (concat batches)) <= m) /\
    (forall m, max_results = Some m -> m < 0 -> 0 <= n -> batches = []).
Proof.
  induction pages as [|pages IH];
    intros page_token n batches s s' H; cbn [get_emails_pages] in H.
  - unfold ret in H. injection H as <- <-. cbn.
    repeat split; try constructor; intros; lia.
  - unfold bind at 1 in H. unfold try_except at 1 in H.
    destruct (get_emails_turn parsedate_to_datetime b64decode_utf8 c q
                page_token max_results n s) as [[e|t] s1] eqn:Et.
    + destruct (is_http_error e); [|discriminate H].
      unfold bind, service_log, ret in H. cbn in H.
      injection H as <- <-. cbn.
      repeat split; try constructor; intros; lia.
    + apply turn_invariant in Et.
      destruct Et as (Hlen & Hne & Hids & Hmax & Hneg).
      assert (Hhead :
                Forall (fun b => b <> [])
                  (match yielded t with Some b => [b] | None => [] end) /\
                Forall (Forall has_message_id)
                  (match yielded t with Some b => [b] | None => [] end)).
      { destruct (yielded t) as [b|].
        - split; constructor; try constructor.
          + intros ->. apply Hne. reflexivity.
          + apply Hids. reflexivity.
        - split; constructor. }
      destruct Hhead as [Hh1 Hh2].
      assert (Hcount :
                Z.of_nat (List.length
                            (concat (match yielded t with
                                     | Some b => [b] | None => [] end)))
                = processed t - n).
      { destruct (yielded t) as [b|]; cbn [concat];
          [rewrite List.app_nil_r|]; exact Hlen. }
      destruct (next_page t) as [token|] eqn:Enext.
      * bind_as H more s2 E2. unfold ret in H. injection H as <- <-.
        apply IH in E2. destruct E2 as (Ha & Hb & Hc & Hd).
        split; [apply Forall_app; split; assumption|].
        split; [apply Forall_app; split; assumption|].
        split.
        -- intros m Hm Hpos Hn.
           rewrite concat_app, List.length_app, Nat2Z.inj_add, Hcount.
           specialize (Hc m Hm Hpos (Hmax m Hm Hpos Hn)). lia.
        -- intros m Hm Hlt Hn. destruct (Hneg m Hm Hlt Hn) as [_ Hnone].
           congruence.
      * unfold ret in H. injection H as <- <-.
        split; [exact Hh1|]. split; [exact Hh2|]. split.
        -- intros m Hm Hpos Hn. rewrite Hcount.
           specialize (Hmax m Hm Hpos Hn). lia.
        -- intros m Hm Hlt Hn. destruct (Hneg m Hm Hlt Hn) as [Hy _].
           rewrite Hy. reflexivity.
Qed.

(** Whatever Google answers and however many pages are read, the batches
    [get_emails_batch] yields are never empty, every message in them
    carries its identifier, and with a limit of at least one the messages
    of all batches together do not exceed it; a negative limit yields
    nothing at all. *)
Theorem batches_respect_the_limit
    (self_client : option (client Api)) (pages : nat)
    (max_results days : option Z) (only_unread : bool)
    (batches : list (list dict)) (s s' : service_state api_now repr) :
  get_emails_batch parsedate_to_datetime b64decode_utf8 pages self_client
    max_results days only_unread s = (inr batches, s') ->
  Forall (fun b => b <> []) batches /\
  Forall (Forall has_message_id) batches /\
  (forall m, max_results = Some m -> 0 < m ->
             Z.of_nat (List.length (concat batches)) <= m) /\
  (forall m, max_results = Some m -> m < 0 -> batches = []).
Proof.
  intros H. unfold get_emails_batch in H.
  assert (Hnil : Forall (fun b : list dict => b <> []) [] /\
                 Forall (Forall has_message_id) [] /\
                 (forall m, max_results = Some m -> 0 < m ->
                            Z.of_nat (List.length (@concat dict [])) <= m) /\
                 (forall m, max_results = Some m -> m < 0 ->
                            @nil (list dict) = [])).
  { repeat split; try constructor. intros. cbn. lia. }
  destruct self_client as [c|].
  - bind_as H q s1 E1. destruct q as [q|].
    + apply pages_invariant in H. destruct H as (Ha & Hb & Hc & Hd).
      split; [exact Ha|]. split; [exact Hb|]. split.
      * intros m Hm Hpos. specialize (Hc m Hm Hpos). lia.
      * intros m Hm Hlt. apply (Hd m Hm Hlt). lia.
    + unfold ret in H. injection H as <- <-. exact Hnil.
  - unfold bind, service_log, ret in H. injection H as <- <-. exact Hnil.
Qed.

Lemma first_plain_part_passes (skipped rest : list pyval)
    (s : service_state api_now repr) :
  Forall passed_over skipped ->
  first_plain_part b64decode_utf8 (skipped ++ rest) s
  = first_plain_part b64decode_utf8 rest s.
Proof.
  induction 1 as [|part skipped Hpart _ IH]; [reflexivity|].
  destruct Hpart as (p & mime & -> & Hmime & Hwhy).
  cbn [app first_plain_part]. unfold bind at 1. unfold lift at 1.
  cbn [py_getitem]. unfold dict_getitem. rewrite Hmime.
  destruct Hwhy as [Hother | (b & Hbody & Hdata)].
  - rewrite Hother. exact IH.
  - destruct (py_eq_str mime "text/plain"); [|exact IH].
    unfold bind at 1. unfold lift at 1. rewrite Hbody.
    unfold bind at 1. unfold lift at 1. cbn [py_in]. unfold dict_mem.
    rewrite Hdata. exact IH.
Qed.

Lemma email_body_without_top_data (payload : dict)
    (s : service_state api_now repr) :
  lacks_data payload ->
  _get_email_body b64decode_utf8 (PDict payload) s
  = (has_parts <- lift (py_in "parts" (PDict payload)) ;;
     found <- (if has_parts : bool then
                 parts <- lift (py_getitem (PDict payload) "parts") ;;
                 part_list <- lift (py_iter parts) ;;
                 first_plain_part b64decode_utf8 part_list
               else ret None) ;;
     match found with
     | Some text => ret text
     | None => ret ""
     end) s.
Proof.
  intros H. unfold _get_email_body.
  unfold bind at 1. unfold lift at 1. cbn [py_in]. unfold dict_mem.
  destruct H as [Hnone | (b & Hbody & Hdata)].
  - rewrite Hnone. unfold bind at 1. unfold ret at 1. reflexivity.
  - rewrite Hbody. unfold bind at 1. unfold bind at 1. unfold lift at 1.
    cbn [py_getitem]. unfold dict_getitem. rewrite Hbody.
    unfold bind at 1. unfold lift at 1. cbn [py_get].
    destruct (dict_get "data" b) as [v|].
    + unfold ret at 1. rewrite Hdata. reflexivity.
    + unfold ret at 1. reflexivity.
Qed.

(** Which text [_get_email_body] takes for the body.  Data of the payload
    itself win over everything else.  Without them, the first text/plain
    part that has data is taken, the parts before it being passed over
    whatever they hold (an HTML part, a nested multipart); and when there
    is no such part, or no parts at all, the body is the empty string. *)
Theorem email_body_selection (payload : dict)
    (s : service_state api_now repr) :
  (forall (b : dict) (data : pyval),
     dict_get "body" payload = Some (PDict b) ->
     dict_get "data" b = Some data ->
     py_truthy data = true ->
     _get_email_body b64decode_utf8 (PDict payload) s
     = (b64decode_utf8 data, s)) /\
  (lacks_data payload ->
   (dict_get "parts" payload = None ->
    _get_email_body b64decode_utf8 (PDict payload) s = (inr "", s)) /\
   (forall parts : list pyval,
      dict_get "parts" payload = Some (PList parts) ->
      Forall passed_over parts ->
      _get_email_body b64decode_utf8 (PDict payload) s = (inr "", s)) /\
   (forall (skipped rest : list pyval) (part b : dict) (data : pyval)
           (text : string),
      dict_get "parts" payload
      = Some (PList (skipped ++ PDict part :: rest)) ->
      Forall passed_over skipped ->
      dict_get "mimeType" part = Some (PStr "text/plain") ->
      dict_get "body" part = Some (PDict b) ->
      dict_get "data" b = Some data ->
      b64decode_utf8 data = inr text ->
      _get_email_body b64decode_utf8 (PDict payload) s = (inr text, s))).
Proof.
  split.
  - intros b data Hbody Hdata Htruthy. unfold _get_email_body.
    unfold bind at 1. unfold lift at 1. cbn [py_in]. unfold dict_mem.
    rewrite Hbody. unfold bind at 1. unfold bind at 1. unfold lift at 1.
    cbn [py_getitem]. unfold dict_getitem. rewrite Hbody.
    unfold bind at 1. unfold lift at 1. cbn [py_get]. rewrite Hdata.
    unfold ret at 1. rewrite Htruthy.
    unfold bind at 1. unfold lift at 1.
    unfold bind at 1. unfold lift at 1. cbn [py_getitem].
    unfold dict_getitem. rewrite Hdata. reflexivity.
  - intros Hlacks. rewrite (email_body_without_top_data s Hlacks).
    split; [|split].
    + intros Hparts. unfold bind, lift, ret. cbn [py_in].
      unfold dict_mem. rewrite Hparts. reflexivity.
    + intros parts Hparts Hall.
      unfold bind at 1. unfold lift at 1. cbn [py_in]. unfold dict_mem.
      rewrite Hparts. unfold bind at 1. unfold bind at 1.
      unfold lift at 1. cbn [py_getitem]. unfold dict_getitem.
      rewrite Hparts. unfold bind at 1. unfold lift at 1. cbn [py_iter].
      rewrite <- (List.app_nil_r parts).
      rewrite (first_plain_part_passes [] s Hall). reflexivity.
    + intros skipped rest part b data text Hparts Hall Hmime Hbody Hdata
        Htext.
      unfold bind at 1. unfold lift at 1. cbn [py_in]. unfold dict_mem.
      rewrite Hparts. unfold bind at 1. unfold bind at 1.
      unfold lift at 1. cbn [py_getitem]. unfold dict_getitem.
      rewrite Hparts. unfold bind at 1. unfold lift at 1. cbn [py_iter].
      rewrite (first_plain_part_passes (PDict part :: rest) s Hall).
      cbn [first_plain_part]. unfold bind, lift, ret. cbn [py_getitem].
      unfold dict_getitem. rewrite Hmime. cbn [py_eq_str].
      rewrite String.eqb_refl, Hbody. cbn [py_in py_getitem].
      unfold dict_mem, dict_getitem. rewrite Hdata, Htext. reflexivity.
Qed.
Lemma header_dict_lookup (hs : list (string * pyval)) :
  forall d0 : dict,
  exists hd : dict,
    header_dict (map header_entry hs) d0 = inr hd /\
    forall k : string,
      dict_get k hd
      = match last_value k hs with
        | Some v => Some v
        | None => dict_get k d0
        end.
Proof.
  induction hs as [|[name v] hs IH]; intros d0.
  - exists d0. split; [reflexivity|]. intros k. reflexivity.
  - destruct (IH (dict_set (lower name) v d0)) as (hd & Hhd & Hget).
    exists hd. split.
    + cbn [map header_dict header_entry fst snd py_getitem].
      cbv [dict_getitem dict_get String.eqb Ascii.eqb Bool.eqb].
      cbn [py_lower]. exact Hhd.
    + intros k. rewrite Hget. cbn [last_value].
      destruct (last_value k hs); [reflexivity|].
      destruct (String.eqb (lower name) k) eqn:E.
      * apply String.eqb_eq in E. subst k. apply dict_get_set_same.
      * apply dict_get_set_other. apply String.eqb_neq in E. congruence.
Qed.

(** The headers are looked up by their lower-cased name, and of several
    headers with the same name up to case the last one counts: "FROM",
    "From" and "from" all fill the sender, the latest of them winning. *)
Theorem headers_ignore_case_last_wins (hs : list (string * pyval)) :
  exists hd : dict,
    header_dict (map header_entry hs) [] = inr hd /\
    forall k : string, dict_get k hd = last_value k hs.
Proof.
  destruct (header_dict_lookup hs []) as (hd & Hhd & Hget).
  exists hd. split; [exact Hhd|]. intros k. rewrite Hget.
  destruct (last_value k hs); reflexivity.
Qed.

(** A message without a Date header stops the fetch: the date parser
    raises on the empty string, the error is no HttpError, and so it
    leaves [_get_email_data] instead of being logged. *)
Theorem undated_message_raises
    (id : pyval) (message payload header_data : dict)
    (headers : list pyval) (body : string) (e : exn) (a : Api)
    (s : service_state api_now repr) :
  messages_get cl id (api (world s)) = (inr (PDict message), a) ->
  dict_get "payload" message = Some (PDict payload) ->
  dict_get "headers" payload = Some (PList headers) ->
  header_dict headers [] = inr header_data ->
  dict_get "date" header_data = None ->
  _get_email_body b64decode_utf8 (PDict payload) (with_api a s)
  = (inr body, with_api a s) ->
  parsedate_to_datetime (PStr "") = inl e ->
  is_http_error e = false ->
  _get_email_data parsedate_to_datetime b64decode_utf8 (Some cl) id s
  = (inl e, with_api a s).
Proof.
  intros Hget Hpayload Hheaders Hdict Hdate Hbody Hparse Hhttp.
  unfold _get_email_data, try_except, the_client.
  unfold bind at 1. unfold ret at 1. unfold bind at 1. unfold call at 1.
  rewrite Hget. unfold bind at 1. unfold lift at 1.
  cbn [py_getitem]. unfold dict_getitem. rewrite Hpayload.
  unfold bind at 1. unfold lift at 1.
  cbn [py_getitem]. unfold dict_getitem. rewrite Hheaders.
  unfold bind at 1. unfold lift at 1. cbn [py_iter].
  unfold bind at 1. unfold lift at 1. rewrite Hdict.
  unfold bind at 1. unfold lift at 1.
  unfold bind at 1. rewrite Hbody.
  unfold bind at 1. unfold lift at 1. unfold header_get. rewrite Hdate.
  rewrite Hparse, Hhttp. reflexivity.
Qed.
End ServiceProperties.

Lemma http_error_leaves_database_updated_witness :
  dict_get "message_id" (Google.mail "msg1") = Some (PStr "msg1") /\
  messages_modify
    (Google.double Google.messages_response Google.message_data
       Google.refuses Google.accepts)
    (PStr "msg1") (PDict [("removeLabelIds", PList [PStr "UNREAD"])])
    (api (world (Google.st [] [] [])))
  = (inl HttpError,
     [Google.ModifyMessage (PStr "msg1")
        (PDict [("removeLabelIds", PList [PStr "UNREAD"])])]) /\
  Rule.apply_actions
    {| Rule.name := PStr "Tidy"; Rule.conditions := [];
       Rule.predicate := PStr "all";
       Rule.actions := PList [PDict [("type", PStr "mark_as_read")]] |}
    (Google.mail "msg1")
    (as_collaborator Google.clock Google.repr
       (Some (Google.double Google.messages_response Google.message_data
                Google.refuses Google.accepts)))
    Google.quiet_db (Google.st [] [] [])
  = match
      EmailDatabase.mark_as_read Google.quiet_db (PStr "msg1") true
        (service_logged ERROR (ErrorMarking (PStr "msg1") true HttpError)
           (with_api
              [Google.ModifyMessage (PStr "msg1")
                 (PDict [("removeLabelIds", PList [PStr "UNREAD"])])]
              (Google.st [] [] [])))
    with
    | (inr _, s') => (inr true, s')
    | (inl e, s') =>
        (inr false,
         log_state ERROR (ErrorApplyingActions (PStr "Tidy") e) s')
    end.
Proof.
  do 2 (split; [reflexivity|]).
  exact (@http_error_leaves_database_updated Google.side Google.clock
           Google.repr
           (Google.double Google.messages_response Google.message_data
              Google.refuses Google.accepts)
           Google.quiet_db (PStr "Tidy") (PStr "all") (PStr "msg1") []
           (Google.mail "msg1") true
           [Google.ModifyMessage (PStr "msg1")
              (PDict [("removeLabelIds", PList [PStr "UNREAD"])])]
           (Google.st [] [] []) eq_refl eq_refl).
Defined.

Lemma cached_label_needs_no_request_witness :
  labels (world (Google.st [] [PDict (Google.label "Label_123" "TestLabel")]
                   []))
  = ([] ++ PDict (Google.label "Label_123" "TestLabel") :: [])%list /\
  find_label [] (PStr "testlabel") = inr None /\
  dict_get "name" (Google.label "Label_123" "TestLabel")
  = Some (PStr "TestLabel") /\
  lower "TestLabel" = lower "testlabel" /\
  dict_get "id" (Google.label "Label_123" "TestLabel")
  = Some (PStr "Label_123") /\
  _get_or_create_label None (PStr "testlabel")
    (Google.st [] [PDict (Google.label "Label_123" "TestLabel")] [])
  = (inr (PStr "Label_123"),
     Google.st [] [PDict (Google.label "Label_123" "TestLabel")] []).
Proof.
  do 5 (split; [reflexivity|]).
  exact (@cached_label_needs_no_request Google.side Google.clock Google.repr
           None [] [] (Google.label "Label_123" "TestLabel") "testlabel"
           "TestLabel" (PStr "Label_123")
           (Google.st [] [PDict (Google.label "Label_123" "TestLabel")] [])
           eq_refl eq_refl eq_refl eq_refl eq_refl).
Defined.

Lemma created_label_is_found_again_witness :
  find_label (labels (world (Google.st [] [] []))) (PStr "newlabel")
  = inr None /\
  labels_create
    (Google.double Google.messages_response Google.message_data
       Google.accepts Google.new_label)
    (label_body (PStr "newlabel")) (api (world (Google.st [] [] [])))
  = (inr (PDict (Google.label "Label_New" "NewLabel")),
     [Google.CreateLabel (label_body (PStr "newlabel"))]) /\
  dict_get "name" (Google.label "Label_New" "NewLabel")
  = Some (PStr "NewLabel") /\
  lower "NewLabel" = lower "newlabel" /\
  dict_get "id" (Google.label "Label_New" "NewLabel")
  = Some (PStr "Label_New") /\
  _get_or_create_label
    (Some (Google.double Google.messages_response Google.message_data
             Google.accepts Google.new_label))
    (PStr "newlabel") (Google.st [] [] [])
  = (inr (PStr "Label_New"),
     with_labels
       (labels (world (Google.st [] [] []))
        ++ [PDict (Google.label "Label_New" "NewLabel")])
       (with_api [Google.CreateLabel (label_body (PStr "newlabel"))]
          (Google.st [] [] []))) /\
  forall (name2 : string) (self_client : option (client Google.side)),
    lower name2 = lower "newlabel" ->
    _get_or_create_label self_client (PStr name2)
      (with_labels
         (labels (world (Google.st [] [] []))
          ++ [PDict (Google.label "Label_New" "NewLabel")])
         (with_api [Google.CreateLabel (label_body (PStr "newlabel"))]
            (Google.st [] [] [])))
    = (inr (PStr "Label_New"),
       with_labels
         (labels (world (Google.st [] [] []))
          ++ [PDict (Google.label "Label_New" "NewLabel")])
         (with_api [Google.CreateLabel (label_body (PStr "newlabel"))]
            (Google.st [] [] []))).
Proof.
  do 5 (split; [reflexivity|]).
  exact (@created_label_is_found_again Google.side Google.clock Google.repr
           (Google.double Google.messages_response Google.message_data
              Google.accepts Google.new_label)
           (Google.label "Label_New" "NewLabel") "newlabel" "NewLabel"
           (PStr "Label_New")
           [Google.CreateLabel (label_body (PStr "newlabel"))]
           (Google.st [] [] []) eq_refl eq_refl eq_refl eq_refl eq_refl).
Defined.

Lemma refused_label_still_reaches_database_witness :
  dict_get "message_id" (Google.mail "msg1") = Some (PStr "msg1") /\
  find_label (labels (world (Google.st [] [] []))) (PStr "Done") = inr None /\
  labels_create
    (Google.double Google.messages_response Google.message_data
       Google.accepts Google.refuses)
    (label_body (PStr "Done")) (api (world (Google.st [] [] [])))
  = (inl HttpError, [Google.CreateLabel (label_body (PStr "Done"))]) /\
  move_message
    (Some (Google.double Google.messages_response Google.message_data
             Google.accepts Google.refuses))
    (PStr "msg1") (PStr "Done") (Google.st [] [] [])
  = (inr false,
     service_logged ERROR (ErrorLabel (PStr "Done") HttpError)
       (with_api [Google.CreateLabel (label_body (PStr "Done"))]
          (Google.st [] [] []))) /\
  Rule.apply_actions
    {| Rule.name := PStr "Tidy"; Rule.conditions := [];
       Rule.predicate := PStr "all";
       Rule.actions :=
         PList [PDict [("type", PStr "move_message");
                       ("label", PStr "Done")]] |}
    (Google.mail "msg1")
    (as_collaborator Google.clock Google.repr
       (Some (Google.double Google.messages_response Google.message_data
                Google.accepts Google.refuses)))
    Google.quiet_db (Google.st [] [] [])
  = match
      EmailDatabase.update_labels Google.quiet_db (PStr "msg1") (PStr "Done")
        (service_logged ERROR (ErrorLabel (PStr "Done") HttpError)
           (with_api [Google.CreateLabel (label_body (PStr "Done"))]
              (Google.st [] [] [])))
    with
    | (inr _, s') => (inr true, s')
    | (inl e, s') =>
        (inr false,
         log_state ERROR (ErrorApplyingActions (PStr "Tidy") e) s')
    end.
Proof.
  do 3 (split; [reflexivity|]).
  exact (@refused_label_still_reaches_database Google.side Google.clock
           Google.repr
           (Google.double Google.messages_response Google.message_data
              Google.accepts Google.refuses)
           Google.quiet_db (PStr "Tidy") (PStr "all") (PStr "msg1") []
           (Google.mail "msg1") "Done"
           [Google.CreateLabel (label_body (PStr "Done"))]
           (Google.st [] [] []) eq_refl eq_refl eq_refl).
Defined.

Lemma mailbox_messages_are_processable_witness :
  _get_email_data Google.parsedate Google.decode (Some Google.test_client)
    (PStr "msg2") (Google.st [] [] [])
  = (inr (Some (Google.mail "msg2")),
     Google.st [Google.GetMessage (PStr "msg2")] [] []) /\
  dict_get "message_id" (Google.mail "msg2") = Some (PStr "msg2") /\
  (forall k : string,
     In k ["sender"; "recipient"; "subject"; "body"; "labels";
           "received_date"] ->
     dict_mem k (Google.mail "msg2") = true) /\
  (forall (RT : Runtime) (self : RuleProcessor.t)
          (gmail_service : GmailService.t) (email_db : EmailDatabase.t)
          (s2 : state),
     exists (b : bool) (s3 : state),
       RuleProcessor.process_email self (Google.mail "msg2") gmail_service
         email_db s2
       = (inr b, s3)).
Proof.
  split; [reflexivity|].
  exact (@mailbox_messages_are_processable Google.side Google.clock
           Google.repr Google.parsedate Google.decode
           (Some Google.test_client) (PStr "msg2") (Google.mail "msg2")
           (Google.st [] [] [])
           (Google.st [Google.GetMessage (PStr "msg2")] [] []) eq_refl).
Defined.

Lemma batches_respect_the_limit_witness :
  get_emails_batch Google.parsedate Google.decode 5
    (Some Google.test_client) (Some 2) None false (Google.st [] [] [])
  = (inr [[Google.mail "msg1"; Google.mail "msg2"]],
     Google.st
       [Google.ListMessages {| after := None; is_unread := false |} None;
        Google.GetMessage (PStr "msg1"); Google.GetMessage (PStr "msg2")]
       [] []) /\
  Forall (fun b => b <> []) [[Google.mail "msg1"; Google.mail "msg2"]] /\
  Forall (Forall has_message_id)
    [[Google.mail "msg1"; Google.mail "msg2"]] /\
  (forall m, Some 2 = Some m -> 0 < m ->
             Z.of_nat (List.length
                         (concat [[Google.mail "msg1"; Google.mail "msg2"]]))
             <= m) /\
  (forall m, Some 2 = Some m -> m < 0 ->
             [[Google.mail "msg1"; Google.mail "msg2"]] = []).
Proof.
  split; [reflexivity|].
  exact (@batches_respect_the_limit Google.side Google.clock Google.repr
           Google.parsedate Google.decode (Some Google.test_client) 5
           (Some 2) None false [[Google.mail "msg1"; Google.mail "msg2"]]
           (Google.st [] [] [])
           (Google.st
              [Google.ListMessages {| after := None; is_unread := false |}
                 None;
               Google.GetMessage (PStr "msg1");
               Google.GetMessage (PStr "msg2")] [] [])
           eq_refl).
Defined.

Lemma email_body_selection_witness :
  (dict_get "body" [("body", PDict [("data", PStr "Test Body")])]
   = Some (PDict [("data", PStr "Test Body")]) /\
   dict_get "data" [("data", PStr "Test Body")] = Some (PStr "Test Body") /\
   py_truthy (PStr "Test Body") = true /\
   _get_email_body Google.decode
     (PDict [("body", PDict [("data", PStr "Test Body")])])
     (Google.st [] [] [])
   = (Google.decode (PStr "Test Body"), Google.st [] [] [])) /\
  (lacks_data Google.multipart /\
   dict_get "parts" Google.multipart
   = Some (PList ([PDict Google.html_part]
                  ++ PDict Google.text_part :: [])) /\
   Forall passed_over [PDict Google.html_part] /\
   dict_get "mimeType" Google.text_part = Some (PStr "text/plain") /\
   dict_get "body" Google.text_part = Some (PDict [("data", PStr "Hi")]) /\
   dict_get "data" [("data", PStr "Hi")] = Some (PStr "Hi") /\
   Google.decode (PStr "Hi") = inr "Hi" /\
   _get_email_body Google.decode (PDict Google.multipart)
     (Google.st [] [] [])
   = (inr "Hi", Google.st [] [] [])).
Proof.
  assert (Hlacks : lacks_data Google.multipart).
  { right. exists [("size", PInt 0)]. split; [reflexivity | exact I]. }
  assert (Hover : Forall passed_over [PDict Google.html_part]).
  { constructor; [|constructor].
    exists Google.html_part, (PStr "text/html").
    split; [reflexivity|]. split; [reflexivity|]. left. reflexivity. }
  split.
  - do 3 (split; [reflexivity|]).
    exact (proj1 (@email_body_selection Google.side Google.clock Google.repr
                    Google.decode
                    [("body", PDict [("data", PStr "Test Body")])]
                    (Google.st [] [] []))
             [("data", PStr "Test Body")] (PStr "Test Body")
             eq_refl eq_refl eq_refl).
  - split; [exact Hlacks|]. split; [reflexivity|]. split; [exact Hover|].
    do 4 (split; [reflexivity|]).
    exact (proj2 (proj2 (proj2 (@email_body_selection Google.side
                                  Google.clock Google.repr Google.decode
                                  Google.multipart (Google.st [] [] []))
                           Hlacks))
             [PDict Google.html_part] [] Google.text_part
             [("data", PStr "Hi")] (PStr "Hi") "Hi"
             eq_refl Hover eq_refl eq_refl eq_refl eq_refl).
Defined.

Lemma undated_message_raises_witness :
  messages_get
    (Google.double Google.messages_response
       (fun _ => inr (PDict [("payload", PDict [("headers", PList [])])]))
       Google.accepts Google.accepts)
    (PStr "msg1") (api (world (Google.st [] [] [])))
  = (inr (PDict [("payload", PDict [("headers", PList [])])]),
     [Google.GetMessage (PStr "msg1")]) /\
  dict_get "payload" [("payload", PDict [("headers", PList [])])]
  = Some (PDict [("headers", PList [])]) /\
  dict_get "headers" [("headers", PList [])] = Some (PList []) /\
  header_dict [] [] = inr [] /\
  dict_get "date" [] = None /\
  _get_email_body Google.decode (PDict [("headers", PList [])])
    (with_api [Google.GetMessage (PStr "msg1")] (Google.st [] [] []))
  = (inr "",
     with_api [Google.GetMessage (PStr "msg1")] (Google.st [] [] [])) /\
  Google.parsedate (PStr "") = inl ValueError /\
  is_http_error ValueError = false /\
  _get_email_data Google.parsedate Google.decode
    (Some (Google.double Google.messages_response
             (fun _ => inr (PDict [("payload",
                                    PDict [("headers", PList [])])]))
             Google.accepts Google.accepts))
    (PStr "msg1") (Google.st [] [] [])
  = (inl ValueError,
     with_api [Google.GetMessage (PStr "msg1")] (Google.st [] [] [])).
Proof.
  do 8 (split; [reflexivity|]).
  exact (@undated_message_raises Google.side Google.clock Google.repr
           Google.parsedate Google.decode
           (Google.double Google.messages_response
              (fun _ => inr (PDict [("payload",
                                     PDict [("headers", PList [])])]))
              Google.accepts Google.accepts)
           (PStr "msg1") [("payload", PDict [("headers", PList [])])]
           [("headers", PList [])] [] [] "" ValueError
           [Google.GetMessage (PStr "msg1")] (Google.st [] [] [])
           eq_refl eq_refl eq_refl eq_refl eq_refl eq_refl eq_refl eq_refl).
Defined.
